(** * FrappeDeskTheme: the theme controller of frappe_desk_theme.js

    A shallow embedding of the class [FrappeDeskTheme]
    (frappe_desk_theme/public/js/frappe_desk_theme.js) and the properties
    its description states about it.

    Conventions of the embedding.
    - JavaScript values that reach the controller come out of
      [response.json()] or [JSON.parse], so they are JSON values
      ([JsVal]); [undefined] is the [None] of [option JsVal].
      Numbers are the integers ([Z]) that JavaScript prints in decimal
      notation (below 10^21 in absolute value): epoch milliseconds and
      0/1 flags.
    - The controller instance, the document and the host environment
      form one record, [World]; methods are state transformers that
      may throw ([M]).  A throw keeps the mutations made before it.
    - [await] points are run to completion in program order; the two
      [setTimeout] callbacks are queued in [timers].
    - Library functions are taken by their contract: [JSON.parse] of
      [JSON.stringify v] is [v] on JSON values; [setProperty] stores
      the value of a custom property when it is a <declaration-value>
      of CSS Syntax Level 3 and leaves the property alone otherwise;
      the global [frappe] is declared on every page the script is
      loaded in. *)

From Stdlib Require Import Ascii.
From stdpp Require Import gmap strings list pretty.

Set Warnings "-register-all".

Open Scope string_scope.
Open Scope Z_scope.

(** ** JSON values and the JavaScript operators the source applies to them *)

Inductive JsVal : Type :=
  | JNull
  | JBool (b : bool)
  | JNum (n : Z)
  | JStr (s : string)
  | JArr (items : list JsVal)
  | JObj (fields : list (string * JsVal)).

(** Own property of a parsed object: keys of a parsed object are unique,
    the association list is searched from the front. *)
Fixpoint own_property (fields : list (string * JsVal)) (k : string) : option JsVal :=
  match fields with
  | [] => None
  | (k', v) :: rest => if String.eqb k' k then Some v else own_property rest k
  end.

(** [v.k] for a value [v] that is not [null].  None of the names the
    source reads ([data], [timestamp], [message], [role], the theme
    fields) exists on the prototypes of numbers, strings, booleans or
    arrays, so only objects answer. *)
Definition prop (v : JsVal) (k : string) : option JsVal :=
  match v with
  | JObj fields => own_property fields k
  | _ => None
  end.

(** Truthiness, as tested by [if (x)], [!x], [x && y], [x || y], [x ? a : b]. *)
Definition truthy (v : JsVal) : bool :=
  match v with
  | JNull => false
  | JBool b => b
  | JNum n => negb (n =? 0)
  | JStr s => negb (String.eqb s "")
  | JArr _ => true
  | JObj _ => true
  end.

Definition truthy_opt (o : option JsVal) : bool :=
  match o with
  | Some v => truthy v
  | None => false
  end.

(** [x !== undefined] *)
Definition defined (o : option JsVal) : bool :=
  match o with
  | Some _ => true
  | None => false
  end.

(** [x === 'literal'] and [x === n] *)
Definition is_str (o : option JsVal) (s : string) : bool :=
  match o with
  | Some (JStr s') => String.eqb s' s
  | _ => false
  end.

Definition is_num (o : option JsVal) (n : Z) : bool :=
  match o with
  | Some (JNum n') => n' =? n
  | _ => false
  end.

(** ToString, as performed by template literals and by the string
    argument of [setProperty].  Objects print through
    [Object.prototype.toString]; a number prints in decimal notation,
    which is what JavaScript does below 10^21 in absolute value. *)
Fixpoint ToString (v : JsVal) : string :=
  match v with
  | JNull => "null"
  | JBool true => "true"
  | JBool false => "false"
  | JNum n => pretty n
  | JStr s => s
  | JArr items =>
      String.concat ","
        (map (fun x => match x with JNull => "" | _ => ToString x end) items)
  | JObj _ => "[object Object]"
  end.

Definition ToString_opt (o : option JsVal) : string :=
  match o with
  | Some v => ToString v
  | None => "undefined"
  end.

(** The [value] parameter of [CSSStyleDeclaration.setProperty] converts
    [null] to the empty string. *)
Definition css_arg (o : option JsVal) : string :=
  match o with
  | Some JNull => ""
  | _ => ToString_opt o
  end.

(** ToNumber, as performed by the subtraction in [isCacheValid];
    [None] is NaN.  Of the strings, those that are empty or a signed
    decimal integer once trimmed convert to an integer; the other
    numerals of JavaScript (hexadecimal, fractions, exponents,
    Infinity) are not numbers of this embedding and are left with NaN.
    The controller itself only ever stores a number as timestamp. *)
Definition is_space (c : ascii) : bool :=
  let n := nat_of_ascii c in
  ((9 <=? n) && (n <=? 13))%nat || (n =? 32)%nat.

Fixpoint trim_left (s : string) : string :=
  match s with
  | String c r => if is_space c then trim_left r else s
  | EmptyString => EmptyString
  end.

Definition trim (s : string) : string :=
  String.rev (trim_left (String.rev (trim_left s))).

Definition digit_value (c : ascii) : option Z :=
  let n := nat_of_ascii c in
  if ((48 <=? n) && (n <=? 57))%nat then Some (Z.of_nat n - 48) else None.

Fixpoint digits_value (acc : Z) (s : string) : option Z :=
  match s with
  | EmptyString => Some acc
  | String c r =>
      match digit_value c with
      | Some d => digits_value (10 * acc + d) r
      | None => None
      end
  end.

Definition unsigned_value (s : string) : option Z :=
  match s with
  | EmptyString => None
  | _ => digits_value 0 s
  end.

Definition StringToNumber (s : string) : option Z :=
  match trim s with
  | EmptyString => Some 0
  | String "-" r => Z.opp <$> unsigned_value r
  | String "+" r => unsigned_value r
  | t => unsigned_value t
  end.

Definition ToNumber (o : option JsVal) : option Z :=
  match o with
  | None => None
  | Some JNull => Some 0
  | Some (JBool b) => Some (if b then 1 else 0)
  | Some (JNum n) => Some n
  | Some (JStr s) => StringToNumber s
  | Some (JArr items) => StringToNumber (ToString (JArr items))
  | Some (JObj _) => None
  end.

(** ** The value of a custom property *)

Definition dquote_char : ascii := ascii_of_nat 34.
Definition dquote : string := String dquote_char EmptyString.

(** Classes of characters of CSS Syntax Level 3. *)
Definition is_css_space (c : ascii) : bool :=
  let n := nat_of_ascii c in
  ((n =? 9) || (n =? 10) || (n =? 12) || (n =? 13) || (n =? 32))%nat.

Definition is_newline (c : ascii) : bool :=
  let n := nat_of_ascii c in
  ((n =? 10) || (n =? 12) || (n =? 13))%nat.

Definition is_hex_digit (c : ascii) : bool :=
  let n := nat_of_ascii c in
  ((48 <=? n) && (n <=? 57) || (65 <=? n) && (n <=? 70) || (97 <=? n) && (n <=? 102))%nat.

Definition is_name_char (c : ascii) : bool :=
  let n := nat_of_ascii c in
  ((48 <=? n) && (n <=? 57) || (65 <=? n) && (n <=? 90) || (97 <=? n) && (n <=? 122)
   || (n =? 95) || (n =? 45) || (128 <=? n))%nat.

Definition is_non_printable (c : ascii) : bool :=
  let n := nat_of_ascii c in
  ((n <=? 8) || (n =? 11) || (14 <=? n) && (n <=? 31) || (n =? 127))%nat.

Definition is_char (c : ascii) (s : string) : bool :=
  match s with
  | String c' EmptyString => Ascii.eqb c c'
  | _ => false
  end.

(** Leading and trailing white space is not part of a value. *)
Fixpoint css_trim_left (s : string) : string :=
  match s with
  | String c r => if is_css_space c then css_trim_left r else s
  | EmptyString => EmptyString
  end.

Fixpoint css_trim_right (s : string) : string :=
  match s with
  | EmptyString => EmptyString
  | String c r =>
      match css_trim_right r with
      | EmptyString => if is_css_space c then EmptyString else String c EmptyString
      | r' => String c r'
      end
  end.

Definition css_trim (s : string) : string := css_trim_right (css_trim_left s).

(** Preprocessing of the input stream: CR LF, CR and FF become LF. *)
Fixpoint preprocess (s : string) : string :=
  match s with
  | EmptyString => EmptyString
  | String c r =>
      if (nat_of_ascii c =? 13)%nat then
        String (ascii_of_nat 10)
          match r with
          | String c' r' => if (nat_of_ascii c' =? 10)%nat then preprocess r' else preprocess r
          | EmptyString => EmptyString
          end
      else if (nat_of_ascii c =? 12)%nat then String (ascii_of_nat 10) (preprocess r)
      else String c (preprocess r)
  end.

(** The tokenizer, as far as it decides whether a value is a
    <declaration-value>: which token the scanner is in, how far an
    identifier has spelled [url], what an escape still takes, how many
    characters of a multi-character token are still to be skipped, and
    the closing brackets the open blocks wait for. *)
Inductive Word : Type :=
  | Boundary
  | U1
  | U2
  | U3
  | InName.

Inductive Mode : Type :=
  | Normal (word : Word)
  | InString (quote : ascii)
  | InComment
  | UrlStart
  | InUrl (ended : bool).

Inductive Escape : Type :=
  | NoEscape
  | Escaped
  | Hex (more : nat).

Record Scanner : Type := mkScanner {
  mode : Mode;
  escape : Escape;
  skip : nat;
  closers : list ascii
}.

Definition next_word (word : Word) (c : ascii) : Word :=
  match word with
  | Boundary => if is_char c "u" || is_char c "U" then U1 else InName
  | U1 => if is_char c "r" || is_char c "R" then U2 else InName
  | U2 => if is_char c "l" || is_char c "L" then U3 else InName
  | U3 => InName
  | InName => InName
  end.

Definition in_mode (m : Mode) (blocks : list ascii) : Scanner :=
  mkScanner m NoEscape 0 blocks.

(** One character of an unquoted url; [ended]: white space has been
    seen, which only the closing parenthesis may follow. *)
Definition url_step (ended : bool) (blocks : list ascii) (c : ascii) : option Scanner :=
  if is_char c ")" then Some (in_mode (Normal Boundary) blocks)
  else if is_css_space c then Some (in_mode (InUrl true) blocks)
  else if ended then None
  else if is_char c dquote || is_char c "'" || is_char c "(" || is_non_printable c
  then None
  else if is_char c "\" then Some (mkScanner (InUrl false) Escaped 0 blocks)
  else Some (in_mode (InUrl false) blocks).

(** One character outside an escape.  [None]: the value is not a
    <declaration-value>, because of a bad string or a bad url token, a
    closing bracket without its opening one, or a semicolon or an
    exclamation mark at the top level. *)
Definition token_step (m : Mode) (blocks : list ascii) (c : ascii) (rest : string)
  : option Scanner :=
  match m with
  | Normal word =>
      if is_char c "\" then Some (mkScanner (Normal InName) Escaped 0 blocks)
      else if is_char c dquote || is_char c "'" then Some (in_mode (InString c) blocks)
      else if is_char c "/" && String.prefix "*" rest
      then Some (mkScanner InComment NoEscape 1 blocks)
      else if is_char c "<" && String.prefix "!--" rest
      then Some (mkScanner (Normal Boundary) NoEscape 3 blocks)
      else if is_char c "(" then
        match word with
        | U3 => Some (in_mode UrlStart blocks)
        | _ => Some (in_mode (Normal Boundary) (")"%char :: blocks))
        end
      else if is_char c "[" then Some (in_mode (Normal Boundary) ("]"%char :: blocks))
      else if is_char c "{" then Some (in_mode (Normal Boundary) ("}"%char :: blocks))
      else if is_char c ")" || is_char c "]" || is_char c "}" then
        match blocks with
        | closing :: outer =>
            if Ascii.eqb c closing then Some (in_mode (Normal Boundary) outer) else None
        | [] => None
        end
      else if is_char c ";" || is_char c "!" then
        match blocks with
        | [] => None
        | _ => Some (in_mode (Normal Boundary) blocks)
        end
      else if is_char c "#" || is_char c "@" then Some (in_mode (Normal InName) blocks)
      else if is_name_char c then Some (in_mode (Normal (next_word word c)) blocks)
      else Some (in_mode (Normal Boundary) blocks)
  | InString quote =>
      if Ascii.eqb c quote then Some (in_mode (Normal Boundary) blocks)
      else if is_char c "\" then Some (mkScanner (InString quote) Escaped 0 blocks)
      else if is_newline c then None
      else Some (in_mode (InString quote) blocks)
  | InComment =>
      if is_char c "*" && String.prefix "/" rest
      then Some (mkScanner (Normal Boundary) NoEscape 1 blocks)
      else Some (in_mode InComment blocks)
  | UrlStart =>
      if is_css_space c then Some (in_mode UrlStart blocks)
      else if is_char c dquote || is_char c "'"
      then Some (in_mode (InString c) (")"%char :: blocks))
      else url_step false blocks c
  | InUrl ended => url_step ended blocks c
  end.

(** One character of the value. *)
Definition scan_step (s : Scanner) (c : ascii) (rest : string) : option Scanner :=
  match skip s with
  | S n => Some (mkScanner (mode s) (escape s) n (closers s))
  | O =>
      match escape s with
      | NoEscape => token_step (mode s) (closers s) c rest
      | Escaped =>
          if is_newline c then
            match mode s with
            | InString quote => Some (in_mode (InString quote) (closers s))
            | Normal _ => token_step (Normal Boundary) (closers s) c rest
            | _ => None
            end
          else if is_hex_digit c then Some (mkScanner (mode s) (Hex 5) 0 (closers s))
          else Some (in_mode (mode s) (closers s))
      | Hex more =>
          match more with
          | S more' =>
              if is_hex_digit c then Some (mkScanner (mode s) (Hex more') 0 (closers s))
              else if is_css_space c then Some (in_mode (mode s) (closers s))
              else token_step (mode s) (closers s) c rest
          | O =>
              if is_css_space c then Some (in_mode (mode s) (closers s))
              else token_step (mode s) (closers s) c rest
          end
      end
  end.

Fixpoint scan (s : Scanner) (value : string) : bool :=
  match value with
  | EmptyString => true
  | String c rest =>
      match scan_step s c rest with
      | Some s' => scan s' rest
      | None => false
      end
  end.

(** The value [setProperty] stores for a custom property, if it
    accepts the text it is given: the text without the white space
    around it, provided it is a <declaration-value> (no bad string, no
    bad url, no closing bracket without its opening one, no semicolon
    and no exclamation mark at the top level).  An identifier spelled
    with escapes is not recognised as [url]; what a browser checks
    beyond the tokens (the syntax of var() references, a block in
    braces beside other tokens at the top level) is not part of this
    embedding. *)
Definition declaration_value (value : string) : option string :=
  let v := css_trim value in
  if scan (in_mode (Normal Boundary) []) (preprocess v) then Some v else None.

(** ** The style declaration of the document root *)

(** [document.documentElement.style], restricted to custom properties:
    a finite map from property names to their values. *)
Abbreviation Style := (gmap string string).

(** [root.style.setProperty(name, value)]: an empty value removes the
    property; a value that is a <declaration-value> is stored, without
    the white space around it; any other value leaves the declaration
    as it was. *)
Definition setProperty (name value : string) (st : Style) : Style :=
  if String.eqb value "" then delete name st
  else
    match declaration_value value with
    | Some v => <[name := v]> st
    | None => st
    end.

Definition removeProperty (name : string) (st : Style) : Style :=
  delete name st.

(** A statement acting on the style declaration only; a block runs its
    statements in order. *)
Abbreviation Stmt := (Style -> Style).

Definition block (stmts : list Stmt) : Stmt :=
  fun st => foldl (fun s f => f s) st stmts.

(** [if (c) { ... }] *)
Definition when (c : bool) (body : list Stmt) : Stmt :=
  if c then block body else id.

Notation "v # k" := (prop v k) (at level 1, left associativity, only parsing).

(** A ternary on strings. *)
Definition choose (c : bool) (a b : string) : string := if c then a else b.

(** The list [cssVariables] of [clearCSSVariables]. *)
Definition cssVariables : list string :=
  [ "--login-bg-color"; "--login-bg-image"; "--login-box-position"; "--login-box-right"; "--login-box-left";
    "--login-btn-bg"; "--login-btn-color"; "--login-btn-hover-bg"; "--login-btn-hover-color";
    "--login-box-bg"; "--page-heading-color"; "--input-bg"; "--input-color"; "--input-border";
    "--input-label-color"; "--navbar-bg"; "--navbar-color"; "--hide-help"; "--btn-primary-bg";
    "--btn-primary-color"; "--btn-primary-hover-bg"; "--btn-primary-hover-color"; "--btn-secondary-bg";
    "--btn-secondary-color"; "--btn-secondary-hover-bg"; "--btn-secondary-hover-color"; "--body-bg";
    "--content-bg"; "--table-head-bg"; "--table-head-color"; "--table-body-bg"; "--table-body-color";
    "--hide-like-comment"; "--widget-bg"; "--widget-border"; "--widget-color"; "--sidebar-expanded";
    "--login-content-border"; "--login-title-display"; "--login-title-after-display";
    "--login-title-after-justify"; "--login-title-after-margin"; "--login-title-after-content"; "--login-title-after-color";
    "--login-box-top"; "--login-box-bg-override"; "--login-box-border-radius"; "--search-bar-display";
    "--navbar-toggler-border"; "--breadcrumb-disabled-color"; "--help-nav-link-color"; "--help-nav-link-stroke";
    "--hide-app-switcher"; "--app-switcher-pointer-events" ].

(** [cssVariables.forEach(variable => root.style.removeProperty(variable))] *)
Definition clearCSSVariables : Stmt :=
  block (map removeProperty cssVariables).

Definition setDefaultCSSVariables : list Stmt :=
  [ setProperty "--login-box-position" "static";
    setProperty "--login-box-right" "auto";
    setProperty "--login-box-left" "auto";
    setProperty "--login-box-top" "18%";
    setProperty "--login-box-bg" "#fff";
    setProperty "--login-content-border" "2px solid #d1d8dd";
    setProperty "--login-title-display" "block";
    setProperty "--login-title-after-display" "none";
    setProperty "--hide-help" "block";
    setProperty "--hide-like-comment" "block";
    setProperty "--hide-app-switcher" "block";
    setProperty "--app-switcher-pointer-events" "auto";
    setProperty "--sidebar-expanded" "";
    setProperty "--login-box-width" "400px";
    setProperty "--search-bar-display" "block";
    setProperty "--navbar-toggler-border" "#dee2e6";
    setProperty "--breadcrumb-disabled-color" "#6c757d";
    setProperty "--help-nav-link-color" "inherit";
    setProperty "--help-nav-link-stroke" "currentColor" ].

(** A field that is copied to its property when it is truthy:
    [if (theme.f) { root.style.setProperty(p, theme.f); }] *)
Definition copy_field (theme : JsVal) (field name : string) : Stmt :=
  when (truthy_opt theme#field) [ setProperty name (css_arg theme#field) ].

(** The statements of [setCSSVariables] that follow the reset, for a
    theme that is not [null]. *)
Definition themed_statements (theme : JsVal) : list Stmt :=
  [ copy_field theme "login_page_background_color" "--login-bg-color";
    when (truthy_opt theme#"login_page_background_image")
      [ setProperty "--login-bg-image"
          ("url(" +:+ dquote +:+ ToString_opt theme#"login_page_background_image" +:+ dquote +:+ ")") ];
    when (truthy_opt theme#"login_box_position" && negb (is_str theme#"login_box_position" "Default"))
      [ setProperty "--login-box-position" "absolute";
        setProperty "--login-box-right" (choose (is_str theme#"login_box_position" "Right") "10%" "auto");
        setProperty "--login-box-left" (choose (is_str theme#"login_box_position" "Left") "10%" "auto");
        setProperty "--login-box-padding"
          (choose (is_num theme#"is_app_details_inside_the_box" 1) "18px 40px 40px 40px" "40px") ];
    when (defined theme#"is_app_details_inside_the_box")
      [ setProperty "--login-box-top" (choose (is_num theme#"is_app_details_inside_the_box" 1) "26%" "18%") ];
    when (is_num theme#"is_app_details_inside_the_box" 1)
      [ setProperty "--login-box-bg-override" (css_arg theme#"login_box_background_color");
        setProperty "--login-box-border-radius" "10px" ];
    copy_field theme "login_button_background_color" "--login-btn-bg";
    copy_field theme "login_button_text_color" "--login-btn-color";
    copy_field theme "login_page_button_hover_background_color" "--login-btn-hover-bg";
    copy_field theme "login_page_button_hover_text_color" "--login-btn-hover-color";
    copy_field theme "login_box_background_color" "--login-box-bg";
    copy_field theme "page_heading_text_color" "--page-heading-color";
    when (is_num theme#"is_app_details_inside_the_box" 1)
      [ setProperty "--login-content-border" "none" ];
    when (truthy_opt theme#"login_page_title")
      [ setProperty "--login-title-display" "none";
        setProperty "--login-title-after-display" "flex";
        setProperty "--login-title-after-justify" "center";
        setProperty "--login-title-after-margin" "10px";
        setProperty "--login-title-after-content" ("'" +:+ ToString_opt theme#"login_page_title" +:+ "'");
        copy_field theme "page_heading_text_color" "--login-title-after-color" ];
    copy_field theme "input_background_color" "--input-bg";
    copy_field theme "input_text_color" "--input-color";
    copy_field theme "input_border_color" "--input-border";
    copy_field theme "input_label_color" "--input-label-color";
    copy_field theme "navbar_color" "--navbar-bg";
    copy_field theme "navbar_text_color" "--navbar-color";
    when (defined theme#"hide_help_button")
      [ setProperty "--hide-help" (choose (truthy_opt theme#"hide_help_button") "none" "block") ];
    when (defined theme#"hide_app_switcher")
      [ setProperty "--hide-app-switcher" (choose (truthy_opt theme#"hide_app_switcher") "none" "block");
        setProperty "--app-switcher-pointer-events" (choose (truthy_opt theme#"hide_app_switcher") "none" "auto") ];
    copy_field theme "button_background_color" "--btn-primary-bg";
    copy_field theme "button_text_color" "--btn-primary-color";
    copy_field theme "button_hover_background_color" "--btn-primary-hover-bg";
    copy_field theme "button_hover_text_color" "--btn-primary-hover-color";
    copy_field theme "secondary_button_background_color" "--btn-secondary-bg";
    copy_field theme "secondary_button_text_color" "--btn-secondary-color";
    copy_field theme "secondary_button_hover_background_color" "--btn-secondary-hover-bg";
    copy_field theme "secondary_button_hover_text_color" "--btn-secondary-hover-color";
    copy_field theme "body_background_color" "--body-bg";
    copy_field theme "main_body_content_box_background_color" "--content-bg";
    copy_field theme "main_body_content_box_text_color" "--content-text-color";
    copy_field theme "sidebar_background_color" "--sidebar-bg";
    copy_field theme "sidebar_text_color" "--sidebar-text-color";
    copy_field theme "table_head_background_color" "--table-head-bg";
    copy_field theme "table_head_text_color" "--table-head-color";
    copy_field theme "table_body_background_color" "--table-body-bg";
    copy_field theme "table_body_text_color" "--table-body-color";
    when (defined theme#"table_hide_like_comment_section")
      [ setProperty "--hide-like-comment"
          (choose (truthy_opt theme#"table_hide_like_comment_section") "none" "block") ];
    copy_field theme "number_card_background_color" "--widget-bg";
    copy_field theme "number_card_border_color" "--widget-border";
    copy_field theme "number_card_text_color" "--widget-color";
    when (defined theme#"hide_side_bar")
      [ setProperty "--sidebar-expanded" (choose (is_num theme#"hide_side_bar" 0) "expanded" "") ] ].

(** ** The world the controller runs in *)

(** A DOM element, as far as the controller touches it: its class list
    and its inline [style.display]. *)
Record Element : Type := mkElement {
  classList : list string;
  display : string
}.

Definition contains (c : string) (e : Element) : bool :=
  bool_decide (c ∈ classList e).

Definition classList_add (c : string) (e : Element) : Element :=
  if contains c e then e else mkElement (classList e ++ [c]) (display e).

Definition classList_remove (c : string) (e : Element) : Element :=
  mkElement (filter (fun c' => c' ≠ c) (classList e)) (display e).

Definition set_display (d : string) (e : Element) : Element :=
  mkElement (classList e) d.

(** The text stored under the cache key, seen through [JSON.parse]:
    either it parses to a value, or parsing throws.  [JSON.stringify v]
    is [JsonText v]. *)
Inductive Text : Type :=
  | JsonText (v : JsVal)
  | Malformed.

(** [localStorage]: it may be disabled (every access throws) or refuse
    a write (quota); [item] is the entry under [cacheKey]. *)
Record Storage : Type := mkStorage {
  available : bool;
  accepts_writes : bool;
  item : option Text
}.

(** The callbacks handed to [setTimeout]: both add the class
    [theme-ready] to the login box. *)
Inductive Callback : Type :=
  | RevealLoginBox.

Inductive Listener : Type :=
  | ThemeChangedListener
  | BodyMutationObserver.

(** [frappe.app.sidebar.apps_switcher.set_current_app]: a host function
    that may throw on the app it is given. *)
Record Switcher : Type := mkSwitcher {
  switches_to : JsVal -> bool
}.

Record World : Type := mkWorld {
  (* the controller *)
  themeData : JsVal;
  (* the document *)
  style : Style;
  loginBox : option Element;          (* .for-login *)
  sidebarContainer : option Element;  (* .body-sidebar-container *)
  searchBar : option Element;         (* .input-group.search-bar.text-muted *)
  timers : list (Z * Callback);
  listeners : list Listener;
  (* the browser *)
  localStorage : Storage;
  clock : Z;                          (* what Date.now() returns *)
  requests : nat;                     (* calls of fetch so far *)
  (* the host application *)
  roles : option (list string);       (* frappe?.boot?.user?.roles *)
  apps_switcher : option Switcher;
  current_app : option JsVal;
  warnings : nat                      (* calls of console.warn so far *)
}.

Definition with_themeData (v : JsVal) (w : World) : World :=
  mkWorld v (style w) (loginBox w) (sidebarContainer w) (searchBar w) (timers w)
    (listeners w) (localStorage w) (clock w) (requests w) (roles w) (apps_switcher w)
    (current_app w) (warnings w).

Definition with_style (st : Style) (w : World) : World :=
  mkWorld (themeData w) st (loginBox w) (sidebarContainer w) (searchBar w) (timers w)
    (listeners w) (localStorage w) (clock w) (requests w) (roles w) (apps_switcher w)
    (current_app w) (warnings w).

Definition with_loginBox (e : option Element) (w : World) : World :=
  mkWorld (themeData w) (style w) e (sidebarContainer w) (searchBar w) (timers w)
    (listeners w) (localStorage w) (clock w) (requests w) (roles w) (apps_switcher w)
    (current_app w) (warnings w).

Definition with_sidebarContainer (e : option Element) (w : World) : World :=
  mkWorld (themeData w) (style w) (loginBox w) e (searchBar w) (timers w)
    (listeners w) (localStorage w) (clock w) (requests w) (roles w) (apps_switcher w)
    (current_app w) (warnings w).

Definition with_searchBar (e : option Element) (w : World) : World :=
  mkWorld (themeData w) (style w) (loginBox w) (sidebarContainer w) e (timers w)
    (listeners w) (localStorage w) (clock w) (requests w) (roles w) (apps_switcher w)
    (current_app w) (warnings w).

Definition with_timers (ts : list (Z * Callback)) (w : World) : World :=
  mkWorld (themeData w) (style w) (loginBox w) (sidebarContainer w) (searchBar w) ts
    (listeners w) (localStorage w) (clock w) (requests w) (roles w) (apps_switcher w)
    (current_app w) (warnings w).

Definition with_listeners (ls : list Listener) (w : World) : World :=
  mkWorld (themeData w) (style w) (loginBox w) (sidebarContainer w) (searchBar w) (timers w)
    ls (localStorage w) (clock w) (requests w) (roles w) (apps_switcher w)
    (current_app w) (warnings w).

Definition with_localStorage (s : Storage) (w : World) : World :=
  mkWorld (themeData w) (style w) (loginBox w) (sidebarContainer w) (searchBar w) (timers w)
    (listeners w) s (clock w) (requests w) (roles w) (apps_switcher w)
    (current_app w) (warnings w).

Definition with_clock (t : Z) (w : World) : World :=
  mkWorld (themeData w) (style w) (loginBox w) (sidebarContainer w) (searchBar w) (timers w)
    (listeners w) (localStorage w) t (requests w) (roles w) (apps_switcher w)
    (current_app w) (warnings w).

Definition with_requests (n : nat) (w : World) : World :=
  mkWorld (themeData w) (style w) (loginBox w) (sidebarContainer w) (searchBar w) (timers w)
    (listeners w) (localStorage w) (clock w) n (roles w) (apps_switcher w)
    (current_app w) (warnings w).

Definition with_roles (r : option (list string)) (w : World) : World :=
  mkWorld (themeData w) (style w) (loginBox w) (sidebarContainer w) (searchBar w) (timers w)
    (listeners w) (localStorage w) (clock w) (requests w) r (apps_switcher w)
    (current_app w) (warnings w).

Definition with_current_app (a : option JsVal) (w : World) : World :=
  mkWorld (themeData w) (style w) (loginBox w) (sidebarContainer w) (searchBar w) (timers w)
    (listeners w) (localStorage w) (clock w) (requests w) (roles w) (apps_switcher w)
    a (warnings w).

Definition with_warnings (n : nat) (w : World) : World :=
  mkWorld (themeData w) (style w) (loginBox w) (sidebarContainer w) (searchBar w) (timers w)
    (listeners w) (localStorage w) (clock w) (requests w) (roles w) (apps_switcher w)
    (current_app w) n.

(** ** Methods as state transformers that may throw *)

Inductive JsError : Type :=
  | TypeError                 (* property read on null, call of a non-function *)
  | NetworkError              (* fetch rejected *)
  | HttpError (status : Z)    (* new Error(`HTTP error! Status: ...`) *)
  | BodyError                 (* response.json() rejected *)
  | NoThemeData.              (* new Error('No theme data received') *)

Inductive Result (A : Type) : Type :=
  | Ok (a : A)
  | Throw (e : JsError).
Arguments Ok {A} a.
Arguments Throw {A} e.

Definition M (A : Type) : Type := World -> Result A * World.

#[global] Instance M_ret : MRet M := fun A a w => (Ok a, w).

#[global] Instance M_bind : MBind M := fun A B f m w =>
  match m w with
  | (Ok a, w') => f a w'
  | (Throw e, w') => (Throw e, w')
  end.

Definition throw {A : Type} (e : JsError) : M A := fun w => (Throw e, w).

(** [try { body } catch (error) { handler }] *)
Definition try_catch {A : Type} (body : M A) (handler : JsError -> M A) : M A :=
  fun w =>
    match body w with
    | (Ok a, w') => (Ok a, w')
    | (Throw e, w') => handler e w'
    end.

Definition read {A : Type} (f : World -> A) : M A := fun w => (Ok (f w), w).
Definition update (f : World -> World) : M unit := fun w => (Ok tt, f w).

(** The outcome and the final world of a run. *)
Definition outcome {A : Type} (m : M A) (w : World) : Result A := fst (m w).
Definition exec {A : Type} (m : M A) (w : World) : World := snd (m w).

(** A computation that throws or returns without touching the world,
    run inside a method. *)
Definition lift {A : Type} (r : Result A) : M A := fun w => (r, w).

#[global] Instance Result_ret : MRet Result := fun A a => Ok a.

#[global] Instance Result_bind : MBind Result := fun A B f r =>
  match r with
  | Ok a => f a
  | Throw e => Throw e
  end.

(** [v.k] where [v] may be [null]: reading a property of [null] throws. *)
Definition get (v : JsVal) (k : string) : Result (option JsVal) :=
  match v with
  | JNull => Throw TypeError
  | _ => Ok (prop v k)
  end.

(** [v?.k] *)
Definition get_opt (v : JsVal) (k : string) : option JsVal :=
  match v with
  | JNull => None
  | _ => prop v k
  end.

(** [a || b] on values, where [a] may be [undefined]. *)
Definition or_else (a : option JsVal) (b : JsVal) : JsVal :=
  match a with
  | Some v => if truthy v then v else b
  | None => b
  end.

(** [items.some(p)], stopping at the first element that satisfies [p]. *)
Fixpoint some {A : Type} (p : A -> Result bool) (items : list A) : Result bool :=
  match items with
  | [] => mret false
  | x :: rest => b ← p x; if b : bool then mret true else some p rest
  end.

(** [v.some(p)] for a truthy [v]: only arrays have the method. *)
Definition array_some (v : option JsVal) (p : JsVal -> Result bool) : Result bool :=
  match v with
  | Some (JArr items) => some p items
  | _ => Throw TypeError
  end.

(** ** The class [FrappeDeskTheme] *)

Definition cacheTimeout : Z := 24 * 60 * 60 * 1000.

Definition setTimeout (cb : Callback) (delay : Z) : M unit :=
  update (fun w => with_timers (timers w ++ [(delay, cb)]) w).

Definition showLoginBoxFallback : M unit :=
  loginBox ← read loginBox;
  match loginBox with
  | Some e =>
      if negb (contains "theme-ready" e) then setTimeout RevealLoginBox 100 else mret tt
  | None => mret tt
  end.

(** [getCachedTheme]: every failure of the storage or of the parser is
    caught and answered with [null]. *)
Definition getCachedTheme (w : World) : JsVal :=
  if available (localStorage w) then
    match item (localStorage w) with
    | Some (JsonText v) => v
    | Some Malformed => JNull
    | None => JNull
    end
  else JNull.

Definition setItem (t : Text) (s : Storage) : Storage :=
  mkStorage (available s) (accepts_writes s) (Some t).

(** [setCachedTheme]: a disabled or full storage is ignored. *)
Definition setCachedTheme (themeData : JsVal) : M unit :=
  update (fun w =>
    let cacheData :=
      JObj [("data", themeData); ("timestamp", JNum (clock w)); ("version", JNum 1)] in
    if available (localStorage w) && accepts_writes (localStorage w)
    then with_localStorage (setItem (JsonText cacheData) (localStorage w)) w
    else w).

Definition isCacheValid (w : World) : bool :=
  let cachedData := getCachedTheme w in
  if negb (truthy cachedData) then false
  else
    let now := clock w in
    match ToNumber cachedData#"timestamp" with
    | Some timestamp => now - timestamp <? cacheTimeout
    | None => false
    end.

(** What the server does with one request: the promise of [fetch]
    rejects, or it resolves to a response with a status and a body that
    is JSON or not; [latency] is the time that passes meanwhile. *)
Inductive Response : Type :=
  | Rejected
  | Reply (status : Z) (body : option JsVal).

Record Network : Type := mkNetwork {
  response : Response;
  latency : Z
}.

(** [response.ok] *)
Definition response_ok (status : Z) : bool :=
  (200 <=? status) && (status <=? 299).

Definition fetch (net : Network) : M (Z * option JsVal) :=
  update (fun w => with_clock (clock w + latency net) (with_requests (S (requests w)) w));;
  match response net with
  | Rejected => throw NetworkError
  | Reply status body => mret (status, body)
  end.

(** [response.json()] *)
Definition json (body : option JsVal) : M JsVal :=
  match body with
  | Some data => mret data
  | None => throw BodyError
  end.

Definition loadTheme (net : Network) : M unit :=
  try_catch
    (r ← fetch net;
     if negb (response_ok r.1) then throw (HttpError r.1)
     else
       data ← json r.2;
       update (with_themeData (or_else (get_opt data "message") data));;
       themeData ← read themeData;
       if negb (truthy themeData) then throw NoThemeData
       else setCachedTheme themeData)
    (fun error =>
       cachedData ← read getCachedTheme;
       match cachedData#"data" with
       | Some data =>
           if truthy cachedData && truthy data then update (with_themeData data)
           else throw error
       | None => throw error
       end).

Definition loadThemeIfNeeded (net : Network) : M unit :=
  valid ← read isCacheValid;
  if valid : bool then mret tt else loadTheme net.

Definition clearCache : M unit :=
  update (fun w =>
    if available (localStorage w)
    then with_localStorage (mkStorage true (accepts_writes (localStorage w)) None) w
    else w).

(** The body of [getUserRoles], a function of the roles of the current
    user and of the theme. *)
Definition userRolesMatch (currentUser : option (list string)) (themeData : JsVal)
  : Result bool :=
  let hide_search := get_opt themeData "hide_search" in
  match currentUser with
  | None => mret false
  | Some currentUser =>
      if negb (truthy_opt hide_search) then mret false
      else if bool_decide ("Administrator" ∈ currentUser) then
        array_some hide_search
          (fun u => role ← get u "role"; mret (is_str role "Administrator"))
      else
        some (fun role =>
                array_some hide_search
                  (fun u => r ← get u "role"; mret (is_str r role)))
             currentUser
  end.

Definition getUserRoles : M bool :=
  currentUser ← read roles;
  themeData ← read themeData;
  lift (userRolesMatch currentUser themeData).

(** [setCSSVariables].  The reset and the defaults do not read the
    theme; the first statement after them reads a property of [theme]
    and throws when the theme is [null]; no later read can throw. *)
Definition setCSSVariables : M unit :=
  theme ← read themeData;
  update (fun w => with_style (clearCSSVariables (style w)) w);;
  update (fun w => with_style (block setDefaultCSSVariables (style w)) w);;
  lift (get theme "login_page_background_color");;
  update (fun w => with_style (block (themed_statements theme) (style w)) w).

Definition showLoginBox : M unit :=
  loginBox ← read loginBox;
  match loginBox with
  | Some _ => setTimeout RevealLoginBox 50
  | None => mret tt
  end.

Definition toggleSidebar : M unit :=
  sidebarContainer ← read sidebarContainer;
  match sidebarContainer with
  | None => mret tt
  | Some e =>
      themeData ← read themeData;
      hide_side_bar ← lift (get themeData "hide_side_bar");
      if is_num hide_side_bar 0
      then update (with_sidebarContainer (Some (classList_add "expanded" e)))
      else update (with_sidebarContainer (Some (classList_remove "expanded" e)))
  end.

Definition toggleSearchBar : M unit :=
  searchBar ← read searchBar;
  match searchBar with
  | None => mret tt
  | Some e =>
      hide ← getUserRoles;
      if hide : bool then update (with_searchBar (Some (set_display "none" e)))
      else mret tt
  end.

(** [setDefaultApp]: the call of the host's switcher is wrapped in a
    [try]; a throw becomes one [console.warn]. *)
Definition setDefaultApp : M unit :=
  themeData ← read themeData;
  hide_app_switcher ← lift (get themeData "hide_app_switcher");
  match themeData#"default_app" with
  | Some default_app =>
      if negb (truthy_opt hide_app_switcher) || negb (truthy default_app) then mret tt
      else
        switcher ← read apps_switcher;
        match switcher with
        | Some sw =>
            if switches_to sw default_app
            then update (with_current_app (Some default_app))
            else update (fun w => with_warnings (S (warnings w)) w)
        | None => mret tt
        end
  | None => mret tt
  end.

Definition applyTheme : M unit :=
  setCSSVariables;;
  toggleSidebar;;
  toggleSearchBar;;
  setDefaultApp;;
  showLoginBox.

Definition applyCachedTheme : M unit :=
  cachedData ← read getCachedTheme;
  match cachedData#"data" with
  | Some data =>
      if truthy cachedData && truthy data
      then update (with_themeData data);; applyTheme
      else showLoginBoxFallback
  | None => showLoginBoxFallback
  end.

Definition setupEventListeners : M unit :=
  update (fun w => with_listeners (listeners w ++ [ThemeChangedListener; BodyMutationObserver]) w).

Definition init (net : Network) : M unit :=
  try_catch
    (applyCachedTheme;;
     loadThemeIfNeeded net;;
     themeData ← read themeData;
     (if truthy themeData then applyTheme else mret tt);;
     setupEventListeners)
    (fun _ =>
       applyTheme;;
       showLoginBoxFallback).

(** The two listeners installed by [setupEventListeners]. *)
Definition onThemeChanged (net : Network) : M unit :=
  loadTheme net;; applyTheme.

Definition onBodyMutation : M unit :=
  toggleSearchBar.

(** Firing every pending timer. *)
Definition fire (cb : Callback) (w : World) : World :=
  match cb with
  | RevealLoginBox => with_loginBox (classList_add "theme-ready" <$> loginBox w) w
  end.

Definition run_timers (w : World) : World :=
  with_timers [] (foldl (fun w' t => fire t.2 w') w (timers w)).

(** * Vocabulary of the properties *)

(** ** Statements and single properties *)

(** A statement leaves property [k] alone. *)
Definition untouched (k : string) (f : Stmt) : Prop :=
  forall st, f st !! k = st !! k.

(** A statement gives property [k] a value that does not depend on the
    declaration it starts from. *)
Definition decides (k : string) (f : Stmt) : Prop :=
  exists r, forall st, f st !! k = r.

(** A statement never reads the declaration: each property is left
    alone or overwritten blindly. *)
Definition oblivious (f : Stmt) : Prop :=
  forall k, untouched k f \/ decides k f.

(** What a statement does to property [k]: nothing ([None]), or it
    leaves it removed or set to a value ([Some None], [Some (Some v)]). *)
Definition acts (k : string) (f : Stmt) (r : option (option string)) : Prop :=
  forall st, f st !! k = from_option id (st !! k) r.

Definition then_acts (r1 r2 : option (option string)) : option (option string) :=
  match r2 with
  | Some v => Some v
  | None => r1
  end.

(** What [setProperty] does to its property for a value: it removes
    the property ([Some None]), stores a value, or leaves the property
    as it was ([None]). *)
Definition effect (value : string) : option (option string) :=
  if String.eqb value "" then Some None else Some <$> declaration_value value.

(** Plain values: letters, digits, spaces and the signs # % , - . _
    with no space at either end.  Their tokens are identifiers, numbers,
    hashes, commas and delimiters only, so they are declaration values
    and are stored as they are. *)
Definition plain_char (c : ascii) : bool :=
  let n := nat_of_ascii c in
  ((48 <=? n) && (n <=? 57) || (65 <=? n) && (n <=? 90) || (97 <=? n) && (n <=? 122)
   || (n =? 32) || (n =? 35) || (n =? 37) || (n =? 44) || (n =? 45) || (n =? 46)
   || (n =? 95))%nat.

(** Plain characters up to the end, the last of them no space. *)
Fixpoint plain_tail (s : string) : bool :=
  match s with
  | EmptyString => false
  | String c EmptyString => plain_char c && negb (is_css_space c)
  | String c r => plain_char c && plain_tail r
  end.

Definition plain (s : string) : bool :=
  match s with
  | String c _ => negb (is_css_space c) && plain_tail s
  | EmptyString => false
  end.

(** Text that stands between two quotes [quote] as one string token:
    printable ASCII characters other than the quote and the backslash. *)
Definition quotable_char (quote c : ascii) : bool :=
  let n := nat_of_ascii c in
  ((32 <=? n) && (n <=? 126))%nat && negb (Ascii.eqb c quote) && negb (is_char c "\").

Fixpoint quotable (quote : ascii) (s : string) : bool :=
  match s with
  | EmptyString => true
  | String c r => quotable_char quote c && quotable quote r
  end.

(** The style declaration [setCSSVariables] leaves behind: after the
    reset alone (the theme is [null]) and after the whole method. *)
Definition reset_style (st : Style) : Style :=
  block setDefaultCSSVariables (clearCSSVariables st).

Definition themed_style (theme : JsVal) (st : Style) : Style :=
  block (themed_statements theme) (reset_style st).

(** ** Parts of the world *)

(** A method leaves a part of the world as it found it, whether it
    returns or throws. *)
Definition preserves {A P : Type} (part : World -> P) (m : M A) : Prop :=
  forall w, part (exec m w) = part w.

Definition controller (w : World) := (themeData w, roles w, apps_switcher w).
Definition browser (w : World) := (localStorage w, clock w, requests w).

(** A part of the world that does not depend on a given field. *)
Section Ignores.

Context {P : Type} (part : World -> P).

Definition ignores_themeData := forall v w, part (with_themeData v w) = part w.
Definition ignores_style := forall st w, part (with_style st w) = part w.
Definition ignores_sidebarContainer := forall e w, part (with_sidebarContainer e w) = part w.
Definition ignores_searchBar := forall e w, part (with_searchBar e w) = part w.
Definition ignores_timers := forall ts w, part (with_timers ts w) = part w.
Definition ignores_listeners := forall ls w, part (with_listeners ls w) = part w.
Definition ignores_switcher_calls :=
  (forall a w, part (with_current_app a w) = part w) /\
  (forall n w, part (with_warnings n w) = part w).

End Ignores.

Definition is_null (v : JsVal) : bool :=
  match v with
  | JNull => true
  | _ => false
  end.

(** The sidebar container after [toggleSidebar], the search bar after
    [toggleSearchBar] when the role match gave [r]. *)
Definition toggled (theme : JsVal) (e : Element) : Element :=
  if is_num theme#"hide_side_bar" 0 then classList_add "expanded" e
  else classList_remove "expanded" e.

Definition hidden_for (r : Result bool) (e : Element) : Element :=
  match r with
  | Ok true => set_display "none" e
  | _ => e
  end.

(** ** The cache and the network *)

(** The world once a request has been answered. *)
Definition fetched (net : Network) (w : World) : World :=
  with_clock (clock w + latency net) (with_requests (S (requests w)) w).

(** The answers on which [loadTheme] enters its [catch]: a rejected
    request, a status that is not a success, a body that is not JSON,
    and a payload that is empty (falsy) once unwrapped. *)
Inductive load_fails : Response -> Prop :=
  | fails_rejected : load_fails Rejected
  | fails_status status body :
      response_ok status = false -> load_fails (Reply status body)
  | fails_body status :
      response_ok status = true -> load_fails (Reply status None)
  | fails_empty status data :
      response_ok status = true ->
      truthy (or_else (get_opt data "message") data) = false ->
      load_fails (Reply status (Some data)).

(** The error a failed load throws and the world it leaves at the
    [catch]: an empty payload has already replaced the theme state. *)
Definition load_error (net : Network) : JsError :=
  match response net with
  | Rejected => NetworkError
  | Reply status body =>
      if negb (response_ok status) then HttpError status
      else match body with
           | None => BodyError
           | Some _ => NoThemeData
           end
  end.

Definition failed_load (net : Network) (w : World) : World :=
  match response net with
  | Reply status (Some data) =>
      if response_ok status
      then with_themeData (or_else (get_opt data "message") data) (fetched net w)
      else fetched net w
  | _ => fetched net w
  end.

(** ** The visibility fields *)

(** The mapping ascribed to a visibility field: whenever [field] is
    present, property [name] is [on] for a truthy value and [off] for a
    falsy one. *)
Definition maps_visibility (field name on off : string) : Prop :=
  forall (w : World) (v : JsVal),
    (themeData w)#field = Some v ->
    style (exec applyTheme w) !! name = Some (if truthy v then on else off).

(** ** Mutations of the document *)

(** One batch of mutations seen by the observer, after the host has
    changed the theme state and the roles at will. *)
Definition mutation (change : JsVal * option (list string)) (w : World) : World :=
  exec onBodyMutation (with_roles change.2 (with_themeData change.1 w)).

Definition after_mutations (changes : list (JsVal * option (list string))) (w : World)
  : World :=
  foldl (fun w' change => mutation change w') w changes.

(** ** Sample worlds *)

(** A page with the three elements the controller looks for, an empty
    working storage, and a user who is a Sales User. *)
Definition page (theme : JsVal) : World :=
  mkWorld theme ∅
    (Some (mkElement ["for-login"] "")) (Some (mkElement ["body-sidebar-container"] ""))
    (Some (mkElement ["input-group"; "search-bar"; "text-muted"] ""))
    [] [] (mkStorage true true None) 1700000000000 0
    (Some ["Sales User"]) None None 0.

(** The entry [setCachedTheme] writes. *)
Definition cache_entry (data : JsVal) (timestamp : Z) : JsVal :=
  JObj [("data", data); ("timestamp", JNum timestamp); ("version", JNum 1)].

(** A freshly loaded page whose storage holds an entry. *)
Definition cached_page (data : JsVal) (timestamp now : Z) : World :=
  with_clock now
    (with_localStorage (mkStorage true true (Some (JsonText (cache_entry data timestamp))))
       (page JNull)).

Definition theme_with_sidebar_color : JsVal :=
  JObj [("sidebar_background_color", JStr "#123456")].

Definition theme_without_fields : JsVal := JObj [].

Definition theme_sidebar_flag (flag : Z) : JsVal := JObj [("hide_side_bar", JNum flag)].

Definition theme_all_hidden : JsVal :=
  JObj [ ("hide_help_button", JNum 1); ("hide_app_switcher", JNum 1);
         ("table_hide_like_comment_section", JNum 0); ("hide_side_bar", JNum 0) ].

Definition theme_hiding_search (role : string) : JsVal :=
  JObj [("hide_search", JArr [JObj [("role", JStr role)]])].

Definition server_error : Network := mkNetwork (Reply 500 None) 120.

(** ** The method [refreshTheme] *)

(** What [refreshTheme] lets the page see when it is done: the event
    [themeRefreshed] it dispatches, with its [detail], or the error it
    hands to [console.error]. *)
Inductive Notice : Type :=
  | ThemeRefreshed (detail : JsVal)
  | ConsoleError (error : JsError).

Definition refreshTheme (net : Network) : M Notice :=
  try_catch
    (loadTheme net;;
     applyTheme;;
     themeData ← read themeData;
     mret (ThemeRefreshed (JObj [("themeData", themeData)])))
    (fun error => mret (ConsoleError error)).

(** ** Loads that succeed *)

(** [data?.message || data] *)
Definition unwrap (data : JsVal) : JsVal := or_else (get_opt data "message") data.

(** The storage is there and has room. *)
Definition takes_writes (w : World) : bool :=
  available (localStorage w) && accepts_writes (localStorage w).

(** The world after a load that succeeded with theme [theme]. *)
Definition loaded (net : Network) (theme : JsVal) (w : World) : World :=
  exec (setCachedTheme theme) (with_themeData theme (fetched net w)).

(** The storages from which [applyCachedTheme] gets no theme: disabled,
    empty, holding text that does not parse, or holding a value with no
    truthy [data]. *)
Inductive unusable_cache : Storage -> Prop :=
  | cache_disabled f i : unusable_cache (mkStorage false f i)
  | cache_absent f : unusable_cache (mkStorage true f None)
  | cache_malformed f : unusable_cache (mkStorage true f (Some Malformed))
  | cache_without_data f v :
      truthy_opt v#"data" = false -> unusable_cache (mkStorage true f (Some (JsonText v))).

Definition full_storage_page : World :=
  with_localStorage (mkStorage true false None) (page JNull).

(** ** Invariants of a run *)

(** A method keeps an invariant of the world, whether it returns or throws. *)
Definition keeps {A : Type} (I : World -> Prop) (m : M A) : Prop :=
  forall w, I w -> I (exec m w).

(** The theme state is [data], about to be applied or applied, on a
    declaration that started as [st0]; the storage, the clock and the
    count of requests are [b0]. *)
Definition theme_pending (data : JsVal) (st0 : Style) (b0 : Storage * Z * nat) (w : World)
  : Prop :=
  themeData w = data /\ browser w = b0 /\
  themed_style data (style w) = themed_style data st0.

Definition theme_applied (data : JsVal) (st0 : Style) (b0 : Storage * Z * nat) (w : World)
  : Prop :=
  themeData w = data /\ browser w = b0 /\ style w = themed_style data st0.

(** ** The properties [setCSSVariables] writes *)

(** Every property name [setCSSVariables] can write or remove. *)
Definition vocabulary : list string :=
  (cssVariables ++
   ["--login-box-width"; "--login-box-padding"; "--content-text-color";
    "--sidebar-bg"; "--sidebar-text-color"])%list.

(** A statement that leaves every property outside [names] alone. *)
Definition confined (names : list string) (f : Stmt) : Prop :=
  forall k, k ∉ names -> untouched k f.

(** The colour fields whose property is on the list of
    [clearCSSVariables] and has no default, each beside its property. *)
Definition copied_fields : list (string * string) :=
  [ ("login_page_background_color", "--login-bg-color");
    ("login_button_background_color", "--login-btn-bg");
    ("login_button_text_color", "--login-btn-color");
    ("login_page_button_hover_background_color", "--login-btn-hover-bg");
    ("login_page_button_hover_text_color", "--login-btn-hover-color");
    ("page_heading_text_color", "--page-heading-color");
    ("input_background_color", "--input-bg");
    ("input_text_color", "--input-color");
    ("input_border_color", "--input-border");
    ("input_label_color", "--input-label-color");
    ("navbar_color", "--navbar-bg");
    ("navbar_text_color", "--navbar-color");
    ("button_background_color", "--btn-primary-bg");
    ("button_text_color", "--btn-primary-color");
    ("button_hover_background_color", "--btn-primary-hover-bg");
    ("button_hover_text_color", "--btn-primary-hover-color");
    ("secondary_button_background_color", "--btn-secondary-bg");
    ("secondary_button_text_color", "--btn-secondary-color");
    ("secondary_button_hover_background_color", "--btn-secondary-hover-bg");
    ("secondary_button_hover_text_color", "--btn-secondary-hover-color");
    ("body_background_color", "--body-bg");
    ("main_body_content_box_background_color", "--content-bg");
    ("table_head_background_color", "--table-head-bg");
    ("table_head_text_color", "--table-head-color");
    ("table_body_background_color", "--table-body-bg");
    ("table_body_text_color", "--table-body-color");
    ("number_card_background_color", "--widget-bg");
    ("number_card_border_color", "--widget-border");
    ("number_card_text_color", "--widget-color") ].

(** * Properties *)

(** ** Values that [setProperty] stores as they are *)

Lemma css_trim_right_plain (s : string) : plain_tail s = true -> css_trim_right s = s.
Proof.
  induction s as [|c r IH]; [done|]. simpl. destruct r as [|c' r'].
  - intros H. apply andb_true_iff in H as [_ H]. simpl.
    by destruct (is_css_space c).
  - intros H. apply andb_true_iff in H as [_ H]. rewrite (IH H). reflexivity.
Qed.

Lemma css_trim_plain (s : string) : plain s = true -> css_trim s = s.
Proof.
  destruct s as [|c r]; [done|]. unfold plain, css_trim. intros H.
  apply andb_true_iff in H as [H1 H2].
  assert (Hl : css_trim_left (String c r) = String c r).
  { simpl. by destruct (is_css_space c). }
  rewrite Hl. by apply css_trim_right_plain.
Qed.

Lemma plain_tail_chars (c : ascii) (r : string) :
  plain_tail (String c r) = true -> plain_char c = true /\ (r = "" \/ plain_tail r = true).
Proof.
  simpl. destruct r.
  - intros H. apply andb_true_iff in H as [H _]. by split; [|left].
  - intros H. apply andb_true_iff in H as [H1 H2]. by split; [|right].
Qed.

Lemma preprocess_plain (s : string) : plain_tail s = true -> preprocess s = s.
Proof.
  induction s as [|c r IH]; [done|]. intros H.
  apply plain_tail_chars in H as [Hc Hr].
  assert (Hr' : preprocess r = r) by (destruct Hr as [->|Hr]; [done | by apply IH]).
  simpl. rewrite Hr'.
  assert (H13 : (nat_of_ascii c =? 13)%nat = false).
  { destruct c as [[] [] [] [] [] [] [] []]; by vm_compute in Hc |- *. }
  assert (H12 : (nat_of_ascii c =? 12)%nat = false).
  { destruct c as [[] [] [] [] [] [] [] []]; by vm_compute in Hc |- *. }
  by rewrite H13, H12.
Qed.

Lemma token_step_plain (word : Word) (blocks : list ascii) (c : ascii) (rest : string) :
  plain_char c = true ->
  exists word', token_step (Normal word) blocks c rest = Some (in_mode (Normal word') blocks).
Proof.
  intros Hc.
  destruct c as [[] [] [] [] [] [] [] []]; try (by vm_compute in Hc);
    destruct word; eexists; reflexivity.
Qed.

Lemma scan_plain (word : Word) (blocks : list ascii) (s : string) :
  plain_tail s = true -> scan (in_mode (Normal word) blocks) s = true.
Proof.
  revert word. induction s as [|c r IH]; [done|]. intros word H.
  apply plain_tail_chars in H as [Hc Hr].
  destruct (token_step_plain word blocks c r Hc) as [word' Hstep].
  cbn [scan scan_step in_mode skip escape mode closers]. rewrite Hstep.
  destruct Hr as [->|Hr]; [done | by apply IH].
Qed.

(** A value that is plain once the white space around it is taken
    off is stored without that white space; a plain value is stored as
    it is. *)
Lemma declaration_value_trimmed (s : string) :
  plain (css_trim s) = true -> declaration_value s = Some (css_trim s).
Proof.
  intros H. unfold declaration_value.
  assert (Ht : plain_tail (css_trim s) = true).
  { destruct (css_trim s); [done|]. unfold plain in H. by apply andb_true_iff in H as [_ H]. }
  rewrite (preprocess_plain _ Ht). cbv zeta. by rewrite scan_plain.
Qed.

Lemma declaration_value_plain (s : string) : plain s = true -> declaration_value s = Some s.
Proof.
  intros H. rewrite <- (css_trim_plain s H) at 2.
  apply declaration_value_trimmed. by rewrite (css_trim_plain s H).
Qed.

Lemma quotable_char_step (quote c : ascii) (blocks : list ascii) (rest : string) :
  quotable_char quote c = true ->
  token_step (InString quote) blocks c rest = Some (in_mode (InString quote) blocks).
Proof.
  unfold quotable_char. intros H.
  apply andb_true_iff in H as [H Hb]. apply andb_true_iff in H as [Hp Hq].
  apply negb_true_iff in Hb, Hq.
  assert (Hn : is_newline c = false).
  { destruct c as [[] [] [] [] [] [] [] []]; by vm_compute in Hp |- *. }
  unfold token_step. by rewrite Hq, Hb, Hn.
Qed.

Lemma quotable_char_kept (quote c : ascii) :
  quotable_char quote c = true ->
  (nat_of_ascii c =? 13)%nat = false /\ (nat_of_ascii c =? 12)%nat = false.
Proof.
  unfold quotable_char. intros H.
  apply andb_true_iff in H as [H _]. apply andb_true_iff in H as [Hp _].
  destruct c as [[] [] [] [] [] [] [] []]; by vm_compute in Hp |- *.
Qed.

Lemma preprocess_quotable (quote : ascii) (s rest : string) :
  quotable quote s = true -> preprocess (s +:+ rest) = s +:+ preprocess rest.
Proof.
  induction s as [|c r IH]; [done|]. simpl. intros H.
  apply andb_true_iff in H as [Hc Hr].
  destruct (quotable_char_kept quote c Hc) as [H13 H12].
  by rewrite H13, H12, (IH Hr).
Qed.

(** A string token: from the opening quote to the closing one. *)
Lemma scan_quotable (quote : ascii) (blocks : list ascii) (s rest : string) :
  quotable quote s = true ->
  scan (in_mode (InString quote) blocks) (s +:+ String quote rest)
  = scan (in_mode (Normal Boundary) blocks) rest.
Proof.
  induction s as [|c r IH].
  - intros _. change ("" +:+ String quote rest) with (String quote rest).
    cbn [scan]. unfold scan_step, token_step.
    cbn [skip escape mode closers in_mode]. by rewrite Ascii.eqb_refl.
  - intros H. cbn [quotable] in H. apply andb_true_iff in H as [Hc Hr].
    change (String c r +:+ String quote rest) with (String c (r +:+ String quote rest)).
    cbn [scan]. unfold scan_step at 1.
    cbn [skip escape mode closers in_mode].
    rewrite (quotable_char_step quote c blocks (r +:+ String quote rest) Hc).
    by apply IH.
Qed.

Lemma css_trim_right_closed (s : string) (c : ascii) :
  is_css_space c = false -> css_trim_right (s +:+ String c "") = s +:+ String c "".
Proof.
  intros Hc. induction s as [|a r IH]; simpl.
  - by rewrite Hc.
  - rewrite IH. by destruct r.
Qed.

Lemma string_app_assoc (a b c : string) : (a +:+ b) +:+ c = a +:+ (b +:+ c).
Proof.
  induction a as [|x a IH]; [done|].
  change (String x ((a +:+ b) +:+ c) = String x (a +:+ (b +:+ c))). by rewrite IH.
Qed.

(** A title between single quotes. *)
Lemma declaration_value_quoted (s : string) :
  quotable "'" s = true ->
  declaration_value ("'" +:+ s +:+ "'") = Some ("'" +:+ s +:+ "'").
Proof.
  intros H. unfold declaration_value.
  assert (Ht : css_trim ("'" +:+ s +:+ "'") = "'" +:+ s +:+ "'").
  { unfold css_trim. change (css_trim_left ("'" +:+ s +:+ "'")) with ("'" +:+ s +:+ "'").
    change ("'" +:+ s +:+ "'") with (("'" +:+ s) +:+ String "'" "").
    by apply css_trim_right_closed. }
  rewrite Ht. cbv zeta.
  change ("'" +:+ s +:+ "'") with (String "'" (s +:+ String "'" "")).
  assert (Hp : preprocess (String "'" (s +:+ String "'" "")) = String "'" (s +:+ String "'" "")).
  { change (preprocess (String "'" (s +:+ String "'" "")))
      with (String "'" (preprocess (s +:+ String "'" ""))).
    by rewrite (preprocess_quotable "'" s _ H). }
  rewrite Hp.
  change (scan (in_mode (Normal Boundary) []) (String "'" (s +:+ String "'" "")))
    with (scan (in_mode (InString "'") []) (s +:+ String "'" "")).
  by rewrite (scan_quotable "'" [] s "" H).
Qed.

(** An image between [url("] and [")]. *)
Lemma declaration_value_url (s : string) :
  quotable dquote_char s = true ->
  declaration_value ("url(" +:+ dquote +:+ s +:+ dquote +:+ ")")
  = Some ("url(" +:+ dquote +:+ s +:+ dquote +:+ ")").
Proof.
  intros H. unfold declaration_value.
  change ("url(" +:+ dquote +:+ s +:+ dquote +:+ ")")
    with ("url(" +:+ dquote +:+ (s +:+ String dquote_char ")")).
  assert (Ht : css_trim ("url(" +:+ dquote +:+ (s +:+ String dquote_char ")"))
               = "url(" +:+ dquote +:+ (s +:+ String dquote_char ")")).
  { unfold css_trim.
    change (css_trim_left ("url(" +:+ dquote +:+ (s +:+ String dquote_char ")")))
      with ("url(" +:+ dquote +:+ (s +:+ String dquote_char ")")).
    replace ("url(" +:+ dquote +:+ (s +:+ String dquote_char ")"))
      with (("url(" +:+ dquote +:+ s +:+ dquote) +:+ String ")" "").
    - by apply css_trim_right_closed.
    - by rewrite !string_app_assoc. }
  rewrite Ht. cbv zeta.
  assert (Hp : preprocess ("url(" +:+ dquote +:+ (s +:+ String dquote_char ")"))
               = "url(" +:+ dquote +:+ (s +:+ String dquote_char ")")).
  { change (preprocess ("url(" +:+ dquote +:+ (s +:+ String dquote_char ")")))
      with ("url(" +:+ dquote +:+ preprocess (s +:+ String dquote_char ")")).
    by rewrite (preprocess_quotable dquote_char s _ H). }
  rewrite Hp.
  change (scan (in_mode (Normal Boundary) []) ("url(" +:+ dquote +:+ (s +:+ String dquote_char ")")))
    with (scan (in_mode (InString dquote_char) [")"%char]) (s +:+ String dquote_char ")")).
  by rewrite (scan_quotable dquote_char [")"%char] s ")" H).
Qed.

(** ** Statements on the style declaration *)

Section StyleStatements.

Implicit Types (st : Style) (f g : Stmt) (k name value : string).

Lemma block_nil st : block [] st = st.
Proof. reflexivity. Qed.

Lemma block_cons f (l : list Stmt) st : block (f :: l) st = block l (f st).
Proof. reflexivity. Qed.

Lemma block_app (l1 l2 : list Stmt) st : block (l1 ++ l2) st = block l2 (block l1 st).
Proof. unfold block. apply foldl_app. Qed.

Lemma lookup_setProperty name value st k :
  setProperty name value st !! k =
    if decide (name = k) then from_option id (st !! k) (effect value) else st !! k.
Proof.
  unfold setProperty, effect. destruct (String.eqb value "").
  - rewrite lookup_delete. reflexivity.
  - destruct (declaration_value value) as [v|]; simpl.
    + rewrite lookup_insert. reflexivity.
    + by case_decide.
Qed.

Lemma lookup_removeProperty name st k :
  removeProperty name st !! k = if decide (name = k) then None else st !! k.
Proof. unfold removeProperty. apply lookup_delete. Qed.

Lemma untouched_setProperty k name value : name <> k -> untouched k (setProperty name value).
Proof. intros H st. rewrite lookup_setProperty. by case_decide. Qed.

Lemma untouched_removeProperty k name : name <> k -> untouched k (removeProperty name).
Proof. intros H st. rewrite lookup_removeProperty. by case_decide. Qed.

Lemma oblivious_setProperty name value : oblivious (setProperty name value).
Proof.
  intros k. destruct (decide (name = k)) as [->|Hne].
  - destruct (effect value) as [r|] eqn:He.
    + right. exists r. intros st. rewrite lookup_setProperty, He.
      by rewrite decide_True.
    + left. intros st. rewrite lookup_setProperty, He. by case_decide.
  - left. by apply untouched_setProperty.
Qed.

Lemma oblivious_removeProperty name : oblivious (removeProperty name).
Proof.
  intros k. destruct (decide (name = k)) as [->|Hne].
  - right. exists None. intros st. rewrite lookup_removeProperty.
    by rewrite decide_True.
  - left. by apply untouched_removeProperty.
Qed.

Lemma oblivious_block (l : list Stmt) : Forall oblivious l -> oblivious (block l).
Proof.
  induction l as [|f l IH] using rev_ind; intros H k.
  - left. by intros st.
  - apply Forall_app in H as [Hl Hf]. apply Forall_inv in Hf.
    destruct (Hf k) as [Hu|[r Hr]].
    + destruct (IH Hl k) as [Hu'|[r Hr]].
      * left. intros st. rewrite block_app, block_cons, block_nil, Hu. apply Hu'.
      * right. exists r. intros st. rewrite block_app, block_cons, block_nil, Hu. apply Hr.
    + right. exists r. intros st. rewrite block_app, block_cons, block_nil. apply Hr.
Qed.

Lemma oblivious_when c (l : list Stmt) : Forall oblivious l -> oblivious (when c l).
Proof.
  intros H. unfold when. destruct c; [by apply oblivious_block|].
  intros k. left. by intros st.
Qed.

Lemma oblivious_copy_field theme field name : oblivious (copy_field theme field name).
Proof.
  apply oblivious_when.
  apply Forall_cons_2; [apply oblivious_setProperty | apply Forall_nil_2].
Qed.

(** Running an oblivious statement twice is running it once. *)
Lemma oblivious_idempotent f st : oblivious f -> f (f st) = f st.
Proof.
  intros H. apply map_eq. intros k. destruct (H k) as [Hu|[r Hr]].
  - apply Hu.
  - by rewrite !Hr.
Qed.

(** Behind a statement that decides [k], an oblivious statement
    still decides [k]. *)
Lemma decides_then k f g : decides k f -> oblivious g -> decides k (fun st => g (f st)).
Proof.
  intros [r Hr] Hg. destruct (Hg k) as [Hu|[r' Hr']].
  - exists r. intros st. by rewrite Hu.
  - exists r'. intros st. apply Hr'.
Qed.

End StyleStatements.

(** The statements of [setCSSVariables] are oblivious. *)

Lemma clearCSSVariables_oblivious : oblivious clearCSSVariables.
Proof.
  apply oblivious_block. apply Forall_forall. intros f Hf.
  apply list_elem_of_fmap in Hf as [name [-> _]]. apply oblivious_removeProperty.
Qed.

Lemma setDefaultCSSVariables_oblivious : oblivious (block setDefaultCSSVariables).
Proof.
  apply oblivious_block.
  repeat first [ apply Forall_nil_2 | apply Forall_cons_2 | apply oblivious_setProperty ].
Qed.

Lemma themed_statements_oblivious theme : oblivious (block (themed_statements theme)).
Proof.
  apply oblivious_block.
  repeat first
    [ apply Forall_nil_2
    | apply Forall_cons_2
    | apply oblivious_when
    | apply oblivious_copy_field
    | apply oblivious_setProperty ].
Qed.

Lemma reset_style_oblivious : oblivious reset_style.
Proof.
  change reset_style with (block [clearCSSVariables; block setDefaultCSSVariables]).
  apply oblivious_block.
  apply Forall_cons_2; [apply clearCSSVariables_oblivious|].
  apply Forall_cons_2; [apply setDefaultCSSVariables_oblivious | apply Forall_nil_2].
Qed.

Lemma themed_style_oblivious theme : oblivious (themed_style theme).
Proof.
  change (themed_style theme)
    with (block [reset_style; block (themed_statements theme)]).
  apply oblivious_block.
  apply Forall_cons_2; [apply reset_style_oblivious|].
  apply Forall_cons_2; [apply themed_statements_oblivious | apply Forall_nil_2].
Qed.

Lemma clearCSSVariables_clears k st :
  k ∈ cssVariables -> clearCSSVariables st !! k = None.
Proof.
  unfold clearCSSVariables. generalize cssVariables. intros l.
  induction l as [|name l IH] using rev_ind; intros Hk.
  - by apply elem_of_nil in Hk.
  - rewrite map_app, block_app.
    change (map removeProperty [name]) with [removeProperty name].
    rewrite block_cons, block_nil.
    rewrite lookup_removeProperty. case_decide; [done|].
    apply IH. apply elem_of_app in Hk as [Hk|Hk]; [done|].
    apply list_elem_of_singleton in Hk. congruence.
Qed.

(** A property on the list of [clearCSSVariables] never carries a value
    over from before the application. *)
Lemma listed_property_fresh (k : string) (theme : JsVal) (st st' : Style) :
  k ∈ cssVariables -> themed_style theme st !! k = themed_style theme st' !! k.
Proof.
  intros Hk.
  destruct (decides_then k clearCSSVariables
              (fun s => block (themed_statements theme) (block setDefaultCSSVariables s)))
    as [r Hr].
  - exists None. intros s. by apply clearCSSVariables_clears.
  - change (oblivious (block [block setDefaultCSSVariables; block (themed_statements theme)])).
    apply oblivious_block.
    apply Forall_cons_2; [apply setDefaultCSSVariables_oblivious|].
    apply Forall_cons_2; [apply themed_statements_oblivious | apply Forall_nil_2].
  - unfold themed_style, reset_style. by rewrite !Hr.
Qed.

(** *** The value a statement leaves in one property *)

Section Acts.

Implicit Types (k name value : string) (f : Stmt) (l : list Stmt).

Lemma acts_setProperty_hit k value : acts k (setProperty k value) (effect value).
Proof. intros st. rewrite lookup_setProperty. by rewrite decide_True. Qed.

Lemma acts_setProperty_miss k name value :
  String.eqb name k = false -> acts k (setProperty name value) None.
Proof.
  intros H st. apply String.eqb_neq in H.
  rewrite lookup_setProperty. by rewrite decide_False.
Qed.

Lemma acts_removeProperty_hit k : acts k (removeProperty k) (Some None).
Proof. intros st. rewrite lookup_removeProperty. by rewrite decide_True. Qed.

Lemma acts_removeProperty_miss k name :
  String.eqb name k = false -> acts k (removeProperty name) None.
Proof.
  intros H st. apply String.eqb_neq in H.
  rewrite lookup_removeProperty. by rewrite decide_False.
Qed.

Lemma acts_nil k : acts k (block []) None.
Proof. by intros st. Qed.

Lemma acts_cons k f l r1 r2 :
  acts k f r1 -> acts k (block l) r2 -> acts k (block (f :: l)) (then_acts r1 r2).
Proof.
  intros H1 H2 st. rewrite block_cons, H2, H1. by destruct r2.
Qed.

Lemma acts_cons_skip k f l r :
  acts k f None -> acts k (block l) r -> acts k (block (f :: l)) r.
Proof. intros H1 H2 st. rewrite block_cons, H2, H1. reflexivity. Qed.

Lemma acts_when k c l r :
  acts k (block l) r -> acts k (when c l) (if c then r else None).
Proof. intros H. unfold when. by destruct c. Qed.

Lemma acts_when_skip k c l : acts k (block l) None -> acts k (when c l) None.
Proof. intros H. unfold when. by destruct c. Qed.

Lemma acts_copy_field_hit k theme field :
  acts k (copy_field theme field k)
    (if truthy_opt theme#field then effect (css_arg theme#field) else None).
Proof.
  unfold copy_field.
  apply (acts_when k _ _ (effect (css_arg theme#field))).
  intros st. rewrite block_cons, block_nil. apply acts_setProperty_hit.
Qed.

Lemma acts_copy_field_miss k theme field name :
  String.eqb name k = false -> acts k (copy_field theme field name) None.
Proof.
  intros H. apply acts_when_skip. apply acts_cons_skip; [|apply acts_nil].
  by apply acts_setProperty_miss.
Qed.

Lemma acts_compose k f g r1 r2 :
  acts k f r1 -> acts k g r2 -> acts k (fun st => g (f st)) (then_acts r1 r2).
Proof. intros H1 H2 st. rewrite H2, H1. by destruct r2. Qed.

Lemma acts_eq k f r r' : acts k f r -> r = r' -> acts k f r'.
Proof. by intros H <-. Qed.

End Acts.

(** Finds what a block of [setProperty] statements does to one
    property, skipping the statements on other properties. *)
Ltac acts_stmt :=
  lazymatch goal with
  | |- acts _ (block []) _ => apply acts_nil
  | |- acts _ (block (_ :: _)) _ =>
      first [ apply acts_cons_skip; [solve [acts_skip] | acts_stmt]
            | eapply acts_cons; [acts_stmt | acts_stmt] ]
  | |- acts _ (copy_field _ _ _) _ =>
      first [ apply acts_copy_field_miss; reflexivity | apply acts_copy_field_hit ]
  | |- acts _ (when _ _) _ =>
      first [ solve [acts_skip] | eapply acts_when; acts_stmt ]
  | |- acts _ (setProperty _ _) _ =>
      first [ apply acts_setProperty_miss; reflexivity | apply acts_setProperty_hit ]
  | |- acts _ (removeProperty _) _ =>
      first [ apply acts_removeProperty_miss; reflexivity | apply acts_removeProperty_hit ]
  end
with acts_skip :=
  lazymatch goal with
  | |- acts _ (block []) None => apply acts_nil
  | |- acts _ (block (_ :: _)) None => apply acts_cons_skip; [acts_skip | acts_skip]
  | |- acts _ (copy_field _ _ _) None => apply acts_copy_field_miss; reflexivity
  | |- acts _ (when _ _) None => apply acts_when_skip; acts_skip
  | |- acts _ (setProperty _ _) None => apply acts_setProperty_miss; reflexivity
  | |- acts _ (removeProperty _) None => apply acts_removeProperty_miss; reflexivity
  end.

Ltac acts_reset :=
  unfold reset_style;
  eapply (acts_compose _ clearCSSVariables (block setDefaultCSSVariables));
  [ unfold clearCSSVariables, cssVariables; cbn [map]; acts_stmt
  | unfold setDefaultCSSVariables; acts_stmt ].

Ltac acts_themed :=
  unfold themed_style;
  eapply (acts_compose _ reset_style (block (themed_statements _)));
  [ acts_reset | unfold themed_statements; acts_stmt ].

(** ** Runs of methods *)

Ltac run := cbv [mbind M_bind mret M_ret read update lift throw try_catch].

Section Runs.

Context {A B : Type}.
Implicit Types (w : World) (m : M A) (k : A -> M B).

Lemma run_bind m k w :
  (m ≫= k) w =
    match m w with
    | (Ok a, w') => k a w'
    | (Throw e, w') => (Throw e, w')
    end.
Proof. reflexivity. Qed.

End Runs.

Section Preserves.

Context {P : Type} (part : World -> P).

Lemma preserves_ret {A} (a : A) : preserves part (mret a).
Proof. by intros w. Qed.

Lemma preserves_lift {A} (r : Result A) : preserves part (lift r).
Proof. by intros w. Qed.

Lemma preserves_read {A} (f : World -> A) : preserves part (read f).
Proof. by intros w. Qed.

Lemma preserves_update (f : World -> World) :
  (forall w, part (f w) = part w) -> preserves part (update f).
Proof. intros H w. apply H. Qed.

Lemma preserves_bind {A B} (m : M A) (k : A -> M B) :
  preserves part m -> (forall a, preserves part (k a)) -> preserves part (m ≫= k).
Proof.
  intros Hm Hk w. unfold exec. rewrite run_bind.
  specialize (Hm w). unfold exec in Hm.
  destruct (m w) as [[a|e] w']; simpl in *; [|done].
  rewrite <- Hm. apply Hk.
Qed.

(** What follows a method does not matter for a part it preserves. *)
Lemma part_after_bind {A B} (m : M A) (k : A -> M B) w :
  (forall a, preserves part (k a)) -> part (exec (m ≫= k) w) = part (exec m w).
Proof.
  intros Hk. unfold exec. rewrite run_bind.
  destruct (m w) as [[a|e] w']; simpl; [apply Hk | done].
Qed.

(** *** What each method can change *)

Lemma setCSSVariables_preserves : ignores_style part -> preserves part setCSSVariables.
Proof.
  intros H. unfold setCSSVariables.
  repeat first
    [ apply preserves_bind; [|intros ?] | apply preserves_read | apply preserves_lift
    | apply preserves_update; intros w; apply H ].
Qed.

Lemma toggleSidebar_preserves :
  ignores_sidebarContainer part -> preserves part toggleSidebar.
Proof.
  intros H. unfold toggleSidebar.
  apply preserves_bind; [apply preserves_read|]. intros [e|]; [|apply preserves_ret].
  apply preserves_bind; [apply preserves_read|]. intros theme.
  apply preserves_bind; [apply preserves_lift|]. intros hide_side_bar.
  destruct (is_num hide_side_bar 0); apply preserves_update; intros w; apply H.
Qed.

Lemma getUserRoles_preserves : preserves part getUserRoles.
Proof. by intros w. Qed.

Lemma toggleSearchBar_preserves : ignores_searchBar part -> preserves part toggleSearchBar.
Proof.
  intros H. unfold toggleSearchBar.
  apply preserves_bind; [apply preserves_read|]. intros [e|]; [|apply preserves_ret].
  apply preserves_bind; [apply getUserRoles_preserves|]. intros [|]; [|apply preserves_ret].
  apply preserves_update. intros w. apply H.
Qed.

Lemma setDefaultApp_preserves : ignores_switcher_calls part -> preserves part setDefaultApp.
Proof.
  intros [Happ Hwarn]. unfold setDefaultApp.
  apply preserves_bind; [apply preserves_read|]. intros theme.
  apply preserves_bind; [apply preserves_lift|]. intros hide_app_switcher.
  destruct (theme#"default_app") as [default_app|]; [|apply preserves_ret].
  destruct (negb (truthy_opt hide_app_switcher) || negb (truthy default_app));
    [apply preserves_ret|].
  apply preserves_bind; [apply preserves_read|]. intros [sw|]; [|apply preserves_ret].
  destruct (switches_to sw default_app); apply preserves_update; intros w;
    [apply Happ | apply Hwarn].
Qed.

Lemma setTimeout_preserves cb delay :
  ignores_timers part -> preserves part (setTimeout cb delay).
Proof. intros H. apply preserves_update. intros w. apply H. Qed.

Lemma showLoginBox_preserves : ignores_timers part -> preserves part showLoginBox.
Proof.
  intros H. unfold showLoginBox.
  apply preserves_bind; [apply preserves_read|].
  intros [e|]; [by apply setTimeout_preserves | apply preserves_ret].
Qed.

Lemma showLoginBoxFallback_preserves :
  ignores_timers part -> preserves part showLoginBoxFallback.
Proof.
  intros H. unfold showLoginBoxFallback.
  apply preserves_bind; [apply preserves_read|].
  intros [e|]; [|apply preserves_ret].
  destruct (negb (contains "theme-ready" e));
    [by apply setTimeout_preserves | apply preserves_ret].
Qed.

Lemma applyTheme_preserves :
  ignores_style part -> ignores_sidebarContainer part -> ignores_searchBar part ->
  ignores_switcher_calls part -> ignores_timers part ->
  preserves part applyTheme.
Proof.
  intros. unfold applyTheme.
  apply preserves_bind; [by apply setCSSVariables_preserves|]. intros _.
  apply preserves_bind; [by apply toggleSidebar_preserves|]. intros _.
  apply preserves_bind; [by apply toggleSearchBar_preserves|]. intros _.
  apply preserves_bind; [by apply setDefaultApp_preserves|]. intros _.
  by apply showLoginBox_preserves.
Qed.

Lemma applyCachedTheme_preserves :
  ignores_themeData part -> ignores_style part -> ignores_sidebarContainer part ->
  ignores_searchBar part -> ignores_switcher_calls part -> ignores_timers part ->
  preserves part applyCachedTheme.
Proof.
  intros Htheme **. unfold applyCachedTheme.
  apply preserves_bind; [apply preserves_read|]. intros cachedData.
  destruct (cachedData#"data") as [data|]; [|by apply showLoginBoxFallback_preserves].
  destruct (truthy cachedData && truthy data); [|by apply showLoginBoxFallback_preserves].
  apply preserves_bind; [|intros _; by apply applyTheme_preserves].
  apply preserves_update. intros w. apply Htheme.
Qed.

Lemma setupEventListeners_preserves :
  ignores_listeners part -> preserves part setupEventListeners.
Proof. intros H. apply preserves_update. intros w. apply H. Qed.

End Preserves.

(** The setters, read back through a part that ignores them. *)
Ltac frame := first [ split; intros ? [] | intros ? [] ]; reflexivity.

Lemma applyTheme_browser : preserves browser applyTheme.
Proof. apply applyTheme_preserves; frame. Qed.

Lemma applyTheme_controller : preserves controller applyTheme.
Proof. apply applyTheme_preserves; frame. Qed.

Lemma applyCachedTheme_browser : preserves browser applyCachedTheme.
Proof. apply applyCachedTheme_preserves; frame. Qed.

(** *** The steps of [applyTheme] *)

Lemma is_null_true v : is_null v = true <-> v = JNull.
Proof. by destruct v. Qed.

Lemma is_null_false v : is_null v = false <-> v <> JNull.
Proof. by destruct v. Qed.

Lemma setCSSVariables_null w :
  themeData w = JNull ->
  setCSSVariables w = (Throw TypeError, with_style (reset_style (style w)) w).
Proof.
  intros H. unfold setCSSVariables. rewrite run_bind. unfold read at 1. rewrite H.
  destruct w. reflexivity.
Qed.

Lemma setCSSVariables_theme w :
  themeData w <> JNull ->
  setCSSVariables w = (Ok tt, with_style (themed_style (themeData w) (style w)) w).
Proof.
  intros H. unfold setCSSVariables. rewrite run_bind. unfold read at 1.
  destruct w as [theme st]. simpl in *. destruct theme; try done; reflexivity.
Qed.

Lemma applyTheme_null (w : World) :
  themeData w = JNull ->
  applyTheme w = (Throw TypeError, with_style (reset_style (style w)) w).
Proof.
  intros H. unfold applyTheme. rewrite run_bind, setCSSVariables_null by done. reflexivity.
Qed.

Lemma applyTheme_theme (w : World) :
  themeData w <> JNull ->
  applyTheme w =
    (toggleSidebar;; toggleSearchBar;; setDefaultApp;; showLoginBox)
      (with_style (themed_style (themeData w) (style w)) w).
Proof.
  intros H. unfold applyTheme. rewrite run_bind, setCSSVariables_theme by done. reflexivity.
Qed.

Lemma getUserRoles_run (w : World) :
  getUserRoles w = (userRolesMatch (roles w) (themeData w), w).
Proof. reflexivity. Qed.

Lemma toggleSidebar_run (w : World) :
  themeData w <> JNull ->
  toggleSidebar w =
    (Ok tt,
     match sidebarContainer w with
     | Some e => with_sidebarContainer (Some (toggled (themeData w) e)) w
     | None => w
     end).
Proof.
  intros H. unfold toggleSidebar, toggled. run.
  destruct (sidebarContainer w); [|done].
  destruct (themeData w); try done; simpl; by case_match.
Qed.

Lemma toggleSearchBar_run (w : World) :
  toggleSearchBar w =
    (match searchBar w, userRolesMatch (roles w) (themeData w) with
     | Some _, Throw error => Throw error
     | _, _ => Ok tt
     end,
     match searchBar w with
     | Some e =>
         with_searchBar (Some (hidden_for (userRolesMatch (roles w) (themeData w)) e)) w
     | None => w
     end).
Proof.
  unfold toggleSearchBar. rewrite run_bind. unfold read at 1.
  destruct (searchBar w) eqn:Hs.
  - rewrite run_bind, getUserRoles_run.
    destruct (userRolesMatch (roles w) (themeData w)) as [[|]|]; simpl; try done.
    all: destruct w; simpl in *; by rewrite Hs.
  - by destruct (userRolesMatch (roles w) (themeData w)).
Qed.

(** The style declaration, the sidebar container and the search bar
    after [applyTheme]. *)
Lemma applyTheme_style (w : World) :
  style (exec applyTheme w) =
    if is_null (themeData w) then reset_style (style w)
    else themed_style (themeData w) (style w).
Proof.
  unfold exec. destruct (is_null (themeData w)) eqn:Hnull.
  - apply is_null_true in Hnull. rewrite applyTheme_null by done. by destruct w.
  - apply is_null_false in Hnull. unfold applyTheme.
    fold (exec (setCSSVariables;; toggleSidebar;; toggleSearchBar;; setDefaultApp;;
                showLoginBox) w).
    rewrite part_after_bind.
    + unfold exec. rewrite setCSSVariables_theme by done. by destruct w.
    + intros _.
      apply preserves_bind; [apply toggleSidebar_preserves; frame|]. intros _.
      apply preserves_bind; [apply toggleSearchBar_preserves; frame|]. intros _.
      apply preserves_bind; [apply setDefaultApp_preserves; frame|]. intros _.
      apply showLoginBox_preserves; frame.
Qed.

Lemma applyTheme_sidebarContainer (w : World) :
  sidebarContainer (exec applyTheme w) =
    if is_null (themeData w) then sidebarContainer w
    else toggled (themeData w) <$> sidebarContainer w.
Proof.
  destruct (is_null (themeData w)) eqn:Hnull.
  - apply is_null_true in Hnull. unfold exec. rewrite applyTheme_null by done. by destruct w.
  - apply is_null_false in Hnull. unfold exec. rewrite applyTheme_theme by done.
    set (w1 := with_style _ w).
    assert (H1 : themeData w1 = themeData w) by (by destruct w).
    assert (H2 : sidebarContainer w1 = sidebarContainer w) by (by destruct w).
    fold (exec (toggleSidebar;; toggleSearchBar;; setDefaultApp;; showLoginBox) w1).
    rewrite part_after_bind.
    + unfold exec. rewrite toggleSidebar_run by (by rewrite H1).
      simpl. destruct (sidebarContainer w) eqn:Hs; simpl; [by destruct w | congruence].
    + intros _. apply preserves_bind; [apply toggleSearchBar_preserves; frame|]. intros _.
      apply preserves_bind; [apply setDefaultApp_preserves; frame|]. intros _.
      apply showLoginBox_preserves; frame.
Qed.

Lemma applyTheme_searchBar (w : World) :
  searchBar (exec applyTheme w) =
    if is_null (themeData w) then searchBar w
    else hidden_for (userRolesMatch (roles w) (themeData w)) <$> searchBar w.
Proof.
  destruct (is_null (themeData w)) eqn:Hnull.
  - apply is_null_true in Hnull. unfold exec. rewrite applyTheme_null by done. by destruct w.
  - apply is_null_false in Hnull. unfold exec. rewrite applyTheme_theme by done.
    set (w1 := with_style _ w).
    assert (H1 : themeData w1 = themeData w) by (by destruct w).
    rewrite run_bind, toggleSidebar_run by (by rewrite H1).
    set (w2 := match sidebarContainer w1 with Some _ => _ | None => _ end).
    assert (H2 : themeData w2 = themeData w /\ roles w2 = roles w /\ searchBar w2 = searchBar w)
      by (unfold w2; destruct (sidebarContainer w1); by destruct w).
    destruct H2 as [H2 [H3 H4]].
    fold (exec (toggleSearchBar;; setDefaultApp;; showLoginBox) w2).
    rewrite part_after_bind.
    + unfold exec. rewrite toggleSearchBar_run. simpl.
      rewrite H2, H3, H4. destruct (searchBar w) eqn:Hs; simpl; [by destruct w2 | congruence].
    + intros _. apply preserves_bind; [apply setDefaultApp_preserves; frame|]. intros _.
      apply showLoginBox_preserves; frame.
Qed.

(** *** The cache and the load *)

Lemma getCachedTheme_ext (w w' : World) :
  localStorage w = localStorage w' -> getCachedTheme w = getCachedTheme w'.
Proof. unfold getCachedTheme. by intros ->. Qed.

Lemma isCacheValid_ext (w w' : World) :
  browser w = browser w' -> isCacheValid w = isCacheValid w'.
Proof.
  unfold browser. intros [= Hs Hc _]. unfold isCacheValid.
  by rewrite (getCachedTheme_ext w w'), Hc.
Qed.

Lemma loadThemeIfNeeded_valid (net : Network) (w : World) :
  isCacheValid w = true -> loadThemeIfNeeded net w = (Ok tt, w).
Proof. intros H. unfold loadThemeIfNeeded. run. by rewrite H. Qed.

Lemma loadThemeIfNeeded_invalid (net : Network) (w : World) :
  isCacheValid w = false -> loadThemeIfNeeded net w = loadTheme net w.
Proof. intros H. unfold loadThemeIfNeeded. run. by rewrite H. Qed.

Lemma isCacheValid_entry (w : World) (fields : list (string * JsVal)) (timestamp : Z) :
  getCachedTheme w = JObj fields ->
  own_property fields "timestamp" = Some (JNum timestamp) ->
  isCacheValid w = (clock w - timestamp <? cacheTimeout).
Proof. intros Hc Ht. unfold isCacheValid. rewrite Hc. simpl. by rewrite Ht. Qed.

(** A failed load ends in the [catch] of [loadTheme]: the cache entry,
    if it holds truthy data, becomes the theme state; otherwise the
    error is thrown again. *)
Lemma loadTheme_failure (w : World) (net : Network) :
  load_fails (response net) ->
  loadTheme net w =
    match (getCachedTheme w)#"data" with
    | Some data =>
        if truthy (getCachedTheme w) && truthy data
        then (Ok tt, with_themeData data (failed_load net w))
        else (Throw (load_error net), failed_load net w)
    | None => (Throw (load_error net), failed_load net w)
    end.
Proof.
  intros H. destruct net as [resp lat]. simpl in H.
  destruct H as [|status body Hs|status Hs|status data Hs Hempty];
    destruct w; unfold loadTheme, fetch, failed_load, load_error, fetched; run; cbn;
    rewrite ?Hs; cbn; rewrite ?Hempty; cbn;
    unfold getCachedTheme; cbn; repeat case_match; simplify_eq; reflexivity.
Qed.

Lemma failed_load_storage (net : Network) (w : World) :
  localStorage (failed_load net w) = localStorage w.
Proof. unfold failed_load, fetched. repeat case_match; by destruct w. Qed.

(** *** Methods that return *)

Lemma outcome_bind_ok {A B} (m : M A) (k : A -> M B) (w : World) (a : A) :
  outcome m w = Ok a -> (m ≫= k) w = k a (exec m w).
Proof.
  unfold outcome, exec. intros H. rewrite run_bind. destruct (m w) as [r w']. simpl in *.
  by rewrite H.
Qed.

Lemma showLoginBox_returns (w : World) : outcome showLoginBox w = Ok tt.
Proof. unfold outcome, showLoginBox. run. by destruct (loginBox w). Qed.

Lemma showLoginBoxFallback_returns (w : World) : outcome showLoginBoxFallback w = Ok tt.
Proof.
  unfold outcome, showLoginBoxFallback. run. destruct (loginBox w); [|done].
  by destruct (negb _).
Qed.

Lemma setDefaultApp_returns (w : World) :
  themeData w <> JNull -> outcome setDefaultApp w = Ok tt.
Proof.
  intros H. unfold outcome, setDefaultApp. run.
  destruct (themeData w); try done; simpl; repeat case_match; reflexivity.
Qed.

(** For a theme state that is not [null], [applyTheme] returns unless
    the role match throws on a malformed [hide_search]. *)
Lemma applyTheme_returns (w : World) :
  themeData w <> JNull ->
  (searchBar w = None \/ exists hide, userRolesMatch (roles w) (themeData w) = Ok hide) ->
  outcome applyTheme w = Ok tt.
Proof.
  intros Hnull Hmatch. unfold outcome. rewrite applyTheme_theme by done.
  set (w1 := with_style _ w).
  assert (H1 : themeData w1 = themeData w) by (by destruct w).
  rewrite run_bind, toggleSidebar_run by (by rewrite H1).
  set (w2 := match sidebarContainer w1 with Some _ => _ | None => _ end).
  assert (H2 : themeData w2 = themeData w /\ roles w2 = roles w /\ searchBar w2 = searchBar w).
  { unfold w2. destruct (sidebarContainer w1); by destruct w. }
  destruct H2 as [H2 [H2' H2'']].
  assert (Hok : match searchBar w, userRolesMatch (roles w) (themeData w) with
                | Some _, Throw error => Throw error
                | _, _ => Ok tt
                end = Ok tt).
  { destruct Hmatch as [-> | [hide ->]]; [done|]. by destruct (searchBar w). }
  rewrite run_bind, toggleSearchBar_run, H2, H2', H2'', Hok.
  set (w3 := match searchBar w with Some e => with_searchBar _ _ | None => _ end).
  assert (H3 : themeData w3 = themeData w).
  { unfold w3. destruct (searchBar w); [|done]. by destruct w2. }
  rewrite (outcome_bind_ok setDefaultApp _ w3 tt) by (apply setDefaultApp_returns; congruence).
  apply showLoginBox_returns.
Qed.


(** *** Startup when the cache and the network both fail *)

Lemma applyCachedTheme_no_cache (w : World) :
  getCachedTheme w = JNull -> applyCachedTheme w = showLoginBoxFallback w.
Proof. intros H. unfold applyCachedTheme. rewrite run_bind. unfold read at 1. by rewrite H. Qed.

Lemma failed_load_frame (net : Network) (w : World) :
  style (failed_load net w) = style w /\
  timers (failed_load net w) = timers w /\
  loginBox (failed_load net w) = loginBox w.
Proof. unfold failed_load, fetched. repeat case_match; by destruct w. Qed.

Lemma failed_load_themeData (net : Network) (w w' : World) :
  themeData w = themeData w' -> themeData (failed_load net w) = themeData (failed_load net w').
Proof. unfold failed_load, fetched. intros H. repeat case_match; destruct w, w'; done. Qed.

Lemma init_total_failure (w : World) (net : Network) :
  themeData w = JNull ->
  getCachedTheme w = JNull ->
  load_fails (response net) ->
  themeData (failed_load net w) = JNull ->
  let w' := exec (init net) w in
  outcome (init net) w = Throw TypeError /\
  style w' = reset_style (style w) /\
  timers w' = timers (exec showLoginBoxFallback w) /\
  loginBox w' = loginBox w.
Proof.
  intros Hnull Hcache Hfail Hstill.
  pose proof (showLoginBoxFallback_preserves
                (fun w => (themeData w, style w, loginBox w, localStorage w))
                ltac:(frame) w) as Hfb.
  pose proof (showLoginBoxFallback_returns w) as Hret.
  set (w1 := exec showLoginBoxFallback w) in *.
  injection Hfb as H1 H2 H3 H4.
  assert (Hcache1 : getCachedTheme w1 = JNull)
    by (by rewrite (getCachedTheme_ext w1 w)).
  assert (Hstale : isCacheValid w1 = false)
    by (unfold isCacheValid; by rewrite Hcache1).
  assert (Hbody : (applyCachedTheme;; loadThemeIfNeeded net;;
                   themeData ← read themeData;
                   (if truthy themeData then applyTheme else mret tt);; setupEventListeners) w
                  = (Throw (load_error net), failed_load net w1)).
  { rewrite run_bind, applyCachedTheme_no_cache by done.
    unfold outcome in Hret. fold (exec showLoginBoxFallback w) in w1.
    destruct (showLoginBoxFallback w) as [r w1'] eqn:Hrun. simpl in Hret. subst r.
    replace w1' with w1 by (unfold w1, exec; by rewrite Hrun).
    rewrite run_bind, loadThemeIfNeeded_invalid, loadTheme_failure by done.
    by rewrite Hcache1. }
  assert (Hnull' : themeData (failed_load net w1) = JNull).
  { rewrite (failed_load_themeData net w1 w); [done|]. by rewrite H1. }
  destruct (failed_load_frame net w1) as [F1 [F2 F3]].
  simpl. unfold outcome, exec, init, try_catch. rewrite Hbody.
  rewrite run_bind, applyTheme_null by done. simpl.
  repeat split.
  - destruct (failed_load net w1); simpl in *. congruence.
  - destruct (failed_load net w1); simpl in *. congruence.
  - destruct (failed_load net w1); simpl in *. congruence.
Qed.

(** ** C1: applying a [null] theme *)

(** C1.  The description has [applyTheme] safe for every theme state,
    the [null] state included.  The code departs from it: with the
    theme state [null], [applyTheme] throws a TypeError.  The reset and
    the defaults of [setCSSVariables] are in place, the first read of a
    theme field throws, and neither the sidebar, the search bar nor the
    timer that reveals the login box is reached. *)
Theorem applyTheme_null_theme_throws (w : World) :
  let w0 := with_themeData JNull w in
  outcome applyTheme w0 = Throw TypeError /\
  style (exec applyTheme w0) = reset_style (style w) /\
  sidebarContainer (exec applyTheme w0) = sidebarContainer w /\
  searchBar (exec applyTheme w0) = searchBar w /\
  timers (exec applyTheme w0) = timers w.
Proof.
  intros w0. unfold outcome, exec.
  rewrite (applyTheme_null w0) by (by destruct w).
  destruct w. repeat split.
Qed.

(** ** C2: the role match *)

Lemma some_total {A : Type} (p : A -> Result bool) (q : A -> bool) (items : list A) :
  (forall x, x ∈ items -> p x = Ok (q x)) ->
  some p items = Ok (existsb q items).
Proof.
  induction items as [|x items IH]; intros H; [reflexivity|].
  simpl. rewrite (H x) by apply list_elem_of_here. simpl.
  destruct (q x); [reflexivity|].
  apply IH. intros y Hy. apply H. by apply list_elem_of_further.
Qed.

Lemma is_str_true (o : option JsVal) (s : string) :
  is_str o s = true <-> o = Some (JStr s).
Proof.
  unfold is_str. destruct o as [[]|]; try (split; [discriminate|congruence]).
  rewrite String.eqb_eq. split; congruence.
Qed.

(** [hide_search.some(u => u.role === role)] over entries none of which
    is [null]. *)
Lemma entries_some (entries : list JsVal) (role : string) :
  Forall (fun u => u <> JNull) entries ->
  array_some (Some (JArr entries)) (fun u => r ← get u "role"; mret (is_str r role))
  = Ok (existsb (fun u => is_str u#"role" role) entries).
Proof.
  intros Hrec. simpl. apply some_total. intros u Hu.
  rewrite Forall_forall in Hrec. specialize (Hrec u Hu).
  destruct u; try done; reflexivity.
Qed.

Lemma existsb_elem_of {A : Type} (q : A -> bool) (items : list A) :
  existsb q items = true <-> exists x, x ∈ items /\ q x = true.
Proof.
  rewrite existsb_exists. split; intros [x [Hx Hq]]; exists x; split; try done;
    by apply list_elem_of_In.
Qed.

(** C2.  [getUserRoles] returns false when the roles of the user or the
    field [hide_search] are absent (or [hide_search] is falsy).  With
    [hide_search] a list of entries: when the user holds the role
    Administrator the result is true iff some entry has the role
    Administrator, whatever the other roles of the user are; otherwise
    it is true iff some role of the user is the role of some entry.
    The world is left unchanged. *)
Theorem getUserRoles_spec (w : World) :
  (roles w = None \/ truthy_opt (get_opt (themeData w) "hide_search") = false ->
   getUserRoles w = (Ok false, w)) /\
  (forall (currentUser : list string) (entries : list JsVal),
     roles w = Some currentUser ->
     get_opt (themeData w) "hide_search" = Some (JArr entries) ->
     Forall (fun u => u <> JNull) entries ->
     exists hide : bool,
       getUserRoles w = (Ok hide, w) /\
       ("Administrator" ∈ currentUser ->
          hide = true <-> exists u, u ∈ entries /\ u#"role" = Some (JStr "Administrator")) /\
       ("Administrator" ∉ currentUser ->
          hide = true <->
          exists role u, role ∈ currentUser /\ u ∈ entries /\ u#"role" = Some (JStr role))).
Proof.
  split.
  - intros H. rewrite getUserRoles_run. unfold userRolesMatch.
    destruct H as [-> | ->]; [reflexivity|]. destruct (roles w); reflexivity.
  - intros currentUser entries Hroles Hhide Hrec.
    rewrite getUserRoles_run. unfold userRolesMatch.
    rewrite Hroles, Hhide. cbn [truthy_opt truthy negb].
    case_bool_decide as Hadmin.
    + rewrite entries_some by done. eexists. split; [reflexivity|]. split; [|done].
      intros _. rewrite existsb_elem_of.
      split; intros [u [Hu Hq]]; exists u; split; try done; by apply is_str_true.
    + rewrite (some_total _ (fun role => existsb (fun u => is_str u#"role" role) entries))
        by (intros role _; by apply entries_some).
      eexists. split; [reflexivity|]. split; [done|].
      intros _. rewrite existsb_elem_of. split.
      * intros [role [Hrole Hq]]. apply existsb_elem_of in Hq as [u [Hu Hq]].
        exists role, u. repeat split; try done. by apply is_str_true.
      * intros [role [u [Hrole [Hu Hq]]]]. exists role. split; [done|].
        apply existsb_elem_of. exists u. split; [done|]. by apply is_str_true.
Qed.

Lemma getUserRoles_spec_witness :
  getUserRoles (page theme_without_fields) = (Ok false, page theme_without_fields) /\
  getUserRoles (page (theme_hiding_search "Sales User"))
    = (Ok true, page (theme_hiding_search "Sales User")) /\
  getUserRoles (with_roles (Some ["Administrator"; "Sales User"])
                  (page (theme_hiding_search "Sales User")))
    = (Ok false,
       with_roles (Some ["Administrator"; "Sales User"])
         (page (theme_hiding_search "Sales User"))).
Proof.
  split; [|split].
  - apply (proj1 (getUserRoles_spec (page theme_without_fields))). right. reflexivity.
  - destruct (proj2 (getUserRoles_spec (page (theme_hiding_search "Sales User")))
                ["Sales User"] [JObj [("role", JStr "Sales User")]] eq_refl eq_refl)
      as [hide [Hrun [_ Hother]]].
    + apply Forall_cons_2; [discriminate | apply Forall_nil_2].
    + assert (Hhide : hide = true).
      { apply Hother.
        - intros Hin. apply list_elem_of_singleton in Hin. discriminate.
        - exists "Sales User", (JObj [("role", JStr "Sales User")]).
          split; [apply list_elem_of_here|]. split; [apply list_elem_of_here|]. reflexivity. }
      rewrite Hhide in Hrun. exact Hrun.
  - destruct (proj2 (getUserRoles_spec
                       (with_roles (Some ["Administrator"; "Sales User"])
                          (page (theme_hiding_search "Sales User"))))
                ["Administrator"; "Sales User"] [JObj [("role", JStr "Sales User")]]
                eq_refl eq_refl)
      as [hide [Hrun [Hadmin _]]].
    + apply Forall_cons_2; [discriminate | apply Forall_nil_2].
    + assert (Hhide : hide = false).
      { destruct hide; [|reflexivity].
        destruct (proj1 (Hadmin (list_elem_of_here _ _)) eq_refl) as [u [Hu Hrole]].
        apply list_elem_of_singleton in Hu. subst u. discriminate. }
      rewrite Hhide in Hrun. exact Hrun.
Defined.

(** The three role matches the description lists. *)
Example administrator_against_manager :
  outcome getUserRoles
    (with_roles (Some ["Administrator"]) (page (theme_hiding_search "Manager")))
  = Ok false.
Proof. reflexivity. Qed.

Example administrator_against_administrator :
  outcome getUserRoles
    (with_roles (Some ["Administrator"]) (page (theme_hiding_search "Administrator")))
  = Ok true.
Proof. reflexivity. Qed.

Example sales_user_against_sales_user :
  outcome getUserRoles (page (theme_hiding_search "Sales User")) = Ok true.
Proof. reflexivity. Qed.

(** ** C3: what the reset clears *)

(** C3.  The description has every property a theme application can
    set cleared by the next application.  The code departs from it:
    [--sidebar-bg] is set by [setCSSVariables] and is missing from the
    list of [clearCSSVariables].  Apply a theme with
    [sidebar_background_color], then a theme without it, and the value
    of the first theme is still there, although the second theme alone
    would leave the property unset. *)
Theorem stale_sidebar_bg_survives (w : World) :
  let wA := exec applyTheme (with_themeData theme_with_sidebar_color w) in
  let wB := exec applyTheme (with_themeData theme_without_fields wA) in
  style wB !! "--sidebar-bg" = Some "#123456" /\
  ("--sidebar-bg" ∉ cssVariables) /\
  themed_style theme_without_fields ∅ !! "--sidebar-bg" = None.
Proof.
  intros wA wB.
  assert (HB : acts "--sidebar-bg" (themed_style theme_without_fields) None)
    by (eapply acts_eq; [acts_themed | reflexivity]).
  assert (HA : acts "--sidebar-bg" (themed_style theme_with_sidebar_color)
                 (Some (Some "#123456")))
    by (eapply acts_eq; [acts_themed | reflexivity]).
  split; [|split].
  - unfold wB. rewrite applyTheme_style.
    replace (themeData (with_themeData theme_without_fields wA))
      with theme_without_fields by (by destruct wA).
    replace (style (with_themeData theme_without_fields wA))
      with (style wA) by (by destruct wA).
    change (is_null theme_without_fields) with false. cbv iota.
    rewrite HB. simpl.
    unfold wA. rewrite applyTheme_style.
    replace (themeData (with_themeData theme_with_sidebar_color w))
      with theme_with_sidebar_color by (by destruct w).
    change (is_null theme_with_sidebar_color) with false. cbv iota.
    rewrite HA. reflexivity.
  - refine (bool_decide_unpack _ _). by vm_compute.
  - rewrite HB. reflexivity.
Qed.

(** ** C4: validity of the cache *)

(** C4.  For a cached entry with timestamp [timestamp], read at time
    [clock w], the cache is valid iff [clock w - timestamp < 86400000]:
    validity depends on the two times only, the inequality is strict
    (at an age of exactly 86400000 ms the entry is invalid), and when
    the cache is valid [loadThemeIfNeeded] returns at once, leaving the
    world as it is and the count of requests where it was. *)
Theorem isCacheValid_spec (w : World) (fields : list (string * JsVal)) (timestamp : Z) :
  getCachedTheme w = JObj fields ->
  own_property fields "timestamp" = Some (JNum timestamp) ->
  (isCacheValid w = true <-> clock w - timestamp < 86400000) /\
  (clock w - timestamp = 86400000 -> isCacheValid w = false) /\
  (isCacheValid w = true ->
   forall net, loadThemeIfNeeded net w = (Ok tt, w) /\
               requests (exec (loadThemeIfNeeded net) w) = requests w).
Proof.
  intros Hc Ht. rewrite (isCacheValid_entry w fields timestamp Hc Ht).
  change cacheTimeout with 86400000.
  split; [apply Z.ltb_lt|]. split.
  - intros ->. reflexivity.
  - intros Hvalid net.
    assert (H : isCacheValid w = true)
      by (by rewrite (isCacheValid_entry w fields timestamp Hc Ht)).
    unfold exec. by rewrite (loadThemeIfNeeded_valid net w H).
Qed.

Lemma isCacheValid_spec_witness :
  let fresh := cached_page theme_all_hidden 1700000000000 1700086399999 in
  let expired := cached_page theme_all_hidden 1700000000000 1700086400000 in
  isCacheValid fresh = true /\
  loadThemeIfNeeded server_error fresh = (Ok tt, fresh) /\
  requests (exec (loadThemeIfNeeded server_error) fresh) = requests fresh /\
  isCacheValid expired = false.
Proof.
  intros fresh expired.
  destruct (isCacheValid_spec fresh
              [("data", theme_all_hidden); ("timestamp", JNum 1700000000000);
               ("version", JNum 1)] 1700000000000 eq_refl eq_refl) as [Hiff [_ Hskip]].
  destruct (isCacheValid_spec expired
              [("data", theme_all_hidden); ("timestamp", JNum 1700000000000);
               ("version", JNum 1)] 1700000000000 eq_refl eq_refl) as [_ [Hedge _]].
  assert (Hvalid : isCacheValid fresh = true) by (apply Hiff; reflexivity).
  split; [exact Hvalid|].
  split; [exact (proj1 (Hskip Hvalid server_error))|].
  split; [exact (proj2 (Hskip Hvalid server_error))|].
  apply Hedge. reflexivity.
Defined.

Example entry_one_millisecond_short_of_ttl :
  isCacheValid (cached_page theme_all_hidden 1700000000000 1700086399999) = true.
Proof. reflexivity. Qed.

Example entry_at_ttl :
  isCacheValid (cached_page theme_all_hidden 1700000000000 1700086400000) = false.
Proof. reflexivity. Qed.

(** ** C5: a failed load falls back on the cache *)

(** C5.  Whatever makes the load fail (a status that is not a success
    and an empty payload alike), [loadTheme] sets the theme state to the
    data of the cache entry when there is one, whatever its age, and
    returns without an error; when no entry can be read it throws the
    error of the failure itself: the rejection of the request, the
    HTTP error with the status, the error of the body, or the error
    for the missing theme data. *)
Theorem loadTheme_failure_fallback (w : World) (net : Network) :
  load_fails (response net) ->
  (forall (fields : list (string * JsVal)) (data : JsVal),
     getCachedTheme w = JObj fields ->
     own_property fields "data" = Some data ->
     truthy data = true ->
     outcome (loadTheme net) w = Ok tt /\
     themeData (exec (loadTheme net) w) = data) /\
  (getCachedTheme w = JNull -> outcome (loadTheme net) w = Throw (load_error net)).
Proof.
  intros Hfail. unfold outcome, exec. rewrite (loadTheme_failure w net Hfail). split.
  - intros fields data Hc Hd Ht. rewrite Hc. simpl. rewrite Hd, Ht. simpl.
    by destruct (failed_load net w).
  - by intros ->.
Qed.

Lemma loadTheme_failure_fallback_witness :
  (outcome (loadTheme server_error)
     (cached_page theme_with_sidebar_color 1500000000000 1700000000000) = Ok tt /\
   themeData (exec (loadTheme server_error)
                (cached_page theme_with_sidebar_color 1500000000000 1700000000000))
   = theme_with_sidebar_color) /\
  outcome (loadTheme (mkNetwork (Reply 200 (Some JNull)) 80)) (page JNull)
  = Throw NoThemeData /\
  outcome (loadTheme server_error) (page JNull) = Throw (HttpError 500).
Proof.
  split.
  - apply (proj1 (loadTheme_failure_fallback
                    (cached_page theme_with_sidebar_color 1500000000000 1700000000000)
                    server_error (fails_status 500 None eq_refl))
             [("data", theme_with_sidebar_color);
              ("timestamp", JNum 1500000000000); ("version", JNum 1)]);
      reflexivity.
  - split.
    + apply (proj2 (loadTheme_failure_fallback (page JNull)
                      (mkNetwork (Reply 200 (Some JNull)) 80)
                      (fails_empty 200 JNull eq_refl eq_refl))).
      reflexivity.
    + apply (proj2 (loadTheme_failure_fallback (page JNull) server_error
                      (fails_status 500 None eq_refl))).
      reflexivity.
Defined.

(** ** C6: applying a theme twice *)

Lemma classList_add_idempotent (c : string) (e : Element) :
  classList_add c (classList_add c e) = classList_add c e.
Proof.
  unfold classList_add. destruct (contains c e) eqn:H.
  - by rewrite H.
  - unfold contains. simpl.
    rewrite bool_decide_eq_true_2; [reflexivity|].
    apply elem_of_app. right. apply list_elem_of_here.
Qed.

Lemma classList_remove_idempotent (c : string) (e : Element) :
  classList_remove c (classList_remove c e) = classList_remove c e.
Proof.
  unfold classList_remove. simpl. f_equal.
  induction (classList e) as [|c' l IH]; [done|].
  rewrite filter_cons. case_decide.
  - rewrite filter_cons. rewrite decide_True by done. by rewrite IH.
  - done.
Qed.

Lemma toggled_idempotent (theme : JsVal) (e : Element) :
  toggled theme (toggled theme e) = toggled theme e.
Proof.
  unfold toggled. destruct (is_num theme#"hide_side_bar" 0);
    [apply classList_add_idempotent | apply classList_remove_idempotent].
Qed.

Lemma hidden_for_idempotent (r : Result bool) (e : Element) :
  hidden_for r (hidden_for r e) = hidden_for r e.
Proof. by destruct r as [[|]|]. Qed.

(** C6.  Applying the theme state a second time changes nothing that
    the first application left: the style declaration, the sidebar
    container (its expanded class) and the search bar (its inline
    display) are the same after two applications as after one.  This
    holds from every world and for every theme state. *)
Theorem applyTheme_idempotent (w : World) :
  let w1 := exec applyTheme w in
  let w2 := exec applyTheme w1 in
  style w2 = style w1 /\
  sidebarContainer w2 = sidebarContainer w1 /\
  searchBar w2 = searchBar w1.
Proof.
  intros w1 w2.
  pose proof (applyTheme_controller w) as Hc. fold w1 in Hc. unfold controller in Hc.
  injection Hc as Htheme Hroles _.
  pose proof (applyTheme_style w) as Hstyle. fold w1 in Hstyle.
  pose proof (applyTheme_sidebarContainer w) as Hside. fold w1 in Hside.
  pose proof (applyTheme_searchBar w) as Hsearch. fold w1 in Hsearch.
  split; [|split].
  - unfold w2. rewrite applyTheme_style, Htheme, Hstyle.
    destruct (is_null (themeData w)).
    + apply oblivious_idempotent, reset_style_oblivious.
    + apply oblivious_idempotent, themed_style_oblivious.
  - unfold w2. rewrite applyTheme_sidebarContainer, Htheme, Hside.
    destruct (is_null (themeData w)); [done|].
    destruct (sidebarContainer w); simpl; [|done]. by rewrite toggled_idempotent.
  - unfold w2. rewrite applyTheme_searchBar, Htheme, Hroles, Hsearch.
    destruct (is_null (themeData w)); [done|].
    destruct (searchBar w); simpl; [|done]. by rewrite hidden_for_idempotent.
Qed.

(** ** C7: the cache round trip *)

(** With a valid cache, [init] makes no request and leaves the storage
    and the clock alone, whether the steps around the load succeed or
    throw. *)
Lemma init_no_fetch (net : Network) (w : World) :
  isCacheValid w = true -> browser (exec (init net) w) = browser w.
Proof.
  intros Hvalid.
  assert (Hhandler : forall e : JsError, preserves browser (applyTheme;; showLoginBoxFallback)).
  { intros _. apply preserves_bind; [apply applyTheme_browser|]. intros _.
    apply showLoginBoxFallback_preserves. frame. }
  assert (Hrest : preserves browser
            (themeData ← read themeData;
             (if truthy themeData then applyTheme else mret tt);; setupEventListeners)).
  { apply preserves_bind; [apply preserves_read|]. intros theme.
    apply preserves_bind.
    - destruct (truthy theme); [apply applyTheme_browser | apply preserves_ret].
    - intros _. apply setupEventListeners_preserves. frame. }
  unfold init, exec, try_catch. rewrite run_bind.
  pose proof (applyCachedTheme_browser w) as H1. unfold exec in H1.
  destruct (applyCachedTheme w) as [[[]|e] w1]; simpl in H1.
  - rewrite run_bind, loadThemeIfNeeded_valid
      by (by rewrite (isCacheValid_ext w1 w)).
    pose proof (Hrest w1) as H2. unfold exec in H2.
    match type of H2 with browser (snd (?m w1)) = _ => destruct (m w1) as [[[]|e] w2] end;
      simpl in *; [congruence|].
    rewrite <- H1, <- H2. apply (Hhandler e).
  - rewrite <- H1. apply (Hhandler e).
Qed.

(** C7.  On a storage that is available and accepts the write,
    [setCachedTheme] followed by [getCachedTheme] gives back the theme
    it was given, unchanged.  In any later world with that storage and a
    clock less than 24 hours after the write, the entry is still read
    back, the cache is valid, [loadThemeIfNeeded] returns at once and
    the whole startup [init] makes no request. *)
Theorem cache_round_trip (w : World) (theme : JsVal) :
  available (localStorage w) = true ->
  accepts_writes (localStorage w) = true ->
  let w1 := exec (setCachedTheme theme) w in
  (getCachedTheme w1)#"data" = Some theme /\
  forall (w2 : World) (net : Network),
    localStorage w2 = localStorage w1 ->
    clock w2 - clock w < cacheTimeout ->
    (getCachedTheme w2)#"data" = Some theme /\
    isCacheValid w2 = true /\
    loadThemeIfNeeded net w2 = (Ok tt, w2) /\
    requests (exec (init net) w2) = requests w2.
Proof.
  intros Ha Hw w1.
  assert (Hentry : getCachedTheme w1 = cache_entry theme (clock w)).
  { unfold w1, exec, setCachedTheme, update, getCachedTheme. simpl.
    rewrite Ha, Hw. destruct w. simpl in *. by rewrite Ha. }
  split; [by rewrite Hentry|].
  intros w2 net Hs Hc.
  assert (Hentry2 : getCachedTheme w2 = getCachedTheme w1) by by apply getCachedTheme_ext.
  assert (Hvalid : isCacheValid w2 = true).
  { rewrite (isCacheValid_entry w2 _ (clock w) (eq_trans Hentry2 Hentry) eq_refl).
    by apply Z.ltb_lt. }
  split; [by rewrite Hentry2, Hentry|]. split; [done|].
  split; [by apply loadThemeIfNeeded_valid|].
  pose proof (init_no_fetch net w2 Hvalid) as H. unfold browser in H. congruence.
Qed.

Lemma cache_round_trip_witness :
  let w := page theme_all_hidden in
  let w1 := exec (setCachedTheme theme_all_hidden) w in
  let w2 := cached_page theme_all_hidden 1700000000000 1700086399999 in
  (getCachedTheme w1)#"data" = Some theme_all_hidden /\
  (getCachedTheme w2)#"data" = Some theme_all_hidden /\
  isCacheValid w2 = true /\
  loadThemeIfNeeded server_error w2 = (Ok tt, w2) /\
  requests (exec (init server_error) w2) = requests w2.
Proof.
  intros w w1 w2.
  destruct (cache_round_trip w theme_all_hidden eq_refl eq_refl) as [Hback Hlater].
  split; [exact Hback|].
  apply (Hlater w2 server_error); reflexivity.
Defined.

Example startup_on_fresh_cache_makes_no_request :
  requests (exec (init server_error)
              (cached_page theme_all_hidden 1700000000000 1700000001000)) = 0%nat.
Proof. vm_compute. reflexivity. Qed.

(** ** C8: the visibility fields *)

Lemma applyTheme_style_field (w : World) (field : string) (v : JsVal) :
  (themeData w)#field = Some v ->
  style (exec applyTheme w) = themed_style (themeData w) (style w).
Proof.
  intros H. rewrite applyTheme_style. by destruct (themeData w).
Qed.

(** C8, as amended.  When present, [hide_help_button],
    [hide_app_switcher] and [table_hide_like_comment_section] set their
    property to none for a truthy value and to block for a falsy one,
    and [hide_app_switcher] also sets the pointer-events property (none
    or auto).  [hide_side_bar] does not follow that mapping: when
    present it sets [--sidebar-expanded] to expanded when it is exactly
    0 and clears the property otherwise. *)
Theorem visibility_fields (w : World) :
  let theme := themeData w in
  let st := style (exec applyTheme w) in
  (forall v, theme#"hide_help_button" = Some v ->
     st !! "--hide-help" = Some (if truthy v then "none" else "block")) /\
  (forall v, theme#"hide_app_switcher" = Some v ->
     st !! "--hide-app-switcher" = Some (if truthy v then "none" else "block") /\
     st !! "--app-switcher-pointer-events" = Some (if truthy v then "none" else "auto")) /\
  (forall v, theme#"table_hide_like_comment_section" = Some v ->
     st !! "--hide-like-comment" = Some (if truthy v then "none" else "block")) /\
  (forall v, theme#"hide_side_bar" = Some v ->
     st !! "--sidebar-expanded" = if is_num (Some v) 0 then Some "expanded" else None).
Proof.
  intros theme st. unfold st, theme. clear st theme.
  split; [|split; [|split]]; intros v Hv; [|split| |];
    rewrite (applyTheme_style_field w _ v Hv).
  - assert (H : exists r, acts "--hide-help" (themed_style (themeData w)) r /\
                 (defined (themeData w)#"hide_help_button" = true ->
                  r = Some (Some (choose (truthy_opt (themeData w)#"hide_help_button")
                                    "none" "block")))).
    { eexists. split; [acts_themed|]. intros ->.
      match goal with |- context [choose ?c _ _] => by destruct c end. }
    destruct H as [r [Hr Heq]]. rewrite Hr, Heq by (by rewrite Hv).
    rewrite Hv. cbn [truthy_opt]. by destruct (truthy v).
  - assert (H : exists r, acts "--hide-app-switcher" (themed_style (themeData w)) r /\
                 (defined (themeData w)#"hide_app_switcher" = true ->
                  r = Some (Some (choose (truthy_opt (themeData w)#"hide_app_switcher")
                                    "none" "block")))).
    { eexists. split; [acts_themed|]. intros ->.
      match goal with |- context [choose ?c _ _] => by destruct c end. }
    destruct H as [r [Hr Heq]]. rewrite Hr, Heq by (by rewrite Hv).
    rewrite Hv. cbn [truthy_opt]. by destruct (truthy v).
  - assert (H : exists r, acts "--app-switcher-pointer-events" (themed_style (themeData w)) r /\
                 (defined (themeData w)#"hide_app_switcher" = true ->
                  r = Some (Some (choose (truthy_opt (themeData w)#"hide_app_switcher")
                                    "none" "auto")))).
    { eexists. split; [acts_themed|]. intros ->.
      match goal with |- context [choose ?c _ _] => by destruct c end. }
    destruct H as [r [Hr Heq]]. rewrite Hr, Heq by (by rewrite Hv).
    rewrite Hv. cbn [truthy_opt]. by destruct (truthy v).
  - assert (H : exists r, acts "--hide-like-comment" (themed_style (themeData w)) r /\
                 (defined (themeData w)#"table_hide_like_comment_section" = true ->
                  r = Some (Some (choose
                                    (truthy_opt (themeData w)#"table_hide_like_comment_section")
                                    "none" "block")))).
    { eexists. split; [acts_themed|]. intros ->.
      match goal with |- context [choose ?c _ _] => by destruct c end. }
    destruct H as [r [Hr Heq]]. rewrite Hr, Heq by (by rewrite Hv).
    rewrite Hv. cbn [truthy_opt]. by destruct (truthy v).
  - assert (H : exists r, acts "--sidebar-expanded" (themed_style (themeData w)) r /\
                 (defined (themeData w)#"hide_side_bar" = true ->
                  r = Some (if is_num (themeData w)#"hide_side_bar" 0
                            then Some "expanded" else None))).
    { eexists. split; [acts_themed|]. intros ->.
      match goal with |- context [choose ?c _ _] => by destruct c end. }
    destruct H as [r [Hr Heq]]. rewrite Hr, Heq by (by rewrite Hv).
    by rewrite Hv.
Qed.

Lemma visibility_fields_witness :
  let st := style (exec applyTheme (page theme_all_hidden)) in
  st !! "--hide-help" = Some "none" /\
  (st !! "--hide-app-switcher" = Some "none" /\
   st !! "--app-switcher-pointer-events" = Some "none") /\
  st !! "--hide-like-comment" = Some "block" /\
  st !! "--sidebar-expanded" = Some "expanded".
Proof.
  pose proof (visibility_fields (page theme_all_hidden)) as [H1 [H2 [H3 H4]]].
  split; [|split; [|split]].
  - apply (H1 (JNum 1)). reflexivity.
  - apply (H2 (JNum 1)). reflexivity.
  - apply (H3 (JNum 0)). reflexivity.
  - apply (H4 (JNum 0)). reflexivity.
Defined.

(** C8, counterexample.  No property is set to none/block (or to
    block/none) by [hide_side_bar]: the themes with [hide_side_bar] 0
    and 1 leave the same style declaration except for
    [--sidebar-expanded], which is expanded for 0 and absent for 1. *)
Lemma hide_side_bar_not_none_block :
  ~ exists name : string,
      maps_visibility "hide_side_bar" name "none" "block" \/
      maps_visibility "hide_side_bar" name "block" "none".
Proof.
  assert (Hrel : style (exec applyTheme (page (theme_sidebar_flag 1)))
                 = delete "--sidebar-expanded"
                     (style (exec applyTheme (page (theme_sidebar_flag 0)))))
    by (refine (bool_decide_unpack _ _); vm_compute; exact I).
  intros [name [H|H]].
  - assert (H0 : style (exec applyTheme (page (theme_sidebar_flag 0))) !! name = Some "block")
      by exact (H (page (theme_sidebar_flag 0)) (JNum 0) eq_refl).
    assert (H1 : style (exec applyTheme (page (theme_sidebar_flag 1))) !! name = Some "none")
      by exact (H (page (theme_sidebar_flag 1)) (JNum 1) eq_refl).
    rewrite Hrel in H1. apply lookup_delete_Some in H1 as [_ H1]. congruence.
  - assert (H0 : style (exec applyTheme (page (theme_sidebar_flag 0))) !! name = Some "none")
      by exact (H (page (theme_sidebar_flag 0)) (JNum 0) eq_refl).
    assert (H1 : style (exec applyTheme (page (theme_sidebar_flag 1))) !! name = Some "block")
      by exact (H (page (theme_sidebar_flag 1)) (JNum 1) eq_refl).
    rewrite Hrel in H1. apply lookup_delete_Some in H1 as [_ H1]. congruence.
Qed.

Example sidebar_property_for_flag_0 :
  style (exec applyTheme (page (theme_sidebar_flag 0))) !! "--sidebar-expanded"
  = Some "expanded".
Proof. vm_compute. reflexivity. Qed.

Example sidebar_property_for_flag_1 :
  style (exec applyTheme (page (theme_sidebar_flag 1))) !! "--sidebar-expanded" = None.
Proof. vm_compute. reflexivity. Qed.

(** ** C9: the search bar is only ever hidden *)

Lemma mutation_keeps_hidden (change : JsVal * option (list string)) (w : World) (e : Element) :
  searchBar w = Some e -> display e = "none" -> searchBar (mutation change w) = Some e.
Proof.
  intros Hs Hd. unfold mutation, onBodyMutation, exec. rewrite toggleSearchBar_run.
  simpl. rewrite Hs.
  assert (He : hidden_for (userRolesMatch change.2 change.1) e = e).
  { destruct (userRolesMatch change.2 change.1) as [[|]|]; try done.
    destruct e; simpl in *. by rewrite Hd. }
  rewrite He. by destruct w.
Qed.

(** C9.  When the role match returns false, [toggleSearchBar] leaves
    the world, and so the inline display of the search bar, as it is.
    Once the display of the search bar is none it stays none through any
    number of later calls made by the mutation observer, whatever the
    theme state and the roles have become before each call. *)
Theorem toggleSearchBar_only_hides :
  (forall w : World, outcome getUserRoles w = Ok false -> toggleSearchBar w = (Ok tt, w)) /\
  (forall (w : World) (e : Element) (changes : list (JsVal * option (list string))),
     searchBar w = Some e -> display e = "none" ->
     searchBar (after_mutations changes w) = Some e).
Proof.
  split.
  - intros w H. unfold outcome in H. rewrite getUserRoles_run in H. simpl in H.
    rewrite toggleSearchBar_run, H. destruct (searchBar w) eqn:Hs; [|done].
    simpl. destruct w; simpl in *; by rewrite Hs.
  - intros w e changes. revert w. unfold after_mutations.
    induction changes as [|change changes IH]; intros w Hs Hd; [done|].
    simpl. apply IH; [|done]. by apply mutation_keeps_hidden.
Qed.

Lemma toggleSearchBar_only_hides_witness :
  toggleSearchBar (page (theme_hiding_search "Manager"))
    = (Ok tt, page (theme_hiding_search "Manager")) /\
  searchBar
    (after_mutations
       [(theme_without_fields, Some ["Sales User"]); (JNull, None);
        (theme_hiding_search "Manager", Some ["Administrator"])]
       (exec toggleSearchBar (page (theme_hiding_search "Sales User"))))
  = Some (mkElement ["input-group"; "search-bar"; "text-muted"] "none").
Proof.
  split.
  - apply (proj1 toggleSearchBar_only_hides). reflexivity.
  - apply (proj2 toggleSearchBar_only_hides); reflexivity.
Defined.

(** ** C10: a failed load leaves the cache alone *)

Lemma isCacheValid_stays_false (w w2 : World) :
  isCacheValid w = false ->
  localStorage w2 = localStorage w ->
  clock w <= clock w2 ->
  isCacheValid w2 = false.
Proof.
  unfold isCacheValid. intros H Hs Hc.
  rewrite (getCachedTheme_ext w2 w Hs).
  destruct (negb (truthy (getCachedTheme w))); [done|].
  destruct (ToNumber (getCachedTheme w)#"timestamp") as [timestamp|]; [|done].
  apply Z.ltb_ge in H. apply Z.ltb_ge. lia.
Qed.

(** Every call of [loadTheme] makes one request. *)
Lemma loadTheme_requests (net : Network) (w : World) :
  requests (exec (loadTheme net) w) = S (requests w).
Proof.
  destruct net as [[|status body] lat]; destruct w;
    unfold exec, loadTheme, fetch, json, setCachedTheme; run; cbn;
    repeat (case_match; cbn in *; simplify_eq); reflexivity.
Qed.

(** The steps of [init] that follow the load, and its [catch], make no
    request. *)
Lemma init_after_load_requests :
  preserves requests
    (themeData ← read themeData;
     (if truthy themeData then applyTheme else mret tt);; setupEventListeners) /\
  (forall e : JsError, preserves requests (applyTheme;; showLoginBoxFallback)).
Proof.
  split.
  - apply preserves_bind; [apply preserves_read|]. intros theme.
    apply preserves_bind.
    + destruct (truthy theme); [apply applyTheme_preserves; frame | apply preserves_ret].
    + intros _. apply setupEventListeners_preserves. frame.
  - intros _. apply preserves_bind; [apply applyTheme_preserves; frame|]. intros _.
    apply showLoginBoxFallback_preserves. frame.
Qed.

(** A startup on an invalid cache makes one request, provided its first
    step, [applyCachedTheme], returns. *)
Lemma init_fetches (net : Network) (w : World) :
  isCacheValid w = false ->
  outcome applyCachedTheme w = Ok tt ->
  requests (exec (init net) w) = S (requests w).
Proof.
  intros Hstale Hok.
  destruct init_after_load_requests as [Hrest Hhandler].
  pose proof (applyCachedTheme_browser w) as Hb.
  unfold init, exec, try_catch. rewrite run_bind.
  unfold outcome in Hok. unfold exec in Hb.
  destruct (applyCachedTheme w) as [r w1]; simpl in Hok, Hb. subst r.
  assert (Hstale1 : isCacheValid w1 = false) by (by rewrite (isCacheValid_ext w1 w Hb)).
  assert (Hr1 : requests w1 = requests w) by (unfold browser in Hb; congruence).
  rewrite run_bind, (loadThemeIfNeeded_invalid net w1 Hstale1).
  pose proof (loadTheme_requests net w1) as Hload. unfold exec in Hload.
  destruct (loadTheme net w1) as [[[]|e] w2]; simpl in Hload.
  - pose proof (Hrest w2) as H3. unfold exec in H3.
    match type of H3 with requests (snd (?m w2)) = _ => destruct (m w2) as [[[]|e] w3] end;
      simpl in *.
    + congruence.
    + pose proof (Hhandler e w3) as H4. unfold exec in H4. congruence.
  - pose proof (Hhandler e w2) as H4. unfold exec in H4. simpl. congruence.
Qed.

(** On a theme whose [hide_search] is absent, falsy or a list of
    entries none of which is [null], the role match returns, and so
    does [applyCachedTheme] on a cache entry that holds such a theme. *)
Lemma userRolesMatch_returns (currentUser : option (list string)) (theme : JsVal) :
  (truthy_opt (get_opt theme "hide_search") = false \/
   exists entries, get_opt theme "hide_search" = Some (JArr entries) /\
                   Forall (fun u => u <> JNull) entries) ->
  exists hide, userRolesMatch currentUser theme = Ok hide.
Proof.
  intros H. unfold userRolesMatch. destruct currentUser as [currentUser|]; [|by eexists].
  destruct H as [-> | [entries [-> Hrec]]]; [by eexists|].
  cbn [truthy_opt truthy negb]. case_bool_decide.
  - rewrite entries_some by done. by eexists.
  - rewrite (some_total _ (fun role => existsb (fun u => is_str u#"role" role) entries))
      by (intros role _; by apply entries_some).
    by eexists.
Qed.

Lemma applyCachedTheme_returns (w : World) (fields : list (string * JsVal)) (data : JsVal) :
  getCachedTheme w = JObj fields ->
  own_property fields "data" = Some data ->
  truthy data = true ->
  (truthy_opt (get_opt data "hide_search") = false \/
   exists entries, get_opt data "hide_search" = Some (JArr entries) /\
                   Forall (fun u => u <> JNull) entries) ->
  outcome applyCachedTheme w = Ok tt.
Proof.
  intros Hc Hd Ht Hwf. unfold outcome, applyCachedTheme. rewrite run_bind.
  unfold read at 1. rewrite Hc. cbn [prop fst snd truthy andb]. rewrite Hd, Ht.
  rewrite run_bind. unfold update at 1. cbn [fst snd].
  apply applyTheme_returns.
  - destruct w; simpl. by destruct data.
  - right. replace (themeData (with_themeData data w)) with data by (by destruct w).
    by apply userRolesMatch_returns.
Qed.

(** C10.  When the load fails, the storage after [loadTheme] is the
    storage before it: the entry is neither rewritten nor given a new
    timestamp.  An entry that was stale before the failed load (its
    timestamp a number at least 24 hours old) is therefore still stale
    at any later time: the cache is invalid, the next
    [loadThemeIfNeeded] makes a request, and so does the next startup,
    provided applying the cached theme at that startup returns. *)
Theorem loadTheme_failure_keeps_cache (w : World) (net : Network) :
  load_fails (response net) ->
  let w1 := exec (loadTheme net) w in
  localStorage w1 = localStorage w /\
  (forall (fields : list (string * JsVal)) (timestamp : Z),
     getCachedTheme w = JObj fields ->
     own_property fields "timestamp" = Some (JNum timestamp) ->
     cacheTimeout <= clock w - timestamp ->
     forall (w2 : World) (net2 : Network),
       localStorage w2 = localStorage w1 ->
       clock w <= clock w2 ->
       isCacheValid w2 = false /\
       requests (exec (loadThemeIfNeeded net2) w2) = S (requests w2) /\
       (outcome applyCachedTheme w2 = Ok tt ->
        requests (exec (init net2) w2) = S (requests w2))).
Proof.
  intros Hfail w1.
  assert (Hkeep : localStorage w1 = localStorage w).
  { unfold w1, exec. rewrite (loadTheme_failure w net Hfail).
    rewrite <- (failed_load_storage net w).
    repeat case_match; by destruct (failed_load net w). }
  split; [done|].
  intros fields timestamp Hc Ht Hage w2 net2 Hs Hlater.
  assert (Hstale : isCacheValid w = false).
  { rewrite (isCacheValid_entry w fields timestamp Hc Ht). apply Z.ltb_ge. lia. }
  assert (Hstale2 : isCacheValid w2 = false)
    by (apply (isCacheValid_stays_false w w2); congruence).
  split; [done|]. split.
  - unfold exec. rewrite loadThemeIfNeeded_invalid by done. apply loadTheme_requests.
  - intros Hok. by apply init_fetches.
Qed.

Lemma loadTheme_failure_keeps_cache_witness :
  let w := cached_page theme_with_sidebar_color 1500000000000 1700000000000 in
  let w1 := exec (loadTheme server_error) w in
  let w2 := cached_page theme_with_sidebar_color 1500000000000 1700000600000 in
  localStorage w1 = localStorage w /\
  isCacheValid w2 = false /\
  requests (exec (loadThemeIfNeeded server_error) w2) = S (requests w2) /\
  requests (exec (init server_error) w2) = S (requests w2).
Proof.
  intros w w1 w2.
  destruct (loadTheme_failure_keeps_cache w server_error (fails_status 500 None eq_refl))
    as [Hkeep Hlater].
  split; [exact Hkeep|].
  destruct (Hlater [("data", theme_with_sidebar_color);
                    ("timestamp", JNum 1500000000000); ("version", JNum 1)]
              1500000000000 eq_refl eq_refl ltac:(discriminate) w2 server_error
              eq_refl ltac:(discriminate))
    as [H1 [H2 H3]].
  split; [exact H1|]. split; [exact H2|]. apply H3. reflexivity.
Defined.

(** The startup statement needs its proviso: when the cached theme has
    a [hide_search] that is not a list, [applyCachedTheme] throws on a
    page with a search bar, [init] goes to its [catch] before the load,
    and no request is made although the entry is stale. *)
Example stale_entry_with_malformed_hide_search :
  let w := cached_page (JObj [("hide_search", JStr "Sales User")])
             1500000000000 1700000000000 in
  isCacheValid w = false /\
  outcome applyCachedTheme w = Throw TypeError /\
  requests (exec (init server_error) w) = requests w.
Proof. vm_compute. repeat split. Qed.

(** ** Scenarios of the description *)

Example stale_cache_and_server_error :
  let w := exec (init server_error)
             (cached_page theme_with_sidebar_color 1500000000000 1700000000000) in
  outcome (init server_error)
    (cached_page theme_with_sidebar_color 1500000000000 1700000000000) = Ok tt /\
  themeData w = theme_with_sidebar_color /\
  style w !! "--sidebar-bg" = Some "#123456" /\
  requests w = 1%nat.
Proof. vm_compute. repeat split. Qed.

Example login_box_on_the_right :
  let st := style (exec applyTheme
                     (page (JObj [("login_box_position", JStr "Right");
                                  ("is_app_details_inside_the_box", JNum 1)]))) in
  st !! "--login-box-position" = Some "absolute" /\
  st !! "--login-box-right" = Some "10%" /\
  st !! "--login-box-left" = Some "auto" /\
  st !! "--login-box-padding" = Some "18px 40px 40px 40px" /\
  st !! "--login-box-top" = Some "26%".
Proof. vm_compute. repeat split. Qed.

Example sidebar_class_for_flags :
  sidebarContainer (exec applyTheme (page (theme_sidebar_flag 0)))
    = Some (mkElement ["body-sidebar-container"; "expanded"] "") /\
  sidebarContainer (exec applyTheme (page (theme_sidebar_flag 1)))
    = Some (mkElement ["body-sidebar-container"] "").
Proof. vm_compute. repeat split. Qed.

(** Startup with no cache and a server that answers with an error: the
    defaults are in the style declaration and the timer set by
    [applyCachedTheme] reveals the login box, but [init] itself ends
    with the TypeError of [applyTheme] on the [null] theme state. *)
Example startup_under_total_failure :
  let w := exec (init server_error) (page JNull) in
  outcome (init server_error) (page JNull) = Throw TypeError /\
  style w = reset_style ∅ /\
  timers w = [(100, RevealLoginBox)] /\
  loginBox (run_timers w) = Some (mkElement ["for-login"; "theme-ready"] "").
Proof.
  split; [by vm_compute|]. split; [|split; by vm_compute].
  refine (bool_decide_unpack _ _). vm_compute. exact I.
Qed.
(** * Further properties of the controller *)

Lemma loadTheme_success (w : World) (lat status : Z) (data : JsVal) :
  response_ok status = true ->
  truthy (unwrap data) = true ->
  loadTheme (mkNetwork (Reply status (Some data)) lat) w
  = (Ok tt, loaded (mkNetwork (Reply status (Some data)) lat) (unwrap data) w).
Proof.
  intros Hs Ht. unfold unwrap in *. destruct w.
  unfold loadTheme, fetch, loaded, fetched, exec; run; cbn.
  rewrite Hs; cbn. rewrite Ht; cbn. reflexivity.
Qed.

Lemma loaded_frame (net : Network) (theme : JsVal) (w : World) :
  themeData (loaded net theme w) = theme /\
  requests (loaded net theme w) = S (requests w) /\
  clock (loaded net theme w) = clock w + latency net /\
  style (loaded net theme w) = style w /\
  roles (loaded net theme w) = roles w /\
  searchBar (loaded net theme w) = searchBar w /\
  sidebarContainer (loaded net theme w) = sidebarContainer w /\
  loginBox (loaded net theme w) = loginBox w /\
  timers (loaded net theme w) = timers w /\
  listeners (loaded net theme w) = listeners w.
Proof.
  unfold loaded, exec, setCachedTheme, update, fetched. destruct w; simpl.
  repeat case_match; repeat split.
Qed.

Lemma loaded_cache (net : Network) (theme : JsVal) (w : World) :
  getCachedTheme (loaded net theme w) =
    if takes_writes w then cache_entry theme (clock w + latency net)
    else getCachedTheme w.
Proof.
  unfold loaded, exec, setCachedTheme, update, fetched, takes_writes, getCachedTheme.
  destruct w as [? ? ? ? ? ? ? [a f i]]; simpl.
  destruct a, f; reflexivity.
Qed.

(** X1.  A load answered with a success status and a JSON body whose
    unwrapped payload is truthy returns, makes one request and leaves
    that payload as the theme state.  When the storage takes the write,
    the entry read back holds the payload with the time the answer
    arrived as timestamp, so the cache is valid at once and a following
    [loadThemeIfNeeded] changes nothing. *)
Theorem loadTheme_success_caches (w : World) (lat status : Z) (data : JsVal) :
  response_ok status = true ->
  truthy (unwrap data) = true ->
  let net := mkNetwork (Reply status (Some data)) lat in
  let w1 := exec (loadTheme net) w in
  outcome (loadTheme net) w = Ok tt /\
  themeData w1 = unwrap data /\
  requests w1 = S (requests w) /\
  (takes_writes w = true ->
   getCachedTheme w1 = cache_entry (unwrap data) (clock w + lat) /\
   isCacheValid w1 = true /\
   forall net2, loadThemeIfNeeded net2 w1 = (Ok tt, w1)).
Proof.
  intros Hs Ht net w1. unfold w1, outcome, exec, net.
  rewrite (loadTheme_success w lat status data Hs Ht). simpl.
  destruct (loaded_frame (mkNetwork (Reply status (Some data)) lat) (unwrap data) w)
    as [H1 [H2 [H3 _]]].
  split; [done|]. split; [done|]. split; [done|].
  intros Hw.
  pose proof (loaded_cache (mkNetwork (Reply status (Some data)) lat) (unwrap data) w) as Hc.
  rewrite Hw in Hc. simpl in Hc.
  assert (Hvalid : isCacheValid (loaded (mkNetwork (Reply status (Some data)) lat)
                                   (unwrap data) w) = true).
  { rewrite (isCacheValid_entry _ _ (clock w + lat) Hc eq_refl), H3. simpl.
    rewrite Z.sub_diag. reflexivity. }
  split; [done|]. split; [done|].
  intros net2. by apply loadThemeIfNeeded_valid.
Qed.

(** X2.  Unwrapping the body of a successful answer: a truthy
    [message] becomes the theme state; when [message] is absent or
    falsy the whole body does, wrapper included (a body
    [{message: null, ...}] is taken as the theme, not as a failure). *)
Theorem loadTheme_unwraps (w : World) (lat status : Z) (data : JsVal) :
  response_ok status = true ->
  let net := mkNetwork (Reply status (Some data)) lat in
  (forall message, get_opt data "message" = Some message -> truthy message = true ->
     outcome (loadTheme net) w = Ok tt /\ themeData (exec (loadTheme net) w) = message) /\
  (truthy_opt (get_opt data "message") = false -> truthy data = true ->
     outcome (loadTheme net) w = Ok tt /\ themeData (exec (loadTheme net) w) = data).
Proof.
  intros Hs net. split.
  - intros message Hm Ht.
    assert (Hu : unwrap data = message) by (unfold unwrap; by rewrite Hm; simpl; rewrite Ht).
    unfold net, outcome, exec. rewrite loadTheme_success by (by rewrite ?Hu).
    rewrite Hu. simpl. split; [done|]. apply loaded_frame.
  - intros Hm Ht.
    assert (Hu : unwrap data = data).
    { unfold unwrap, or_else. destruct (get_opt data "message"); [|done].
      simpl in Hm. by rewrite Hm. }
    unfold net, outcome, exec. rewrite loadTheme_success by (by rewrite ?Hu).
    rewrite Hu. simpl. split; [done|]. apply loaded_frame.
Qed.

Lemma loadTheme_unwraps_witness :
  let wrapped := JObj [("message", theme_all_hidden)] in
  let bare := JObj [("message", JNull); ("navbar_color", JStr "#000")] in
  themeData (exec (loadTheme (mkNetwork (Reply 200 (Some wrapped)) 80)) (page JNull))
    = theme_all_hidden /\
  themeData (exec (loadTheme (mkNetwork (Reply 200 (Some bare)) 80)) (page JNull)) = bare.
Proof.
  intros wrapped bare. split.
  - apply (proj1 (loadTheme_unwraps (page JNull) 80 200 wrapped eq_refl) theme_all_hidden);
      reflexivity.
  - apply (proj2 (loadTheme_unwraps (page JNull) 80 200 bare eq_refl)); reflexivity.
Defined.

Lemma loadTheme_success_caches_witness :
  let net := mkNetwork (Reply 200 (Some (JObj [("message", theme_all_hidden)]))) 80 in
  let w1 := exec (loadTheme net) (page JNull) in
  outcome (loadTheme net) (page JNull) = Ok tt /\
  themeData w1 = theme_all_hidden /\
  requests w1 = 1%nat /\
  getCachedTheme w1 = cache_entry theme_all_hidden 1700000000080 /\
  isCacheValid w1 = true /\
  loadThemeIfNeeded server_error w1 = (Ok tt, w1).
Proof.
  intros net w1.
  destruct (loadTheme_success_caches (page JNull) 80 200
              (JObj [("message", theme_all_hidden)]) eq_refl eq_refl)
    as [H1 [H2 [H3 H4]]].
  destruct (H4 eq_refl) as [H5 [H6 H7]].
  split; [exact H1|]. split; [exact H2|]. split; [exact H3|].
  split; [exact H5|]. split; [exact H6|]. exact (H7 server_error).
Defined.

(** X3.  When the storage is disabled or refuses the write,
    [setCachedTheme] returns with the world unchanged, and a successful
    [loadTheme] still returns with the payload as theme state; the
    storage is as before. *)
Theorem failed_write_is_silent (w : World) (theme : JsVal) :
  takes_writes w = false ->
  setCachedTheme theme w = (Ok tt, w) /\
  forall (lat status : Z) (data : JsVal),
    response_ok status = true ->
    truthy (unwrap data) = true ->
    let net := mkNetwork (Reply status (Some data)) lat in
    outcome (loadTheme net) w = Ok tt /\
    themeData (exec (loadTheme net) w) = unwrap data /\
    localStorage (exec (loadTheme net) w) = localStorage w.
Proof.
  intros Hw. split.
  - unfold setCachedTheme, update, takes_writes in *. by rewrite Hw.
  - intros lat status data Hs Ht net. unfold net, outcome, exec.
    rewrite loadTheme_success by done. simpl. split; [done|].
    split; [apply loaded_frame|].
    unfold loaded, exec, setCachedTheme, update, fetched, takes_writes in *.
    destruct w as [? ? ? ? ? ? ? [a f i]]; simpl in *. by rewrite Hw.
Qed.

Lemma failed_write_is_silent_witness :
  let net := mkNetwork (Reply 200 (Some theme_all_hidden)) 80 in
  setCachedTheme theme_all_hidden full_storage_page = (Ok tt, full_storage_page) /\
  outcome (loadTheme net) full_storage_page = Ok tt /\
  themeData (exec (loadTheme net) full_storage_page) = theme_all_hidden /\
  localStorage (exec (loadTheme net) full_storage_page) = localStorage full_storage_page.
Proof.
  intros net.
  destruct (failed_write_is_silent full_storage_page theme_all_hidden eq_refl) as [H1 H2].
  split; [exact H1|].
  exact (H2 80 200 theme_all_hidden eq_refl eq_refl).
Defined.

(** X4.  With a storage that is disabled, empty, unparsable or without
    truthy [data], [applyCachedTheme] is [showLoginBoxFallback]: it
    returns, leaves the theme state, the style declaration, the sidebar
    and the search bar alone, and sets the 100 ms timer exactly when
    the login box is there and not yet ready. *)
Theorem applyCachedTheme_unusable_cache (w : World) :
  unusable_cache (localStorage w) ->
  applyCachedTheme w = showLoginBoxFallback w /\
  let w1 := exec applyCachedTheme w in
  outcome applyCachedTheme w = Ok tt /\
  themeData w1 = themeData w /\
  style w1 = style w /\
  sidebarContainer w1 = sidebarContainer w /\
  searchBar w1 = searchBar w /\
  timers w1 =
    (timers w ++
     match loginBox w with
     | Some e => if contains "theme-ready" e then [] else [(100, RevealLoginBox)]
     | None => []
     end)%list.
Proof.
  intros Hc.
  assert (Hrun : applyCachedTheme w = showLoginBoxFallback w).
  { unfold applyCachedTheme. rewrite run_bind. unfold read at 1. unfold getCachedTheme.
    destruct Hc as [f i|f|f|f v Hv]; simpl; try reflexivity.
    destruct (v#"data") as [data|]; [|reflexivity]. simpl in Hv. rewrite Hv.
    by rewrite andb_false_r. }
  split; [exact Hrun|]. simpl. unfold outcome, exec. rewrite Hrun.
  unfold showLoginBoxFallback, setTimeout. run.
  destruct w as [? ? box]; simpl. destruct box as [e|]; simpl.
  - destruct (contains "theme-ready" e); simpl; rewrite ?app_nil_r; repeat split.
  - rewrite app_nil_r. repeat split.
Qed.

Lemma applyCachedTheme_unusable_cache_witness :
  let w := with_localStorage (mkStorage true true (Some Malformed)) (page JNull) in
  applyCachedTheme w = showLoginBoxFallback w /\
  outcome applyCachedTheme w = Ok tt /\
  themeData (exec applyCachedTheme w) = JNull /\
  style (exec applyCachedTheme w) = ∅ /\
  sidebarContainer (exec applyCachedTheme w) = sidebarContainer w /\
  searchBar (exec applyCachedTheme w) = searchBar w /\
  timers (exec applyCachedTheme w) = [(100, RevealLoginBox)].
Proof.
  intros w.
  destruct (applyCachedTheme_unusable_cache w (cache_malformed true)) as [H1 H2].
  split; [exact H1|]. exact H2.
Defined.

(** X5.  A cache that reads as [null], or an entry without a
    [timestamp], is invalid whatever the clock says, and
    [loadThemeIfNeeded] then makes a request. *)
Theorem cache_without_timestamp_is_invalid (w : World) :
  getCachedTheme w = JNull \/ (getCachedTheme w)#"timestamp" = None ->
  isCacheValid w = false /\
  forall net, requests (exec (loadThemeIfNeeded net) w) = S (requests w).
Proof.
  intros H.
  assert (Hv : isCacheValid w = false).
  { unfold isCacheValid. destruct H as [-> | H]; [reflexivity|].
    rewrite H. simpl. by destruct (negb _). }
  split; [exact Hv|]. intros net. unfold exec.
  rewrite loadThemeIfNeeded_invalid by done. apply loadTheme_requests.
Qed.

Lemma cache_without_timestamp_is_invalid_witness :
  let w := with_localStorage
             (mkStorage true true (Some (JsonText (JObj [("data", theme_all_hidden)]))))
             (page JNull) in
  isCacheValid w = false /\
  requests (exec (loadThemeIfNeeded server_error) w) = 1%nat.
Proof.
  intros w.
  destruct (cache_without_timestamp_is_invalid w (or_intror eq_refl)) as [H1 H2].
  split; [exact H1|]. exact (H2 server_error).
Defined.

(** X6.  After [clearCache] nothing is read back from the cache, the
    cache is invalid and the next [loadThemeIfNeeded] makes a request;
    the theme state and the style declaration are untouched, and on a
    disabled storage the world is unchanged.  [clearCache] never
    throws. *)
Theorem clearCache_forgets (w : World) :
  let w1 := exec clearCache w in
  outcome clearCache w = Ok tt /\
  getCachedTheme w1 = JNull /\
  isCacheValid w1 = false /\
  (forall net, requests (exec (loadThemeIfNeeded net) w1) = S (requests w1)) /\
  themeData w1 = themeData w /\ style w1 = style w /\
  (available (localStorage w) = false -> w1 = w).
Proof.
  intros w1.
  assert (Hc : getCachedTheme w1 = JNull).
  { unfold w1, exec, clearCache, update, getCachedTheme.
    destruct w as [? ? ? ? ? ? ? [a f i]]; simpl. by destruct a. }
  assert (Hv : isCacheValid w1 = false) by (unfold isCacheValid; by rewrite Hc).
  split; [done|]. split; [done|]. split; [done|]. split.
  - intros net. unfold exec. rewrite loadThemeIfNeeded_invalid by done.
    apply loadTheme_requests.
  - unfold w1, exec, clearCache, update.
    destruct w as [? ? ? ? ? ? ? [a f i]]; simpl. destruct a; repeat split; done.
Qed.

Lemma clearCache_forgets_witness :
  let w := with_localStorage (mkStorage false true None) (page theme_all_hidden) in
  getCachedTheme (exec clearCache (cached_page theme_all_hidden 1700000000000 1700000001000))
    = JNull /\
  exec clearCache w = w.
Proof.
  intros w. split.
  - exact (proj1 (proj2
      (clearCache_forgets (cached_page theme_all_hidden 1700000000000 1700000001000)))).
  - apply (clearCache_forgets w). reflexivity.
Defined.

(** X7.  The [themeChanged] listener makes one request every time,
    also when the cache is valid, where [loadThemeIfNeeded] makes
    none. *)
Theorem onThemeChanged_always_fetches (w : World) (net : Network) :
  requests (exec (onThemeChanged net) w) = S (requests w) /\
  (isCacheValid w = true -> requests (exec (loadThemeIfNeeded net) w) = requests w).
Proof.
  split.
  - unfold onThemeChanged, exec. rewrite run_bind.
    pose proof (loadTheme_requests net w) as H. unfold exec in H.
    destruct (loadTheme net w) as [[[]|e] w1]; simpl in *; [|done].
    pose proof (applyTheme_browser w1) as Hb. unfold browser, exec in Hb. congruence.
  - intros Hv. unfold exec. by rewrite loadThemeIfNeeded_valid.
Qed.

Lemma onThemeChanged_always_fetches_witness :
  let w := cached_page theme_all_hidden 1700000000000 1700000001000 in
  requests (exec (onThemeChanged server_error) w) = 1%nat /\
  requests (exec (loadThemeIfNeeded server_error) w) = 0%nat.
Proof.
  intros w. split.
  - exact (proj1 (onThemeChanged_always_fetches w server_error)).
  - apply (proj2 (onThemeChanged_always_fetches w server_error)). reflexivity.
Defined.

(** X8.  A startup makes no request or one, whatever the cache, the
    answer and the page are, and whether [init] returns or throws. *)
Theorem init_requests_at_most_once (w : World) (net : Network) :
  requests (exec (init net) w) = requests w \/
  requests (exec (init net) w) = S (requests w).
Proof.
  assert (Hhandler : forall e : JsError, preserves requests (applyTheme;; showLoginBoxFallback)).
  { intros _. apply preserves_bind; [apply applyTheme_preserves; frame|]. intros _.
    apply showLoginBoxFallback_preserves. frame. }
  assert (Hrest : preserves requests
            (themeData ← read themeData;
             (if truthy themeData then applyTheme else mret tt);; setupEventListeners)).
  { apply preserves_bind; [apply preserves_read|]. intros theme.
    apply preserves_bind.
    - destruct (truthy theme); [apply applyTheme_preserves; frame | apply preserves_ret].
    - intros _. apply setupEventListeners_preserves. frame. }
  unfold init, exec, try_catch. rewrite run_bind.
  pose proof (applyCachedTheme_preserves requests ltac:(frame) ltac:(frame) ltac:(frame)
                ltac:(frame) ltac:(frame) ltac:(frame) w) as H1.
  unfold exec in H1.
  destruct (applyCachedTheme w) as [[[]|e] w1]; simpl in H1.
  - rewrite run_bind.
    assert (H2 : requests (exec (loadThemeIfNeeded net) w1) = requests w1 \/
                 requests (exec (loadThemeIfNeeded net) w1) = S (requests w1)).
    { destruct (isCacheValid w1) eqn:Hv.
      - left. unfold exec. by rewrite loadThemeIfNeeded_valid.
      - right. unfold exec. rewrite loadThemeIfNeeded_invalid by done.
        apply loadTheme_requests. }
    unfold exec in H2.
    destruct (loadThemeIfNeeded net w1) as [[[]|e] w2]; simpl in H2.
    + pose proof (Hrest w2) as H3. unfold exec in H3.
      match type of H3 with requests (snd (?m w2)) = _ => destruct (m w2) as [[[]|e] w3] end;
        simpl in *.
      * rewrite H3, <- H1. exact H2.
      * pose proof (Hhandler e w3) as H4. unfold exec in H4. rewrite H4, H3, <- H1. exact H2.
    + pose proof (Hhandler e w2) as H4. unfold exec in H4. rewrite H4, <- H1. exact H2.
  - pose proof (Hhandler e w1) as H4. unfold exec in H4. rewrite H4, H1. by left.
Qed.

Section Keeps.

Context (I : World -> Prop).

Lemma keeps_ret {A} (a : A) : keeps I (mret a).
Proof. by intros w. Qed.

Lemma keeps_read {A} (f : World -> A) : keeps I (read f).
Proof. by intros w. Qed.

Lemma keeps_bind {A B} (m : M A) (k : A -> M B) :
  keeps I m -> (forall a, keeps I (k a)) -> keeps I (m ≫= k).
Proof.
  intros Hm Hk w Hw. unfold exec. rewrite run_bind.
  specialize (Hm w Hw). unfold exec in Hm.
  destruct (m w) as [[a|e] w']; simpl in *; [|done]. by apply Hk.
Qed.

Lemma keeps_try_catch {A} (body : M A) (handler : JsError -> M A) :
  keeps I body -> (forall e, keeps I (handler e)) -> keeps I (try_catch body handler).
Proof.
  intros Hb Hh w Hw. unfold exec, try_catch.
  specialize (Hb w Hw). unfold exec in Hb.
  destruct (body w) as [[a|e] w']; simpl in *; [done|]. by apply Hh.
Qed.

End Keeps.

Section AppliedTheme.

Context (data : JsVal) (st0 : Style) (b0 : Storage * Z * nat).
Hypothesis data_not_null : data <> JNull.

Lemma theme_applied_pending w : theme_applied data st0 b0 w -> theme_pending data st0 b0 w.
Proof.
  intros [H1 [H2 H3]]. split; [done|]. split; [done|].
  rewrite H3. apply oblivious_idempotent, themed_style_oblivious.
Qed.

Lemma applyTheme_applies w :
  theme_pending data st0 b0 w -> theme_applied data st0 b0 (exec applyTheme w).
Proof.
  intros [H1 [H2 H3]].
  pose proof (applyTheme_controller w) as Hc. unfold controller in Hc.
  injection Hc as Hc _ _.
  split; [congruence|]. split; [by rewrite applyTheme_browser|].
  rewrite applyTheme_style, H1.
  apply is_null_false in data_not_null. by rewrite data_not_null.
Qed.

Lemma applyTheme_keeps_applied : keeps (theme_applied data st0 b0) applyTheme.
Proof. intros w Hw. by apply applyTheme_applies, theme_applied_pending. Qed.

Lemma showLoginBoxFallback_keeps_applied :
  keeps (theme_applied data st0 b0) showLoginBoxFallback.
Proof.
  intros w [H1 [H2 H3]].
  pose proof (showLoginBoxFallback_preserves themeData ltac:(frame) w) as E1.
  pose proof (showLoginBoxFallback_preserves browser ltac:(frame) w) as E2.
  pose proof (showLoginBoxFallback_preserves style ltac:(frame) w) as E3.
  unfold theme_applied. by rewrite E1, E2, E3.
Qed.

Lemma setupEventListeners_keeps_applied :
  keeps (theme_applied data st0 b0) setupEventListeners.
Proof.
  intros w [H1 [H2 H3]].
  pose proof (setupEventListeners_preserves themeData ltac:(frame) w) as E1.
  pose proof (setupEventListeners_preserves browser ltac:(frame) w) as E2.
  pose proof (setupEventListeners_preserves style ltac:(frame) w) as E3.
  unfold theme_applied. by rewrite E1, E2, E3.
Qed.

(** What [init] runs after the load, and its [catch]. *)
Lemma after_load_keeps_applied :
  keeps (theme_applied data st0 b0)
    (themeData ← read themeData;
     (if truthy themeData then applyTheme else mret tt);; setupEventListeners).
Proof.
  apply keeps_bind; [apply keeps_read|]. intros theme.
  apply keeps_bind; [|intros _; apply setupEventListeners_keeps_applied].
  destruct (truthy theme); [apply applyTheme_keeps_applied | apply keeps_ret].
Qed.

Lemma init_handler_keeps_applied (e : JsError) :
  keeps (theme_applied data st0 b0) (applyTheme;; showLoginBoxFallback).
Proof.
  apply keeps_bind; [apply applyTheme_keeps_applied|].
  intros _. apply showLoginBoxFallback_keeps_applied.
Qed.

End AppliedTheme.

(** X9.  Startup on a valid cache entry with truthy data: the theme
    state is the cached data, the style declaration is the one that
    data gives on the declaration [init] started from (the second
    application changes nothing), no request is made and the storage
    is untouched.  This holds whether [init] returns or throws. *)
Theorem init_with_valid_cache (w : World) (net : Network)
    (fields : list (string * JsVal)) (data : JsVal) (timestamp : Z) :
  getCachedTheme w = JObj fields ->
  own_property fields "data" = Some data ->
  truthy data = true ->
  own_property fields "timestamp" = Some (JNum timestamp) ->
  clock w - timestamp < cacheTimeout ->
  let w1 := exec (init net) w in
  themeData w1 = data /\
  style w1 = themed_style data (style w) /\
  requests w1 = requests w /\
  localStorage w1 = localStorage w.
Proof.
  intros Hc Hd Ht Hts Hage.
  assert (Hnn : data <> JNull) by (intros ->; discriminate).
  assert (Hvalid : isCacheValid w = true).
  { rewrite (isCacheValid_entry w fields timestamp Hc Hts). by apply Z.ltb_lt. }
  assert (Happlied : theme_applied data (style w) (browser w) (exec (init net) w)).
  { unfold init, exec, try_catch. rewrite run_bind.
    assert (H1 : theme_applied data (style w) (browser w) (exec applyCachedTheme w)).
    { unfold applyCachedTheme, exec. rewrite run_bind. unfold read at 1.
      rewrite Hc. simpl. rewrite Hd, Ht. simpl. rewrite run_bind. unfold update at 1.
      apply (applyTheme_applies data (style w) (browser w) Hnn).
      split; [by destruct w|]. split; by destruct w. }
    unfold exec in H1.
    destruct (applyCachedTheme w) as [[[]|e] w1]; simpl in H1.
    - rewrite run_bind, loadThemeIfNeeded_valid.
      + pose proof (after_load_keeps_applied data (style w) (browser w) Hnn w1 H1) as H2.
        unfold exec in H2.
        match type of H2 with theme_applied _ _ _ (snd (?m w1)) =>
          destruct (m w1) as [[[]|e] w2] end; simpl in *; [done|].
        by apply (init_handler_keeps_applied data (style w) (browser w) Hnn e).
      + rewrite (isCacheValid_ext w1 w); [done|]. by destruct H1 as [_ [H1 _]].
    - by apply (init_handler_keeps_applied data (style w) (browser w) Hnn e). }
  destruct Happlied as [H1 [H2 H3]]. unfold browser in H2. injection H2 as H2 _ H4.
  simpl. by repeat split.
Qed.

Lemma init_with_valid_cache_witness :
  let w := cached_page theme_with_sidebar_color 1700000000000 1700000001000 in
  let w1 := exec (init server_error) w in
  themeData w1 = theme_with_sidebar_color /\
  style w1 = themed_style theme_with_sidebar_color ∅ /\
  requests w1 = 0%nat /\
  localStorage w1 = localStorage w.
Proof.
  intros w.
  apply (init_with_valid_cache w server_error
           [("data", theme_with_sidebar_color); ("timestamp", JNum 1700000000000);
            ("version", JNum 1)] theme_with_sidebar_color 1700000000000);
    reflexivity.
Defined.

(** X10.  Startup without a readable cache, answered with a success
    and a truthy payload: the theme state is the payload, the style
    declaration is the one the payload gives, one request has been
    made, and when the storage takes the write the entry holds the
    payload and the arrival time. *)
Theorem init_without_cache_loads (w : World) (lat status : Z) (data : JsVal) :
  getCachedTheme w = JNull ->
  response_ok status = true ->
  truthy (unwrap data) = true ->
  let net := mkNetwork (Reply status (Some data)) lat in
  let w1 := exec (init net) w in
  themeData w1 = unwrap data /\
  style w1 = themed_style (unwrap data) (style w) /\
  requests w1 = S (requests w) /\
  (takes_writes w = true ->
   getCachedTheme w1 = cache_entry (unwrap data) (clock w + lat)).
Proof.
  intros Hc Hs Ht net.
  assert (Hnn : unwrap data <> JNull) by (intros H; rewrite H in Ht; discriminate).
  pose proof (showLoginBoxFallback_preserves
                (fun w => (localStorage w, clock w, requests w, style w))
                ltac:(frame) w) as Hfb.
  pose proof (showLoginBoxFallback_returns w) as Hret.
  set (wf := exec showLoginBoxFallback w) in *.
  injection Hfb as F1 F2 F3 F4.
  set (w2 := loaded net (unwrap data) wf).
  destruct (loaded_frame net (unwrap data) wf) as [L1 [L2 [L3 [L4 _]]]]. fold w2 in L1, L2, L3, L4.
  assert (Happlied : theme_applied (unwrap data) (style w) (browser w2) (exec (init net) w)).
  { unfold init, exec, try_catch. rewrite run_bind, applyCachedTheme_no_cache by done.
    unfold outcome in Hret. fold (exec showLoginBoxFallback w) in wf.
    destruct (showLoginBoxFallback w) as [r wf'] eqn:Hrun. simpl in Hret. subst r.
    replace wf' with wf by (unfold wf, exec; by rewrite Hrun).
    assert (Hstale : isCacheValid wf = false).
    { unfold isCacheValid. by rewrite (getCachedTheme_ext wf w), Hc. }
    rewrite run_bind, loadThemeIfNeeded_invalid by done.
    unfold net. rewrite loadTheme_success by done. fold net. fold w2.
    assert (Hpending : theme_pending (unwrap data) (style w) (browser w2) w2).
    { split; [done|]. split; [done|]. by rewrite L4, F4. }
    assert (H2 : theme_applied (unwrap data) (style w) (browser w2)
                   (exec (themeData ← read themeData;
                          (if truthy themeData then applyTheme else mret tt);;
                          setupEventListeners) w2)).
    { unfold exec. rewrite run_bind. unfold read at 1. rewrite L1, Ht.
      rewrite run_bind.
      pose proof (applyTheme_applies (unwrap data) (style w) (browser w2) Hnn w2 Hpending)
        as H. unfold exec in H.
      destruct (applyTheme w2) as [[[]|e] w3]; simpl in *; [|done].
      by apply (setupEventListeners_keeps_applied (unwrap data) (style w) (browser w2)). }
    unfold exec in H2.
    match type of H2 with theme_applied _ _ _ (snd (?m w2)) =>
      destruct (m w2) as [[[]|e] w3] end; simpl in *; [done|].
    by apply (init_handler_keeps_applied (unwrap data) (style w) (browser w2) Hnn e). }
  destruct Happlied as [H1 [H2 H3]]. unfold browser in H2. injection H2 as H2 H2' H2''.
  simpl. split; [done|]. split; [done|]. split; [congruence|].
  intros Hw.
  rewrite (getCachedTheme_ext _ w2) by done. unfold w2. rewrite loaded_cache.
  replace (takes_writes wf) with (takes_writes w) by (unfold takes_writes; by rewrite F1).
  rewrite Hw. f_equal. by rewrite F2.
Qed.

Lemma init_without_cache_loads_witness :
  let net := mkNetwork (Reply 200 (Some (JObj [("message", theme_with_sidebar_color)]))) 80 in
  let w1 := exec (init net) (page JNull) in
  themeData w1 = theme_with_sidebar_color /\
  style w1 = themed_style theme_with_sidebar_color ∅ /\
  requests w1 = 1%nat /\
  getCachedTheme w1 = cache_entry theme_with_sidebar_color 1700000000080.
Proof.
  intros net w1.
  destruct (init_without_cache_loads (page JNull) 80 200
              (JObj [("message", theme_with_sidebar_color)]) eq_refl eq_refl eq_refl)
    as [H1 [H2 [H3 H4]]].
  split; [exact H1|]. split; [exact H2|]. split; [exact H3|]. exact (H4 eq_refl).
Defined.

Lemma elem_of_classList_add (c c' : string) (e : Element) :
  c' ∈ classList (classList_add c e) <-> c' = c \/ c' ∈ classList e.
Proof.
  unfold classList_add, contains. case_bool_decide as H; simpl.
  - split; [by right|]. intros [->|?]; done.
  - rewrite elem_of_app, list_elem_of_singleton. tauto.
Qed.

Lemma elem_of_classList_remove (c c' : string) (e : Element) :
  c' ∈ classList (classList_remove c e) <-> c' <> c /\ c' ∈ classList e.
Proof. unfold classList_remove. simpl. rewrite list_elem_of_filter. tauto. Qed.

Lemma NoDup_classList_add (c : string) (e : Element) :
  NoDup (classList e) -> NoDup (classList (classList_add c e)).
Proof.
  intros H. unfold classList_add, contains. case_bool_decide as Hc; simpl; [done|].
  apply NoDup_app. split; [done|]. split.
  - intros x Hx Hx'. apply list_elem_of_singleton in Hx'. by subst.
  - apply NoDup_singleton.
Qed.

Lemma NoDup_classList_remove (c : string) (e : Element) :
  NoDup (classList e) -> NoDup (classList (classList_remove c e)).
Proof. intros H. unfold classList_remove. simpl. by apply NoDup_filter. Qed.

Lemma is_num_true (o : option JsVal) (n : Z) : is_num o n = true <-> o = Some (JNum n).
Proof.
  unfold is_num. destruct o as [[]|]; try (split; [discriminate|congruence]).
  rewrite Z.eqb_eq. split; congruence.
Qed.

(** X11.  With a theme state that is not [null] and a sidebar
    container, [toggleSidebar] returns; afterwards the container has
    the class expanded iff [hide_side_bar] is exactly the number 0, its
    other classes and its inline display are as before, and its class
    list stays free of duplicates. *)
Theorem toggleSidebar_class (w : World) (e : Element) :
  themeData w <> JNull ->
  sidebarContainer w = Some e ->
  outcome toggleSidebar w = Ok tt /\
  exists e',
    sidebarContainer (exec toggleSidebar w) = Some e' /\
    ("expanded" ∈ classList e' <-> (themeData w)#"hide_side_bar" = Some (JNum 0)) /\
    (forall c, c <> "expanded" -> c ∈ classList e' <-> c ∈ classList e) /\
    (NoDup (classList e) -> NoDup (classList e')) /\
    display e' = display e.
Proof.
  intros Hnn Hs. unfold outcome, exec. rewrite toggleSidebar_run by done. rewrite Hs.
  simpl. split; [done|]. exists (toggled (themeData w) e).
  split; [by destruct w|].
  unfold toggled. destruct (is_num (themeData w)#"hide_side_bar" 0) eqn:Hz.
  - apply is_num_true in Hz. split; [|split; [|split]].
    + rewrite elem_of_classList_add. split; [done|]. by left.
    + intros c Hc. rewrite elem_of_classList_add. split; [by intros [?|?]|by right].
    + apply NoDup_classList_add.
    + unfold classList_add. by case_match.
  - assert (Hne : (themeData w)#"hide_side_bar" <> Some (JNum 0)).
    { intros H. apply is_num_true in H. congruence. }
    split; [|split; [|split]].
    + rewrite elem_of_classList_remove. split; [by intros [? _]|done].
    + intros c Hc. rewrite elem_of_classList_remove. tauto.
    + apply NoDup_classList_remove.
    + done.
Qed.

Lemma toggleSidebar_class_witness :
  let w := page (theme_sidebar_flag 0) in
  outcome toggleSidebar w = Ok tt /\
  exists e',
    sidebarContainer (exec toggleSidebar w) = Some e' /\
    ("expanded" ∈ classList e' <-> (themeData w)#"hide_side_bar" = Some (JNum 0)) /\
    (forall c, c <> "expanded" ->
       c ∈ classList e' <-> c ∈ classList (mkElement ["body-sidebar-container"] "")) /\
    (NoDup (classList (mkElement ["body-sidebar-container"] "")) -> NoDup (classList e')) /\
    display e' = display (mkElement ["body-sidebar-container"] "").
Proof.
  intros w.
  apply (toggleSidebar_class w (mkElement ["body-sidebar-container"] "")).
  - discriminate.
  - reflexivity.
Defined.

(** X12.  Without a sidebar container [toggleSidebar] returns with the
    world unchanged, even on a [null] theme state; with a container and
    a [null] theme state it throws a TypeError and changes nothing. *)
Theorem toggleSidebar_without_container (w : World) :
  (sidebarContainer w = None -> toggleSidebar w = (Ok tt, w)) /\
  (forall e, sidebarContainer w = Some e -> themeData w = JNull ->
     toggleSidebar w = (Throw TypeError, w)).
Proof.
  split.
  - intros H. unfold toggleSidebar. run. by rewrite H.
  - intros e H Hn. unfold toggleSidebar. run. by rewrite H, Hn.
Qed.

Lemma toggleSidebar_without_container_witness :
  toggleSidebar (with_sidebarContainer None (page JNull))
    = (Ok tt, with_sidebarContainer None (page JNull)) /\
  toggleSidebar (page JNull) = (Throw TypeError, page JNull).
Proof.
  split.
  - apply (proj1 (toggleSidebar_without_container (with_sidebarContainer None (page JNull)))).
    reflexivity.
  - apply (proj2 (toggleSidebar_without_container (page JNull))
             (mkElement ["body-sidebar-container"] "")); reflexivity.
Defined.

(** X13.  On a theme state that is not [null], [setDefaultApp] never
    throws and leaves the theme state, the style declaration, the
    storage, the clock and the requests alone.  It does nothing unless
    [hide_app_switcher] and [default_app] are truthy and the host has a
    switcher; then the current app becomes [default_app] when the
    switcher accepts it, and one warning is logged, the current app
    kept, when the switcher throws. *)
Theorem setDefaultApp_guarded (w : World) :
  themeData w <> JNull ->
  let w1 := exec setDefaultApp w in
  outcome setDefaultApp w = Ok tt /\
  themeData w1 = themeData w /\ style w1 = style w /\ browser w1 = browser w /\
  (truthy_opt (themeData w)#"hide_app_switcher" = false \/
   truthy_opt (themeData w)#"default_app" = false \/
   apps_switcher w = None -> w1 = w) /\
  (forall sw app,
     truthy_opt (themeData w)#"hide_app_switcher" = true ->
     (themeData w)#"default_app" = Some app -> truthy app = true ->
     apps_switcher w = Some sw ->
     if switches_to sw app
     then current_app w1 = Some app /\ warnings w1 = warnings w
     else current_app w1 = current_app w /\ warnings w1 = S (warnings w)).
Proof.
  intros Hnn w1.
  split; [by apply setDefaultApp_returns|].
  split; [apply (setDefaultApp_preserves themeData); frame|].
  split; [apply (setDefaultApp_preserves style); frame|].
  split; [apply (setDefaultApp_preserves browser); frame|].
  unfold w1, exec, setDefaultApp. run.
  destruct (themeData w) eqn:Ht; try done; simpl.
  split.
  - intros [H|[H|H]].
    + rewrite H. simpl. by destruct (own_property fields "default_app").
    + destruct (own_property fields "default_app") as [app|]; [|done].
      simpl in H. rewrite H. by rewrite orb_true_r.
    + destruct (own_property fields "default_app") as [app|]; [|done].
      case_match; [done|]. by rewrite H.
  - intros sw app H1 H2 H3 H4. simpl in H1, H2. rewrite H2, H1, H3. simpl. rewrite H4.
    destruct (switches_to sw app); by destruct w.
Qed.

Lemma bind_returns {A B} (m : M A) (k : A -> M B) (w : World) (b : B) :
  outcome (m ≫= k) w = Ok b ->
  exists a, outcome m w = Ok a /\ (m ≫= k) w = k a (exec m w).
Proof.
  unfold outcome, exec. rewrite run_bind. destruct (m w) as [[a|e] w']; simpl; [|done].
  intros _. by exists a.
Qed.

Lemma fire_all (ts : list (Z * Callback)) (w : World) :
  let w1 := foldl (fun w' t => fire t.2 w') w ts in
  loginBox w1 =
    match ts with
    | [] => loginBox w
    | _ => classList_add "theme-ready" <$> loginBox w
    end /\
  style w1 = style w /\ themeData w1 = themeData w /\
  sidebarContainer w1 = sidebarContainer w /\ searchBar w1 = searchBar w.
Proof.
  revert w. induction ts as [|[delay []] ts IH]; intros w; [done|].
  cbn [foldl snd]. destruct (IH (fire RevealLoginBox w)) as [H1 [H2 [H3 [H4 H5]]]].
  cbn zeta in H1, H2, H3, H4, H5 |- *.
  rewrite H1, H2, H3, H4, H5.
  split; [|by destruct w].
  destruct w as [? ? box]; simpl. destruct ts; [done|].
  destruct box as [e|]; [|done]. simpl. by rewrite classList_add_idempotent.
Qed.

Lemma applyTheme_timers (w : World) :
  outcome applyTheme w = Ok tt ->
  timers (exec applyTheme w) =
    (timers w ++ match loginBox w with Some _ => [(50, RevealLoginBox)] | None => [] end)%list
  /\ loginBox (exec applyTheme w) = loginBox w.
Proof.
  intros Hok. unfold applyTheme in *.
  pose proof (setCSSVariables_preserves (fun w => (timers w, loginBox w)) ltac:(frame) w) as P1.
  apply bind_returns in Hok as Hr. destruct Hr as [[] [Hok1 Hrun1]].
  unfold outcome, exec in *. rewrite Hrun1 in Hok |- *. clear Hrun1 Hok1.
  set (w1 := (setCSSVariables w).2) in *.
  pose proof (toggleSidebar_preserves (fun w => (timers w, loginBox w)) ltac:(frame) w1) as P2.
  apply (bind_returns toggleSidebar) in Hok as Hr. destruct Hr as [[] [Hok1 Hrun1]].
  unfold outcome, exec in *. rewrite Hrun1 in Hok |- *. clear Hrun1 Hok1.
  set (w2 := (toggleSidebar w1).2) in *.
  pose proof (toggleSearchBar_preserves (fun w => (timers w, loginBox w)) ltac:(frame) w2) as P3.
  apply (bind_returns toggleSearchBar) in Hok as Hr. destruct Hr as [[] [Hok1 Hrun1]].
  unfold outcome, exec in *. rewrite Hrun1 in Hok |- *. clear Hrun1 Hok1.
  set (w3 := (toggleSearchBar w2).2) in *.
  pose proof (setDefaultApp_preserves (fun w => (timers w, loginBox w)) ltac:(frame) w3) as P4.
  apply (bind_returns setDefaultApp) in Hok as Hr. destruct Hr as [[] [Hok1 Hrun1]].
  unfold outcome, exec in *. rewrite Hrun1 in Hok |- *. clear Hrun1 Hok1.
  set (w4 := (setDefaultApp w3).2) in *.
  assert (P : (timers w4, loginBox w4) = (timers w, loginBox w)) by congruence.
  injection P as T B.
  unfold showLoginBox, setTimeout. run. rewrite B.
  destruct (loginBox w); simpl; rewrite ?app_nil_r.
  - split; [|by destruct w4]. rewrite <- T. by destruct w4.
  - by split.
Qed.

Lemma loginBox_run_timers (w : World) :
  loginBox (run_timers w) =
    match timers w with
    | [] => loginBox w
    | _ => classList_add "theme-ready" <$> loginBox w
    end.
Proof.
  unfold run_timers. destruct (fire_all (timers w) w) as [H _]. cbn zeta in H.
  rewrite <- H. by case_match.
Qed.

(** X14.  Once the pending timers have fired, the login box carries
    the class theme-ready (added once, its other classes kept), after
    every [applyTheme] that returned and after every
    [showLoginBoxFallback]. *)
Theorem login_box_revealed (w : World) :
  (outcome applyTheme w = Ok tt ->
   loginBox (run_timers (exec applyTheme w)) = classList_add "theme-ready" <$> loginBox w) /\
  loginBox (run_timers (exec showLoginBoxFallback w))
    = classList_add "theme-ready" <$> loginBox w.
Proof.
  split.
  - intros Hok. destruct (applyTheme_timers w Hok) as [Ht Hb].
    rewrite loginBox_run_timers, Ht, Hb. destruct (loginBox w) as [e|]; simpl.
    + by destruct (timers w).
    + by case_match.
  - rewrite loginBox_run_timers. unfold exec, showLoginBoxFallback, setTimeout. run.
    destruct w as [? ? box ? ? ts]; simpl. destruct box as [e|]; simpl.
    + destruct (contains "theme-ready" e) eqn:Hc; simpl.
      * destruct ts; [|done]. unfold classList_add. by rewrite Hc.
      * by destruct ts.
    + by destruct ts.
Qed.

Lemma login_box_revealed_witness :
  loginBox (run_timers (exec applyTheme (page theme_all_hidden)))
    = Some (mkElement ["for-login"; "theme-ready"] "") /\
  loginBox (run_timers (exec showLoginBoxFallback (page JNull)))
    = Some (mkElement ["for-login"; "theme-ready"] "").
Proof.
  split.
  - apply (proj1 (login_box_revealed (page theme_all_hidden))). reflexivity.
  - apply (proj2 (login_box_revealed (page JNull))).
Defined.

(** X15.  [refreshTheme] never throws and always makes one request.
    It dispatches [themeRefreshed], with the theme state as
    [detail.themeData], exactly when the load and the application both
    returned; otherwise it logs the error of the step that threw. *)
Theorem refreshTheme_never_throws (w : World) (net : Network) :
  let w1 := exec (refreshTheme net) w in
  requests w1 = S (requests w) /\
  exists notice,
    outcome (refreshTheme net) w = Ok notice /\
    match notice with
    | ThemeRefreshed detail =>
        detail = JObj [("themeData", themeData w1)] /\
        outcome (loadTheme net) w = Ok tt /\
        outcome applyTheme (exec (loadTheme net) w) = Ok tt
    | ConsoleError error =>
        outcome (loadTheme net) w = Throw error \/
        (outcome (loadTheme net) w = Ok tt /\
         outcome applyTheme (exec (loadTheme net) w) = Throw error)
    end.
Proof.
  intros w1. unfold w1, outcome, exec, refreshTheme, try_catch. rewrite run_bind.
  pose proof (loadTheme_requests net w) as Hr. unfold exec in Hr.
  destruct (loadTheme net w) as [[[]|e] w2]; simpl in *.
  - rewrite run_bind.
    pose proof (applyTheme_browser w2) as Hb. unfold browser, exec in Hb.
    injection Hb as _ _ Hb.
    destruct (applyTheme w2) as [[[]|e] w3]; simpl in *.
    + split; [congruence|]. eexists. split; [reflexivity|]. by repeat split.
    + split; [congruence|]. eexists. split; [reflexivity|]. right. by split.
  - split; [done|]. eexists. split; [reflexivity|]. by left.
Qed.

(** X16.  A truthy [hide_search] that is not an array makes
    [getUserRoles] throw a TypeError for a user with at least one role;
    on a page with a search bar [applyTheme] then throws after the
    style declaration is in place and before the timer that reveals the
    login box is set. *)
Theorem malformed_hide_search_throws (w : World) (v : JsVal) (role : string)
    (others : list string) :
  (themeData w)#"hide_search" = Some v ->
  truthy v = true ->
  (forall items, v <> JArr items) ->
  roles w = Some (role :: others) ->
  outcome getUserRoles w = Throw TypeError /\
  (searchBar w <> None ->
   outcome applyTheme w = Throw TypeError /\
   style (exec applyTheme w) = themed_style (themeData w) (style w) /\
   timers (exec applyTheme w) = timers w).
Proof.
  intros Hv Ht Harr Hr.
  assert (Hnn : themeData w <> JNull) by (intros H; by rewrite H in Hv).
  assert (Hmatch : userRolesMatch (roles w) (themeData w) = Throw TypeError).
  { unfold userRolesMatch. rewrite Hr.
    replace (get_opt (themeData w) "hide_search") with (Some v)
      by (destruct (themeData w); done).
    simpl. rewrite Ht. simpl.
    destruct v; try done; try by destruct (Harr items).
    all: by case_bool_decide. }
  split; [unfold outcome; by rewrite getUserRoles_run, Hmatch|].
  intros Hsb.
  assert (Hrun : exists w2,
            applyTheme w = (toggleSearchBar;; setDefaultApp;; showLoginBox) w2 /\
            themeData w2 = themeData w /\ roles w2 = roles w /\
            searchBar w2 = searchBar w /\ timers w2 = timers w).
  { rewrite applyTheme_theme by done.
    set (w1 := with_style _ w).
    assert (H1 : themeData w1 = themeData w) by (by destruct w).
    rewrite run_bind, toggleSidebar_run by (by rewrite H1).
    eexists. split; [reflexivity|].
    destruct (sidebarContainer w1); by destruct w. }
  destruct Hrun as [w2 [Hrun [H2 [H3 [H4 H5]]]]].
  split; [|split].
  - unfold outcome. rewrite Hrun, run_bind, toggleSearchBar_run, H2, H3, H4, Hmatch.
    by destruct (searchBar w).
  - rewrite applyTheme_style. apply is_null_false in Hnn. by rewrite Hnn.
  - unfold exec. rewrite Hrun, run_bind, toggleSearchBar_run, H2, H3, H4, Hmatch.
    destruct (searchBar w) eqn:Hs; [|done]. simpl. by destruct w2.
Qed.

Lemma malformed_hide_search_throws_witness :
  let w := page (JObj [("hide_search", JStr "Sales User")]) in
  outcome getUserRoles w = Throw TypeError /\
  outcome applyTheme w = Throw TypeError /\
  style (exec applyTheme w) = themed_style (themeData w) (style w) /\
  timers (exec applyTheme w) = timers w.
Proof.
  intros w.
  destruct (malformed_hide_search_throws w (JStr "Sales User") "Sales User" []
              eq_refl eq_refl ltac:(discriminate) eq_refl) as [H1 H2].
  split; [exact H1|]. apply H2. discriminate.
Defined.

Lemma setDefaultApp_guarded_witness :
  let theme := JObj [("hide_app_switcher", JNum 1); ("default_app", JStr "crm")] in
  let picky := mkSwitcher (fun app => is_str (Some app) "crm") in
  let deaf := mkSwitcher (fun _ => false) in
  let w := page theme in
  exec setDefaultApp w = w /\
  current_app (exec setDefaultApp
                 (mkWorld theme ∅ None None None [] [] (mkStorage true true None) 0 0
                    None (Some picky) None 0)) = Some (JStr "crm") /\
  warnings (exec setDefaultApp
              (mkWorld theme ∅ None None None [] [] (mkStorage true true None) 0 0
                 None (Some deaf) None 0)) = 1%nat.
Proof.
  intros theme picky deaf w. split; [|split].
  - destruct (setDefaultApp_guarded w ltac:(discriminate)) as [_ [_ [_ [_ [H _]]]]].
    apply H. right. right. reflexivity.
  - destruct (setDefaultApp_guarded
                (mkWorld theme ∅ None None None [] [] (mkStorage true true None) 0 0
                   None (Some picky) None 0) ltac:(discriminate))
      as [_ [_ [_ [_ [_ H]]]]].
    exact (proj1 (H picky (JStr "crm") eq_refl eq_refl eq_refl eq_refl)).
  - destruct (setDefaultApp_guarded
                (mkWorld theme ∅ None None None [] [] (mkStorage true true None) 0 0
                   None (Some deaf) None 0) ltac:(discriminate))
      as [_ [_ [_ [_ [_ H]]]]].
    exact (proj2 (H deaf (JStr "crm") eq_refl eq_refl eq_refl eq_refl)).
Defined.

Section Confined.

Context (names : list string).

Lemma confined_setProperty name value : name ∈ names -> confined names (setProperty name value).
Proof. intros H k Hk. apply untouched_setProperty. by intros ->. Qed.

Lemma confined_removeProperty name : name ∈ names -> confined names (removeProperty name).
Proof. intros H k Hk. apply untouched_removeProperty. by intros ->. Qed.

Lemma confined_block (l : list Stmt) : Forall (confined names) l -> confined names (block l).
Proof.
  intros H k Hk. induction H as [|f l Hf _ IH]; intros st; [reflexivity|].
  rewrite block_cons, IH. by apply Hf.
Qed.

Lemma confined_when c (l : list Stmt) : Forall (confined names) l -> confined names (when c l).
Proof.
  intros H. unfold when. destruct c; [by apply confined_block|]. by intros k Hk st.
Qed.

Lemma confined_copy_field theme field name :
  name ∈ names -> confined names (copy_field theme field name).
Proof.
  intros H. apply confined_when.
  apply Forall_cons_2; [by apply confined_setProperty | apply Forall_nil_2].
Qed.

End Confined.

Ltac in_vocabulary := refine (bool_decide_unpack _ _); vm_compute; exact I.

Lemma reset_style_confined : confined vocabulary reset_style.
Proof.
  change reset_style with (block [clearCSSVariables; block setDefaultCSSVariables]).
  apply confined_block. apply Forall_cons_2; [|apply Forall_cons_2; [|apply Forall_nil_2]].
  - apply confined_block. apply Forall_forall. intros f Hf.
    apply list_elem_of_fmap in Hf as [name [-> Hname]].
    apply confined_removeProperty. unfold vocabulary. apply elem_of_app. by left.
  - apply confined_block. unfold setDefaultCSSVariables.
    repeat first
      [ apply Forall_nil_2 | apply Forall_cons_2
      | apply confined_setProperty; in_vocabulary ].
Qed.

Lemma themed_style_confined theme : confined vocabulary (themed_style theme).
Proof.
  change (themed_style theme) with (block [reset_style; block (themed_statements theme)]).
  apply confined_block. apply Forall_cons_2; [apply reset_style_confined|].
  apply Forall_cons_2; [|apply Forall_nil_2].
  apply confined_block. unfold themed_statements.
  repeat first
    [ apply Forall_nil_2 | apply Forall_cons_2
    | apply confined_when
    | apply confined_copy_field; in_vocabulary
    | apply confined_setProperty; in_vocabulary ].
Qed.

(** X17.  [applyTheme] leaves every style property outside its own
    vocabulary (the list of [clearCSSVariables] and the five further
    names [setCSSVariables] writes) exactly as it found it, for every
    theme state. *)
Theorem applyTheme_touches_only_its_vocabulary (w : World) (k : string) :
  k ∉ vocabulary -> style (exec applyTheme w) !! k = style w !! k.
Proof.
  intros Hk. rewrite applyTheme_style. destruct (is_null (themeData w)).
  - by apply reset_style_confined.
  - by apply themed_style_confined.
Qed.

Lemma applyTheme_touches_only_its_vocabulary_witness :
  style (exec applyTheme (with_style {["--brand-color" := "teal"]} (page theme_all_hidden)))
    !! "--brand-color" = Some "teal".
Proof.
  rewrite (applyTheme_touches_only_its_vocabulary _ "--brand-color").
  - reflexivity.
  - refine (bool_decide_unpack _ _). vm_compute. exact I.
Defined.

Lemma reset_listed_fresh (k : string) (st st' : Style) :
  k ∈ cssVariables -> reset_style st !! k = reset_style st' !! k.
Proof.
  intros Hk.
  destruct (decides_then k clearCSSVariables (block setDefaultCSSVariables)) as [r Hr].
  - exists None. intros s. by apply clearCSSVariables_clears.
  - apply setDefaultCSSVariables_oblivious.
  - unfold reset_style. by rewrite !Hr.
Qed.

(** X18.  For a property on the list of [clearCSSVariables], and for
    [--login-box-width], the value after [applyTheme] depends on the
    theme state only: two worlds with the same theme state end with the
    same value, whatever their style declarations held before. *)
Theorem listed_properties_never_stale (w w' : World) (k : string) :
  k ∈ cssVariables \/ k = "--login-box-width" ->
  themeData w = themeData w' ->
  style (exec applyTheme w) !! k = style (exec applyTheme w') !! k.
Proof.
  intros Hk Ht. rewrite !applyTheme_style, <- Ht.
  destruct (is_null (themeData w)).
  - destruct Hk as [Hk | ->]; [by apply reset_listed_fresh|].
    assert (H : acts "--login-box-width" reset_style (Some (Some "400px")))
      by (eapply acts_eq; [acts_reset | reflexivity]).
    by rewrite !H.
  - destruct Hk as [Hk | ->]; [by apply listed_property_fresh|].
    assert (H : acts "--login-box-width" (themed_style (themeData w)) (Some (Some "400px")))
      by (eapply acts_eq; [acts_themed | reflexivity]).
    by rewrite !H.
Qed.

Lemma listed_properties_never_stale_witness :
  style (exec applyTheme (with_style {["--navbar-bg" := "red"]} (page theme_all_hidden)))
    !! "--navbar-bg"
  = style (exec applyTheme (page theme_all_hidden)) !! "--navbar-bg".
Proof.
  apply listed_properties_never_stale.
  - left. refine (bool_decide_unpack _ _). vm_compute. exact I.
  - reflexivity.
Defined.

Lemma plain_truthy (s : string) : plain s = true -> truthy (JStr s) = true.
Proof. by destruct s. Qed.

Lemma effect_plain (s : string) : plain s = true -> effect s = Some (Some s).
Proof.
  intros H. unfold effect. rewrite (declaration_value_plain s H). by destruct s.
Qed.

Lemma effect_trimmed (s : string) :
  plain (css_trim s) = true -> s <> "" /\ effect s = Some (Some (css_trim s)).
Proof.
  intros H. assert (Hne : s <> "") by (by intros ->). split; [done|].
  unfold effect. rewrite (declaration_value_trimmed s H).
  apply String.eqb_neq in Hne. by rewrite Hne.
Qed.

Lemma copied_fields_act (theme : JsVal) :
  Forall (fun p => acts p.2 (themed_style theme)
                     (Some (if truthy_opt theme#(p.1)
                            then from_option id None (effect (css_arg theme#(p.1)))
                            else None)))
         copied_fields.
Proof.
  unfold copied_fields.
  repeat first
    [ apply Forall_nil_2
    | apply Forall_cons_2;
      [ cbn [fst snd]; eapply acts_eq; [acts_themed|];
        destruct (truthy_opt _); [by destruct (effect _) | done] | ] ].
Qed.

(** X19.  Each of the 29 colour fields of [copied_fields] is copied to
    its property: a colour written with letters, digits, spaces and
    the signs # % , . - _ only (a keyword, a hexadecimal colour) is
    stored, without the white space around it if there is any; when
    the field is absent or falsy the property is left cleared. *)
Theorem colour_fields_are_copied (w : World) (field name : string) :
  (field, name) ∈ copied_fields ->
  themeData w <> JNull ->
  let st := style (exec applyTheme w) in
  (forall colour, (themeData w)#field = Some (JStr colour) ->
     plain (css_trim colour) = true -> st !! name = Some (css_trim colour)) /\
  (truthy_opt (themeData w)#field = false -> st !! name = None).
Proof.
  intros Hin Hnn st. unfold st.
  pose proof (copied_fields_act (themeData w)) as H.
  rewrite Forall_forall in H. specialize (H (field, name) Hin). cbn [fst snd] in H.
  rewrite applyTheme_style. apply is_null_false in Hnn. rewrite Hnn. split.
  - intros colour Hf Hp. destruct (effect_trimmed colour Hp) as [Hne He].
    rewrite H, Hf. cbn [truthy_opt truthy css_arg ToString_opt ToString].
    apply String.eqb_neq in Hne. by rewrite Hne, He.
  - intros Hf. by rewrite H, Hf.
Qed.

Lemma colour_fields_are_copied_witness :
  style (exec applyTheme (page (JObj [("navbar_color", JStr "#0b5394")]))) !! "--navbar-bg"
  = Some "#0b5394" /\
  style (exec applyTheme (page (JObj [("navbar_color", JStr " #fff ")]))) !! "--navbar-bg"
  = Some "#fff" /\
  style (exec applyTheme (page (JObj [("navbar_color", JStr "")]))) !! "--navbar-bg" = None.
Proof.
  split; [|split].
  - apply (proj1 (colour_fields_are_copied
                    (page (JObj [("navbar_color", JStr "#0b5394")]))
                    "navbar_color" "--navbar-bg"
                    ltac:(refine (bool_decide_unpack _ _); vm_compute; exact I)
                    ltac:(discriminate)) "#0b5394");
      reflexivity.
  - apply (proj1 (colour_fields_are_copied
                    (page (JObj [("navbar_color", JStr " #fff ")]))
                    "navbar_color" "--navbar-bg"
                    ltac:(refine (bool_decide_unpack _ _); vm_compute; exact I)
                    ltac:(discriminate)) " #fff ");
      reflexivity.
  - apply (proj2 (colour_fields_are_copied
                    (page (JObj [("navbar_color", JStr "")]))
                    "navbar_color" "--navbar-bg"
                    ltac:(refine (bool_decide_unpack _ _); vm_compute; exact I)
                    ltac:(discriminate))).
    reflexivity.
Defined.

(** A colour that is not a value of CSS is not stored: the property
    stays as the reset left it. *)
Example colour_with_a_semicolon :
  style (exec applyTheme (page (JObj [("navbar_color", JStr "red; color: blue")])))
    !! "--navbar-bg" = None /\
  style (exec applyTheme (page (JObj [("login_box_background_color", JStr "red;")])))
    !! "--login-box-bg" = Some "#fff".
Proof. vm_compute. repeat split. Qed.

Ltac themed_acts H k theme :=
  eassert (H : acts k (themed_style theme) _) by acts_themed.

(** X20.  A truthy [login_box_position] other than Default makes the
    login box absolute; the right offset is 10% only for Right and the
    left offset 10% only for Left (any other value leaves both at
    auto), and the padding follows [is_app_details_inside_the_box]. *)
Theorem login_box_position_mapping (w : World) (position : JsVal) :
  (themeData w)#"login_box_position" = Some position ->
  truthy position = true ->
  position <> JStr "Default" ->
  let theme := themeData w in
  let st := style (exec applyTheme w) in
  st !! "--login-box-position" = Some "absolute" /\
  st !! "--login-box-right" = Some (if is_str (Some position) "Right" then "10%" else "auto") /\
  st !! "--login-box-left" = Some (if is_str (Some position) "Left" then "10%" else "auto") /\
  st !! "--login-box-padding" =
    Some (if is_num theme#"is_app_details_inside_the_box" 1
          then "18px 40px 40px 40px" else "40px").
Proof.
  intros Hp Ht Hd theme st. unfold st, theme.
  rewrite (applyTheme_style_field w _ _ Hp).
  assert (Hcond : truthy_opt (themeData w)#"login_box_position"
                  && negb (is_str (themeData w)#"login_box_position" "Default") = true).
  { rewrite Hp. simpl. rewrite Ht. simpl. apply negb_true_iff.
    destruct (is_str (Some position) "Default") eqn:Hs; [|done].
    apply is_str_true in Hs. congruence. }
  themed_acts H1 "--login-box-position" (themeData w).
  themed_acts H2 "--login-box-right" (themeData w).
  themed_acts H3 "--login-box-left" (themeData w).
  themed_acts H4 "--login-box-padding" (themeData w).
  rewrite H1, H2, H3, H4, Hcond, Hp.
  destruct (is_str (Some position) "Right"), (is_str (Some position) "Left"),
    (is_num (themeData w)#"is_app_details_inside_the_box" 1); by repeat split.
Qed.

Lemma login_box_position_mapping_witness :
  let st := style (exec applyTheme (page (JObj [("login_box_position", JStr "Center")]))) in
  st !! "--login-box-position" = Some "absolute" /\
  st !! "--login-box-right" = Some "auto" /\
  st !! "--login-box-left" = Some "auto" /\
  st !! "--login-box-padding" = Some "40px".
Proof.
  apply (login_box_position_mapping
           (page (JObj [("login_box_position", JStr "Center")])) (JStr "Center"));
    [reflexivity | reflexivity | discriminate].
Defined.

(** X21.  With [is_app_details_inside_the_box] exactly 1 the box top is
    26%, the content border none, the radius 10px, and the background
    override is [login_box_background_color]: a colour written with
    letters, digits, spaces and the signs # % , . - _ only is stored as
    it is, and when the field is absent the override is the word
    undefined.  With any other present value of the flag the top is
    18%, the border the default one, and radius and override are
    unset. *)
Theorem app_details_inside_the_box (w : World) :
  let theme := themeData w in
  let st := style (exec applyTheme w) in
  (theme#"is_app_details_inside_the_box" = Some (JNum 1) ->
   st !! "--login-box-top" = Some "26%" /\
   st !! "--login-content-border" = Some "none" /\
   st !! "--login-box-border-radius" = Some "10px" /\
   (forall colour, theme#"login_box_background_color" = Some (JStr colour) ->
      plain colour = true -> st !! "--login-box-bg-override" = Some colour) /\
   (theme#"login_box_background_color" = None ->
    st !! "--login-box-bg-override" = Some "undefined")) /\
  (forall v, theme#"is_app_details_inside_the_box" = Some v -> v <> JNum 1 ->
   st !! "--login-box-top" = Some "18%" /\
   st !! "--login-content-border" = Some "2px solid #d1d8dd" /\
   st !! "--login-box-border-radius" = None /\
   st !! "--login-box-bg-override" = None).
Proof.
  intros theme st. unfold st, theme.
  themed_acts H1 "--login-box-top" (themeData w).
  themed_acts H2 "--login-content-border" (themeData w).
  themed_acts H3 "--login-box-border-radius" (themeData w).
  themed_acts H4 "--login-box-bg-override" (themeData w).
  split.
  - intros Hv. rewrite (applyTheme_style_field w _ _ Hv).
    split; [by rewrite H1, Hv|]. split; [by rewrite H2, Hv|].
    split; [by rewrite H3, Hv|]. split.
    + intros colour Hc Hp. rewrite H4, Hv, Hc.
      cbn [is_num Z.eqb Pos.eqb css_arg ToString_opt ToString].
      by rewrite (effect_plain colour Hp).
    + intros Hc. by rewrite H4, Hv, Hc.
  - intros v Hv Hne. rewrite (applyTheme_style_field w _ _ Hv).
    assert (Hn : is_num (themeData w)#"is_app_details_inside_the_box" 1 = false).
    { destruct (is_num _ 1) eqn:Hn; [|done]. apply is_num_true in Hn. congruence. }
    rewrite H1, H2, H3, H4, Hn, Hv. by repeat split.
Qed.

Lemma app_details_inside_the_box_witness :
  let st1 := style (exec applyTheme (page (JObj [("is_app_details_inside_the_box", JNum 1)]))) in
  let st2 := style (exec applyTheme
                      (page (JObj [("is_app_details_inside_the_box", JNum 1);
                                   ("login_box_background_color", JStr "#f4f5f6")]))) in
  let st0 := style (exec applyTheme (page (JObj [("is_app_details_inside_the_box", JNum 0)]))) in
  st1 !! "--login-box-top" = Some "26%" /\
  st1 !! "--login-box-bg-override" = Some "undefined" /\
  st2 !! "--login-box-bg-override" = Some "#f4f5f6" /\
  st0 !! "--login-box-top" = Some "18%" /\
  st0 !! "--login-box-bg-override" = None.
Proof.
  destruct (app_details_inside_the_box
              (page (JObj [("is_app_details_inside_the_box", JNum 1)]))) as [H1 _].
  destruct (app_details_inside_the_box
              (page (JObj [("is_app_details_inside_the_box", JNum 1);
                           ("login_box_background_color", JStr "#f4f5f6")]))) as [H2 _].
  destruct (app_details_inside_the_box
              (page (JObj [("is_app_details_inside_the_box", JNum 0)]))) as [_ H0].
  destruct (H1 eq_refl) as [A [_ [_ [_ B]]]].
  destruct (H2 eq_refl) as [_ [_ [_ [E _]]]].
  destruct (H0 (JNum 0) eq_refl ltac:(discriminate)) as [C [_ [_ D]]].
  split; [exact A|]. split; [exact (B eq_refl)|].
  split; [exact (E "#f4f5f6" eq_refl eq_refl)|]. split; [exact C|exact D].
Defined.

(** X22.  A truthy [login_page_title] hides the default heading and
    shows the generated one, coloured by [page_heading_text_color]; a
    title of printable ASCII characters without apostrophe and
    backslash is stored between two single quotes as the content; an
    image path of printable ASCII characters without double quote and
    backslash is stored between url(" and "). *)
Theorem interpolated_values (w : World) :
  let theme := themeData w in
  let st := style (exec applyTheme w) in
  (forall title, theme#"login_page_title" = Some title -> truthy title = true ->
     st !! "--login-title-display" = Some "none" /\
     st !! "--login-title-after-display" = Some "flex" /\
     st !! "--login-title-after-justify" = Some "center" /\
     st !! "--login-title-after-margin" = Some "10px" /\
     (forall colour, theme#"page_heading_text_color" = Some (JStr colour) ->
        plain colour = true -> st !! "--login-title-after-color" = Some colour) /\
     (truthy_opt theme#"page_heading_text_color" = false ->
        st !! "--login-title-after-color" = None)) /\
  (forall title, theme#"login_page_title" = Some (JStr title) -> title <> "" ->
     quotable "'" title = true ->
     st !! "--login-title-after-content" = Some ("'" +:+ title +:+ "'")) /\
  (forall image, theme#"login_page_background_image" = Some (JStr image) -> image <> "" ->
     quotable dquote_char image = true ->
     st !! "--login-bg-image" = Some ("url(" +:+ dquote +:+ image +:+ dquote +:+ ")")).
Proof.
  intros theme st. unfold st, theme. split; [|split].
  - intros title Hp Ht. rewrite (applyTheme_style_field w _ _ Hp).
    themed_acts H1 "--login-title-display" (themeData w).
    themed_acts H2 "--login-title-after-display" (themeData w).
    themed_acts H3 "--login-title-after-justify" (themeData w).
    themed_acts H4 "--login-title-after-margin" (themeData w).
    themed_acts H6 "--login-title-after-color" (themeData w).
    rewrite H1, H2, H3, H4, Hp. cbn [truthy_opt]. rewrite Ht.
    split; [done|]. split; [done|]. split; [done|]. split; [done|]. split.
    + intros colour Hc Hpl. rewrite H6, Hp, Hc.
      cbn [truthy_opt css_arg ToString_opt ToString].
      by rewrite Ht, (plain_truthy colour Hpl), (effect_plain colour Hpl).
    + intros Hc. by rewrite H6, Hp, Hc; cbn [truthy_opt]; rewrite Ht.
  - intros title Hp Hne Hq. rewrite (applyTheme_style_field w _ _ Hp).
    themed_acts H5 "--login-title-after-content" (themeData w).
    rewrite H5, Hp. cbn [truthy_opt truthy ToString_opt ToString].
    assert (Ht : negb (String.eqb title "") = true)
      by (apply negb_true_iff; by apply String.eqb_neq).
    rewrite Ht. unfold effect. rewrite (declaration_value_quoted title Hq). reflexivity.
  - intros image Hp Hne Hq. rewrite (applyTheme_style_field w _ _ Hp).
    themed_acts H1 "--login-bg-image" (themeData w).
    rewrite H1, Hp. cbn [truthy_opt truthy ToString_opt ToString].
    assert (Ht : negb (String.eqb image "") = true)
      by (apply negb_true_iff; by apply String.eqb_neq).
    rewrite Ht. unfold effect. rewrite (declaration_value_url image Hq). reflexivity.
Qed.

Lemma interpolated_values_witness :
  let theme := JObj [("login_page_title", JStr "Welcome to the desk");
                     ("page_heading_text_color", JStr "#123456");
                     ("login_page_background_image", JStr "/files/bg.png")] in
  let st := style (exec applyTheme (page theme)) in
  st !! "--login-title-display" = Some "none" /\
  st !! "--login-title-after-color" = Some "#123456" /\
  st !! "--login-title-after-content" = Some "'Welcome to the desk'" /\
  st !! "--login-bg-image" = Some ("url(" +:+ dquote +:+ "/files/bg.png" +:+ dquote +:+ ")").
Proof.
  intros theme st.
  destruct (interpolated_values (page theme)) as [Hshown [Htitle Himage]].
  destruct (Hshown (JStr "Welcome to the desk") eq_refl eq_refl) as [H1 [_ [_ [_ [H5 _]]]]].
  split; [exact H1|]. split; [exact (H5 "#123456" eq_refl eq_refl)|].
  split; [exact (Htitle "Welcome to the desk" eq_refl ltac:(discriminate) eq_refl)|].
  exact (Himage "/files/bg.png" eq_refl ltac:(discriminate) eq_refl).
Defined.

(** The title is not escaped: an apostrophe ends the string of the
    content early, and a semicolon behind it makes the content no value
    of CSS.  The default heading is then hidden and the generated one
    has no content. *)
Example title_with_apostrophe_and_semicolon :
  let st := style (exec applyTheme (page (JObj [("login_page_title", JStr "Bob's; desk")]))) in
  st !! "--login-title-display" = Some "none" /\
  st !! "--login-title-after-display" = Some "flex" /\
  st !! "--login-title-after-content" = None.
Proof. vm_compute. repeat split. Qed.

(** X23.  For a theme state that is not [null], a property whose
    fields are missing holds its default after [applyTheme]: block for
    the three visibility properties (auto for pointer events), no
    [--sidebar-expanded], a static login box with auto offsets (also
    for the position Default), top 18% with the default border, the
    default heading shown, a white login box; and six properties always
    hold their default. *)
Theorem missing_fields_leave_defaults (w : World) :
  themeData w <> JNull ->
  let theme := themeData w in
  let st := style (exec applyTheme w) in
  (theme#"hide_help_button" = None -> st !! "--hide-help" = Some "block") /\
  (theme#"hide_app_switcher" = None ->
     st !! "--hide-app-switcher" = Some "block" /\
     st !! "--app-switcher-pointer-events" = Some "auto") /\
  (theme#"table_hide_like_comment_section" = None ->
     st !! "--hide-like-comment" = Some "block") /\
  (theme#"hide_side_bar" = None -> st !! "--sidebar-expanded" = None) /\
  (truthy_opt theme#"login_box_position" = false \/
   theme#"login_box_position" = Some (JStr "Default") ->
     st !! "--login-box-position" = Some "static" /\
     st !! "--login-box-right" = Some "auto" /\
     st !! "--login-box-left" = Some "auto") /\
  (theme#"is_app_details_inside_the_box" = None ->
     st !! "--login-box-top" = Some "18%" /\
     st !! "--login-content-border" = Some "2px solid #d1d8dd") /\
  (truthy_opt theme#"login_page_title" = false ->
     st !! "--login-title-display" = Some "block" /\
     st !! "--login-title-after-display" = Some "none" /\
     st !! "--login-title-after-content" = None) /\
  (truthy_opt theme#"login_box_background_color" = false ->
     st !! "--login-box-bg" = Some "#fff") /\
  st !! "--login-box-width" = Some "400px" /\
  st !! "--search-bar-display" = Some "block" /\
  st !! "--navbar-toggler-border" = Some "#dee2e6" /\
  st !! "--breadcrumb-disabled-color" = Some "#6c757d" /\
  st !! "--help-nav-link-color" = Some "inherit" /\
  st !! "--help-nav-link-stroke" = Some "currentColor".
Proof.
  intros Hnn theme st. unfold st, theme. rewrite applyTheme_style.
  apply is_null_false in Hnn. rewrite Hnn.
  themed_acts A1 "--hide-help" (themeData w).
  themed_acts A2 "--hide-app-switcher" (themeData w).
  themed_acts A3 "--app-switcher-pointer-events" (themeData w).
  themed_acts A4 "--hide-like-comment" (themeData w).
  themed_acts A5 "--sidebar-expanded" (themeData w).
  themed_acts A6 "--login-box-position" (themeData w).
  themed_acts A7 "--login-box-right" (themeData w).
  themed_acts A8 "--login-box-left" (themeData w).
  themed_acts A9 "--login-box-top" (themeData w).
  themed_acts A10 "--login-content-border" (themeData w).
  themed_acts A11 "--login-title-display" (themeData w).
  themed_acts A12 "--login-title-after-display" (themeData w).
  themed_acts A13 "--login-title-after-content" (themeData w).
  themed_acts A14 "--login-box-bg" (themeData w).
  themed_acts A15 "--login-box-width" (themeData w).
  themed_acts A16 "--search-bar-display" (themeData w).
  themed_acts A17 "--navbar-toggler-border" (themeData w).
  themed_acts A18 "--breadcrumb-disabled-color" (themeData w).
  themed_acts A19 "--help-nav-link-color" (themeData w).
  themed_acts A20 "--help-nav-link-stroke" (themeData w).
  rewrite A1, A2, A3, A4, A5, A6, A7, A8, A9, A10, A11, A12, A13, A14, A15, A16, A17,
    A18, A19, A20.
  clear A1 A2 A3 A4 A5 A6 A7 A8 A9 A10 A11 A12 A13 A14 A15 A16 A17 A18 A19 A20.
  split; [by intros ->|].
  split; [by intros ->|].
  split; [by intros ->|].
  split; [by intros ->|].
  split.
  { intros [H|H]; rewrite H; [done|]. by repeat split. }
  split; [by intros ->|].
  split; [by intros ->|].
  split; [by intros ->|].
  by repeat split.
Qed.

Lemma missing_fields_leave_defaults_witness :
  let st := style (exec applyTheme (page theme_with_sidebar_color)) in
  st !! "--hide-help" = Some "block" /\
  st !! "--sidebar-expanded" = None /\
  st !! "--login-box-position" = Some "static" /\
  st !! "--login-box-top" = Some "18%" /\
  st !! "--login-box-bg" = Some "#fff".
Proof.
  intros st.
  destruct (missing_fields_leave_defaults (page theme_with_sidebar_color)
              ltac:(discriminate))
    as [H1 [_ [_ [H4 [H5 [H6 [_ [H8 _]]]]]]]].
  split; [exact (H1 eq_refl)|]. split; [exact (H4 eq_refl)|].
  split; [exact (proj1 (H5 (or_introl eq_refl)))|].
  split; [exact (proj1 (H6 eq_refl))|]. exact (H8 eq_refl).
Defined.
